(** * Sistema bancario: ledger (Account) and repository (Bank)

    A shallow embedding of [bank_system.py].

    Conventions of the embedding:
    - a Python [str] is a [string] (the bytes of its UTF-8 encoding);
    - a Python [int] is a [Z];
    - a Python [float] holding money is an exact rational [Q] where the
      order of the checks, the log and the repository are what matters:
      comparisons and the equality [==] of the source are [Qle]/[Qeq];
      where the values matter, [Binary64] has the two methods of the
      ledger on binary64 numbers, with rounding, infinities and NaN;
    - a naive [datetime] is the record of its calendar and clock fields;
    - a [dict] is an insertion-ordered association list;
    - a method is an action on the state of [self]; an exception leaves
      the state as it was when [raise] ran;
    - the clock readings ([now()], [date.today()]) are inputs of the
      actions that read the clock. *)

From Stdlib Require Import ZArith QArith Bool List String Ascii Lia Lqa.
From Stdlib Require Import DecimalString DecimalZ.
From Stdlib Require Import Floats.
Import ListNotations.

Local Open Scope string_scope.
Local Open Scope list_scope.
Local Open Scope Z_scope.

(* ================================================================== *)
(** * Calendar values *)

(** [datetime.date]: year, month, day. *)
Record date := mkDate { year : Z; month : Z; day : Z }.

(** A naive [datetime.datetime]: a date and a time of day. *)
Record datetime := mkDatetime {
  dt_date : date;          (* t.date() *)
  hour : Z;
  minute : Z;
  second : Z;
  microsecond : Z
}.

(** Comparison of dates, as Python compares them: by year, then month,
    then day. *)
Definition date_compare (a b : date) : comparison :=
  match year a ?= year b with
  | Eq => match month a ?= month b with
          | Eq => day a ?= day b
          | c => c
          end
  | c => c
  end.

Definition date_eqb (a b : date) : bool :=
  match date_compare a b with Eq => true | _ => false end.

Definition date_leb (a b : date) : bool :=
  match date_compare a b with Gt => false | _ => true end.

Definition date_geb (a b : date) : bool := date_leb b a.

Definition date_ltb (a b : date) : bool :=
  match date_compare a b with Lt => true | _ => false end.

Definition is_leap (y : Z) : bool :=
  (y mod 4 =? 0) && (negb (y mod 100 =? 0) || (y mod 400 =? 0)).

Definition days_in_month (y m : Z) : Z :=
  if m =? 2 then (if is_leap y then 29 else 28)
  else if (m =? 4) || (m =? 6) || (m =? 9) || (m =? 11) then 30
  else 31.

(** The next calendar date. *)
Definition tomorrow (d : date) : date :=
  if day d <? days_in_month (year d) (month d) then mkDate (year d) (month d) (day d + 1)
  else if month d <? 12 then mkDate (year d) (month d + 1) 1
  else mkDate (year d + 1) 1 1.

(** The order of the calendar: earlier or the same day. *)
Definition date_le (a b : date) : Prop :=
  year a < year b
  \/ (year a = year b
      /\ (month a < month b \/ (month a = month b /\ day a <= day b))).

(* ================================================================== *)
(** * Failures

    The source signals every failure by an exception; the constructors
    name the raise sites after the taxonomy of the specification.

    - [InvalidAmount]: [ValueError("O valor do depósito deve ser positivo.")]
      in [deposit], [ValueError("O valor do saque deve ser positivo.")] in
      [withdraw]
    - [InsufficientFunds]: [ValueError("Saldo insuficiente.")]
    - [PerOperationLimitExceeded limit]:
      [ValueError(f"Saque acima do limite por operação ({money(limit)}).")]
    - [DailyLimitExceeded]: [ValueError("Limite diário de saques atingido.")]
    - [DuplicateUser]: [ValueError("Já existe um usuário com esse CPF.")]
    - [UnknownUser]: [ValueError("Usuário não encontrado para criar conta.")]
    - [AccountNotFound]: [ValueError("Conta não encontrada.")]
    - [AuthenticationFailed]: [PermissionError("Credenciais inválidas.")]
    - [KeyError k]: a subscript [d[k]] on a dict without the key [k]
    - [TypeError]: a value of the wrong shape (also an unexpected or
      missing keyword of a dataclass constructor)
    - [InvalidIsoformat]: the [ValueError] of [datetime.fromisoformat] *)
Inductive error :=
| InvalidAmount
| InsufficientFunds
| PerOperationLimitExceeded (limit : Q)
| DailyLimitExceeded
| DuplicateUser
| UnknownUser
| AccountNotFound
| AuthenticationFailed
| KeyError (key : string)
| TypeError
| InvalidIsoformat.

(* ================================================================== *)
(** * Actions: state passing with exceptions *)

Inductive outcome (A : Type) :=
| Returned (a : A)
| Raised (e : error).
Arguments Returned {A} a.
Arguments Raised {A} e.

(** An action on a state of type [S]: the outcome and the state left
    behind.  A raised exception keeps the state reached so far. *)
Definition action (S A : Type) : Type := S -> outcome A * S.

Definition ret {S A} (a : A) : action S A := fun s => (Returned a, s).

Definition raise {S A} (e : error) : action S A := fun s => (Raised e, s).

Definition bind {S A B} (m : action S A) (k : A -> action S B) : action S B :=
  fun s =>
    match m s with
    | (Returned a, s') => k a s'
    | (Raised e, s') => (Raised e, s')
    end.

Definition get {S} : action S S := fun s => (Returned s, s).

Definition modify {S} (f : S -> S) : action S unit := fun s => (Returned tt, f s).

(** [if c: raise e] *)
Definition raise_if {S} (c : bool) (e : error) : action S unit :=
  if c then raise e else ret tt.

Declare Scope action_scope.
Delimit Scope action_scope with action.
Notation "x <- m ;; k" := (bind m (fun x => k))
  (at level 61, m at next level, right associativity) : action_scope.
Notation "m ;; k" := (bind m (fun _ => k))
  (at level 61, right associativity) : action_scope.

(** Python's [sum] over numbers: a left fold from [0]. *)
Definition sum_Z (l : list Z) : Z := fold_left Z.add l 0.
Definition sum_Q (l : list Q) : Q := fold_left Qplus l 0%Q.

(** [x > y] on amounts. *)
Definition Qgt_bool (x y : Q) : bool := negb (Qle_bool x y).

(* ================================================================== *)
(** * Transaction *)

Module Transaction.

Record t := mk {
  kind : string;            (* 'DEPOSITO' | 'SAQUE' *)
  amount : Q;
  timestamp : datetime;
  note : string
}.

End Transaction.

(* ================================================================== *)
(** * Account *)

Module Account.

Record t := mk {
  number : string;
  agency : string;
  owner_cpf : string;
  balance : Q;
  transactions : list Transaction.t;
  daily_withdraw_limit : Z;
  per_withdraw_limit_value : Q
}.

(** [Account(number=number, owner_cpf=owner_cpf)]: the other fields
    take the defaults of the dataclass. *)
Definition new (number owner_cpf : string) : t :=
  mk number "0001" owner_cpf 0%Q [] 3 500%Q.

(** [self.balance = v] *)
Definition set_balance (v : Q) (self : t) : t :=
  mk (number self) (agency self) (owner_cpf self) v (transactions self)
     (daily_withdraw_limit self) (per_withdraw_limit_value self).

(** [self.transactions.append(x)] *)
Definition append_transaction (x : Transaction.t) (self : t) : t :=
  mk (number self) (agency self) (owner_cpf self) (balance self)
     (transactions self ++ [x])
     (daily_withdraw_limit self) (per_withdraw_limit_value self).

(** [deposit]; [ts] is what [now()] returns when the transaction is
    built. *)
Definition deposit (ts : datetime) (amount : Q) (note : string) : action t unit :=
  (raise_if (Qle_bool amount 0) InvalidAmount ;;
   modify (fun self => set_balance (balance self + amount)%Q self) ;;
   modify (append_transaction (Transaction.mk "DEPOSITO" amount ts note)))%action.

(** [withdrawals_today]; [today] is what [date.today()] returns. *)
Definition withdrawals_today (today : date) (self : t) : Z :=
  sum_Z (map (fun _ => 1)
           (filter (fun x => (Transaction.kind x =? "SAQUE")%string
                             && date_eqb (dt_date (Transaction.timestamp x)) today)
                   (transactions self))).

(** [withdraw]; [today] is the clock reading of [withdrawals_today], [ts]
    the later reading of [now()] when the transaction is built. *)
Definition withdraw (today : date) (ts : datetime) (amount : Q) (note : string)
  : action t unit :=
  (raise_if (Qle_bool amount 0) InvalidAmount ;;
   self <- get ;;
   raise_if (Qgt_bool amount (balance self)) InsufficientFunds ;;
   self <- get ;;
   raise_if (Qgt_bool amount (per_withdraw_limit_value self))
            (PerOperationLimitExceeded (per_withdraw_limit_value self)) ;;
   self <- get ;;
   raise_if (withdrawals_today today self >=? daily_withdraw_limit self)
            DailyLimitExceeded ;;
   modify (fun self => set_balance (balance self - amount)%Q self) ;;
   modify (append_transaction (Transaction.mk "SAQUE" (- amount)%Q ts note)))%action.

(** [statement]: a date object is always true, so [if start:] tests
    [start is not None]. *)
Definition statement (start end_ : option date)
  : action t (list Transaction.t * Q) :=
  (self <- get ;;
   let txs := transactions self in
   let txs := match start with
              | Some s => filter (fun x => date_geb (dt_date (Transaction.timestamp x)) s) txs
              | None => txs
              end in
   let txs := match end_ with
              | Some e => filter (fun x => date_leb (dt_date (Transaction.timestamp x)) e) txs
              | None => txs
              end in
   let balance := sum_Q (map Transaction.amount txs) in
   ret (txs, balance))%action.

End Account.

(* ================================================================== *)
(** * Insertion-ordered dictionaries *)

Section Dict.

Context {V : Type}.

Definition dict : Type := list (string * V).

(** [d.get(k)] *)
Fixpoint dict_get (k : string) (d : dict) : option V :=
  match d with
  | [] => None
  | (k', v) :: d' => if (k' =? k)%string then Some v else dict_get k d'
  end.

(** [k in d] *)
Definition dict_mem (k : string) (d : dict) : bool :=
  match dict_get k d with Some _ => true | None => false end.

(** [d[k] = v]: an existing key keeps its place, a new key goes last. *)
Fixpoint dict_set (k : string) (v : V) (d : dict) : dict :=
  match d with
  | [] => [(k, v)]
  | (k', v') :: d' =>
      if (k' =? k)%string then (k, v) :: d' else (k', v') :: dict_set k v d'
  end.

(** [d.keys()], [len(d)] *)
Definition dict_keys (d : dict) : list string := map fst d.
Definition len (d : dict) : Z := Z.of_nat (List.length d).

(** [d[k]] *)
Definition subscript {S} (k : string) (d : dict) : action S V :=
  match dict_get k d with
  | Some v => ret v
  | None => raise (KeyError k)
  end.

End Dict.
Arguments dict V : clear implicits.

(** [{k: f(v) for k, v in items}] *)
Definition dict_comprehension {A V} (f : A -> V) (items : list (string * A)) : dict V :=
  fold_left (fun d kv => dict_set (fst kv) (f (snd kv)) d) items [].

(** [str(n)] for an integer. *)
Definition str (n : Z) : string := NilZero.string_of_int (Z.to_int n).

(* ================================================================== *)
(** * SHA-256 (FIPS 180-4), the digest behind [hashlib.sha256]

    Words are 32-bit integers held in [Z]; additions wrap modulo 2^32. *)

Module SHA256.

Definition add32 (x y : Z) : Z := (x + y) mod 2 ^ 32.

Definition rotr (n x : Z) : Z :=
  Z.lor (Z.shiftr x n) (Z.shiftl x (32 - n) mod 2 ^ 32).

Definition Ch (x y z : Z) : Z :=
  Z.lxor (Z.land x y) (Z.land (Z.lxor x 0xffffffff) z).

Definition Maj (x y z : Z) : Z :=
  Z.lxor (Z.lxor (Z.land x y) (Z.land x z)) (Z.land y z).

Definition Sigma0 (x : Z) : Z := Z.lxor (Z.lxor (rotr 2 x) (rotr 13 x)) (rotr 22 x).
Definition Sigma1 (x : Z) : Z := Z.lxor (Z.lxor (rotr 6 x) (rotr 11 x)) (rotr 25 x).
Definition sigma0 (x : Z) : Z := Z.lxor (Z.lxor (rotr 7 x) (rotr 18 x)) (Z.shiftr x 3).
Definition sigma1 (x : Z) : Z := Z.lxor (Z.lxor (rotr 17 x) (rotr 19 x)) (Z.shiftr x 10).

(** The primes up to [n], by trial division. *)
Definition primes_upto (n : nat) : list Z :=
  filter (fun p => forallb (fun d => negb (p mod d =? 0))
                           (map Z.of_nat (seq 2 (Z.to_nat p - 2))))
         (map Z.of_nat (seq 2 (n - 1))).

(** The integer cube root, bit by bit from the bit [bits - 1] down. *)
Fixpoint cube_root (bits : nat) (n r : Z) : Z :=
  match bits with
  | O => r
  | S b =>
      let r' := r + 2 ^ Z.of_nat b in
      if r' ^ 3 <=? n then cube_root b n r' else cube_root b n r
  end.

(** The round constants: the first 32 bits of the fractional parts of
    the cube roots of the first 64 primes. *)
Definition K : list Z :=
  Eval vm_compute in
    map (fun p => cube_root 40 (p * 2 ^ 96) 0 mod 2 ^ 32) (primes_upto 311).

(** The initial hash value: the first 32 bits of the fractional parts
    of the square roots of the first 8 primes. *)
Definition H0 : list Z :=
  Eval vm_compute in
    map (fun p => Z.sqrt (p * 2 ^ 64) mod 2 ^ 32) (primes_upto 19).

(** The message followed by the bit 1, zeros, and its length in bits
    as a 64-bit big-endian integer: a multiple of 64 bytes. *)
Definition pad (msg : list Z) : list Z :=
  let n := Z.of_nat (List.length msg) in
  msg ++ [0x80] ++ repeat 0 (Z.to_nat ((55 - n) mod 64))
      ++ map (fun i => (8 * n / 2 ^ (8 * i)) mod 256) [7; 6; 5; 4; 3; 2; 1; 0].

(** Big-endian 32-bit words of a byte sequence. *)
Fixpoint words (fuel : nat) (bytes : list Z) : list Z :=
  match fuel, bytes with
  | S fuel', b3 :: b2 :: b1 :: b0 :: rest =>
      (((b3 * 256 + b2) * 256 + b1) * 256 + b0) :: words fuel' rest
  | _, _ => []
  end.

(** The message schedule: [w] holds the first words, [n] more follow. *)
Fixpoint schedule (n : nat) (w : list Z) : list Z :=
  match n with
  | O => w
  | S n' =>
      let i := List.length w in
      let g k := nth (i - k) w 0 in
      schedule n' (w ++ [add32 (add32 (sigma1 (g 2%nat)) (g 7%nat))
                               (add32 (sigma0 (g 15%nat)) (g 16%nat))])
  end.

Definition round (s : list Z) (kw : Z * Z) : list Z :=
  match s with
  | [a; b; c; d; e; f; g; h] =>
      let t1 := add32 (add32 (add32 h (Sigma1 e)) (add32 (Ch e f g) (fst kw))) (snd kw) in
      let t2 := add32 (Sigma0 a) (Maj a b c) in
      [add32 t1 t2; a; b; c; add32 d t1; e; f; g]
  | _ => s
  end.

Definition compress (h : list Z) (block : list Z) : list Z :=
  let w := schedule 48 block in
  let s := fold_left round (combine K w) h in
  map (fun p => add32 (fst p) (snd p)) (combine h s).

(** The 16-word blocks of a word sequence, folded into the state. *)
Fixpoint blocks (fuel : nat) (h : list Z) (ws : list Z) : list Z :=
  match fuel with
  | O => h
  | S fuel' =>
      match ws with
      | [] => h
      | _ => blocks fuel' (compress h (firstn 16 ws)) (skipn 16 ws)
      end
  end.

Definition digest (msg : list Z) : list Z :=
  let bytes := pad msg in
  let ws := words (List.length bytes) bytes in
  blocks (List.length ws) H0 ws.

Definition hexdigit (d : Z) : ascii :=
  nth (Z.to_nat d) (list_ascii_of_string "0123456789abcdef") "0"%char.

Definition hexword (w : Z) : list ascii :=
  map (fun i => hexdigit ((w / 16 ^ i) mod 16)) [7; 6; 5; 4; 3; 2; 1; 0].

(** [hashlib.sha256(bytes).hexdigest()] *)
Definition hexdigest (msg : list Z) : string :=
  string_of_list_ascii (List.concat (map hexword (digest msg))).

End SHA256.

(** [pwd.encode('utf-8')]: the bytes of the string. *)
Definition encode_utf8 (s : string) : list Z :=
  map (fun c => Z.of_N (N_of_ascii c)) (list_ascii_of_string s).

Definition hash_password (pwd : string) : string :=
  SHA256.hexdigest (encode_utf8 pwd).

(* ================================================================== *)
(** * ISO-8601 text of a timestamp

    [datetime.isoformat] and [datetime.fromisoformat] of the Python
    library, on naive timestamps: [YYYY-MM-DDTHH:MM:SS], followed by
    [.ffffff] when the microsecond is not zero.  [fromisoformat] is
    modelled on the texts of these two shapes only. *)

(** The values a [date] or [datetime] object can hold ([MINYEAR] is 1,
    [MAXYEAR] is 9999). *)
Definition valid_date (d : date) : bool :=
  (1 <=? year d) && (year d <=? 9999)
  && (1 <=? month d) && (month d <=? 12)
  && (1 <=? day d) && (day d <=? days_in_month (year d) (month d)).

Definition valid_datetime (t : datetime) : bool :=
  valid_date (dt_date t)
  && (0 <=? hour t) && (hour t <? 24)
  && (0 <=? minute t) && (minute t <? 60)
  && (0 <=? second t) && (second t <? 60)
  && (0 <=? microsecond t) && (microsecond t <? 1000000).

Definition digit (d : Z) : ascii := ascii_of_N (48 + Z.to_N d).

Definition digit_value (c : ascii) : option Z :=
  let n := Z.of_N (N_of_ascii c) in
  if (48 <=? n) && (n <=? 57) then Some (n - 48) else None.

(** The last [w] decimal digits of [n], written in front of [rest]
    (the [%0wd] of a number below [10^w]). *)
Fixpoint zfill_onto (w : nat) (n : Z) (rest : string) : string :=
  match w with
  | O => rest
  | S w' => zfill_onto w' (n / 10) (String (digit (n mod 10)) rest)
  end.

Definition isoformat (t : datetime) : string :=
  let d := dt_date t in
  zfill_onto 4 (year d) (String "-"
  (zfill_onto 2 (month d) (String "-"
  (zfill_onto 2 (day d) (String "T"
  (zfill_onto 2 (hour t) (String ":"
  (zfill_onto 2 (minute t) (String ":"
  (zfill_onto 2 (second t)
     (if microsecond t =? 0 then ""
      else String "." (zfill_onto 6 (microsecond t) "")))))))))))).

(** Reads exactly [w] digits from the front of [s]. *)
Fixpoint take_digits (w : nat) (acc : Z) (s : string) : option (Z * string) :=
  match w with
  | O => Some (acc, s)
  | S w' =>
      match s with
      | String c s' =>
          match digit_value c with
          | Some d => take_digits w' (10 * acc + d) s'
          | None => None
          end
      | EmptyString => None
      end
  end.

Definition expect (c : ascii) (s : string) : option string :=
  match s with
  | String c' s' => if Ascii.eqb c' c then Some s' else None
  | EmptyString => None
  end.

Notation "'let?' x ':=' m 'in' k" :=
  (match m with Some x => k | None => None end)
  (at level 10, x pattern, m at level 100, k at level 200, only parsing).

Definition fromisoformat (s : string) : option datetime :=
  let? (y, s) := take_digits 4 0 s in
  let? s := expect "-" s in
  let? (mo, s) := take_digits 2 0 s in
  let? s := expect "-" s in
  let? (d, s) := take_digits 2 0 s in
  let? s := expect "T" s in
  let? (h, s) := take_digits 2 0 s in
  let? s := expect ":" s in
  let? (mi, s) := take_digits 2 0 s in
  let? s := expect ":" s in
  let? (se, s) := take_digits 2 0 s in
  let? us :=
    match s with
    | EmptyString => Some 0
    | _ => let? s := expect "." s in
           let? (us, s) := take_digits 6 0 s in
           match s with EmptyString => Some us | _ => None end
    end in
  let t := mkDatetime (mkDate y mo d) h mi se us in
  if valid_datetime t then Some t else None.

(* ================================================================== *)
(** * JSON documents, as [json.load] returns them and [json.dump]
      takes them

    The text in the file is not part of the model: [json.load] reads
    back the value [json.dump] wrote. *)

#[warnings="-register-all"]
Inductive json :=
| JNull
| JBool (b : bool)
| JInt (n : Z)
| JFloat (q : Q)
| JString (s : string)
| JArray (items : list json)
| JObject (members : dict json).

Section Readers.

Context {S : Type}.

(** The readers give the Python value at its annotated type; a value
    of another type is reported as [TypeError]. *)
Definition as_str (j : json) : action S string :=
  match j with JString s => ret s | _ => raise TypeError end.

Definition as_int (j : json) : action S Z :=
  match j with JInt n => ret n | _ => raise TypeError end.

Definition as_float (j : json) : action S Q :=
  match j with
  | JFloat q => ret q
  | JInt n => ret (inject_Z n)
  | _ => raise TypeError
  end.

Definition as_list (j : json) : action S (list json) :=
  match j with JArray l => ret l | _ => raise TypeError end.

Definition as_dict (j : json) : action S (dict json) :=
  match j with JObject d => ret d | _ => raise TypeError end.

(** [for x in l: b = f(b, x)] *)
Fixpoint fold_m {A B} (f : B -> A -> action S B) (l : list A) (b : B) : action S B :=
  match l with
  | [] => ret b
  | x :: l' => (b' <- f b x ;; fold_m f l' b')%action
  end.

(** [for x in l: body(x)] *)
Definition for_each {A} (l : list A) (body : A -> action S unit) : action S unit :=
  fold_m (fun _ x => body x) l tt.

(** [[f(x) for x in l]] *)
Definition list_comprehension {A B} (f : A -> action S B) (l : list A)
  : action S (list B) :=
  fold_m (fun acc x => (y <- f x ;; ret (acc ++ [y]))%action) l [].

(** [{k: f(v) for k, v in items}] with an [f] that may raise *)
Definition dict_comprehension_m {A V} (f : A -> action S V) (items : list (string * A))
  : action S (dict V) :=
  fold_m (fun d kv => (v <- f (snd kv) ;; ret (dict_set (fst kv) v d))%action) items [].

(** [d.get(k, default)] read at a type *)
Definition get_default {A} (k : string) (d : dict json) (read : json -> action S A)
                       (default : A) : action S A :=
  match dict_get k d with
  | Some j => read j
  | None => ret default
  end.

(** [d[k]] read at a type *)
Definition item {A} (k : string) (d : dict json) (read : json -> action S A)
  : action S A :=
  (j <- subscript k d ;; read j)%action.

(** A required keyword argument of a dataclass constructor called
    with the members of [d] as keywords. *)
Definition keyword {A} (k : string) (d : dict json) (read : json -> action S A)
  : action S A :=
  match dict_get k d with
  | Some j => read j
  | None => raise TypeError
  end.

End Readers.

(* ================================================================== *)
(** * User *)

Module User.

Record t := mk {
  cpf : string;
  name : string;
  password_hash : string;
  accounts : list string    (* lista de numeros de conta *)
}.

(** [self.accounts.append(number)] *)
Definition append_account (number : string) (self : t) : t :=
  mk (cpf self) (name self) (password_hash self) (accounts self ++ [number]).

Definition fields : list string := ["cpf"; "name"; "password_hash"; "accounts"].

(** [User] called with the members of [ud] as keywords: every key of
    [ud] has to be a field, the first three fields are required and
    [accounts] defaults to a new list. *)
Definition of_kwargs {S} (ud : json) : action S t :=
  (kw <- as_dict ud ;;
   raise_if (negb (forallb (fun k => existsb (String.eqb k) fields) (dict_keys kw)))
            TypeError ;;
   cpf <- keyword "cpf" kw as_str ;;
   name <- keyword "name" kw as_str ;;
   password_hash <- keyword "password_hash" kw as_str ;;
   accounts <- get_default "accounts" kw
                 (fun j => l <- as_list j ;; list_comprehension as_str l) [] ;;
   ret (mk cpf name password_hash accounts))%action.

End User.

(* ================================================================== *)
(** * Bank *)

Module Bank.

Record t := mk {
  users : dict User.t;
  accounts : dict Account.t
}.

(** [Bank()] *)
Definition init : t := mk [] [].

Definition set_users (v : dict User.t) (self : t) : t := mk v (accounts self).
Definition set_accounts (v : dict Account.t) (self : t) : t := mk (users self) v.

(** ** Usuarios *)

Definition create_user (cpf name password : string) : action t unit :=
  (self <- get ;;
   raise_if (dict_mem cpf (users self)) DuplicateUser ;;
   modify (fun self =>
     set_users (dict_set cpf (User.mk cpf name (hash_password password) [])
                         (users self)) self))%action.

(** [auth]: a [User] object is always true, so [not u] tests
    [u is None]. *)
Definition auth (cpf password : string) : action t User.t :=
  (self <- get ;;
   match dict_get cpf (users self) with
   | None => raise AuthenticationFailed
   | Some u =>
       if negb (User.password_hash u =? hash_password password)%string
       then raise AuthenticationFailed
       else ret u
   end)%action.

(** ** Contas *)

Definition create_account (owner_cpf : string) : action t Account.t :=
  (self <- get ;;
   raise_if (negb (dict_mem owner_cpf (users self))) UnknownUser ;;
   self <- get ;;
   let number := str (100000 + len (accounts self) + 1) in   (* simples gerador *)
   let acc := Account.new number owner_cpf in
   modify (fun self => set_accounts (dict_set number acc (accounts self)) self) ;;
   self <- get ;;
   u <- subscript owner_cpf (users self) ;;
   modify (fun self =>
     set_users (dict_set owner_cpf (User.append_account number u) (users self)) self) ;;
   ret acc)%action.

Definition get_account (number : string) : action t Account.t :=
  (self <- get ;;
   raise_if (negb (dict_mem number (accounts self))) AccountNotFound ;;
   self <- get ;;
   subscript number (accounts self))%action.

(** ** Persistencia (JSON) *)

Definition serialize_transaction (x : Transaction.t) : json :=
  JObject [("kind", JString (Transaction.kind x));
           ("amount", JFloat (Transaction.amount x));
           ("timestamp", JString (isoformat (Transaction.timestamp x)));
           ("note", JString (Transaction.note x))].

Definition serialize_account (a : Account.t) : json :=
  JObject [("number", JString (Account.number a));
           ("agency", JString (Account.agency a));
           ("owner_cpf", JString (Account.owner_cpf a));
           ("balance", JFloat (Account.balance a));
           ("transactions", JArray (map serialize_transaction (Account.transactions a)));
           ("daily_withdraw_limit", JInt (Account.daily_withdraw_limit a));
           ("per_withdraw_limit_value", JFloat (Account.per_withdraw_limit_value a))].

Definition serialize_user (u : User.t) : json :=
  JObject [("cpf", JString (User.cpf u));
           ("name", JString (User.name u));
           ("password_hash", JString (User.password_hash u));
           ("accounts", JArray (map JString (User.accounts u)))].

(** [save]: the document [data] that [json.dump] writes to [path]. *)
Definition save (self : t) : json :=
  JObject [("users", JObject (dict_comprehension serialize_user (users self)));
           ("accounts", JObject (dict_comprehension serialize_account (accounts self)))].

Definition load_transaction {S} (j : json) : action S Transaction.t :=
  (x <- as_dict j ;;
   kind <- item "kind" x as_str ;;
   amount <- item "amount" x as_float ;;
   text <- item "timestamp" x as_str ;;
   timestamp <- match fromisoformat text with
                | Some ts => ret ts
                | None => raise InvalidIsoformat
                end ;;
   note <- get_default "note" x as_str "" ;;
   ret (Transaction.mk kind amount timestamp note))%action.

Definition load_account {S} (j : json) : action S Account.t :=
  (ad <- as_dict j ;;
   number <- item "number" ad as_str ;;
   agency <- item "agency" ad as_str ;;
   owner_cpf <- item "owner_cpf" ad as_str ;;
   balance <- item "balance" ad as_float ;;
   daily_withdraw_limit <- get_default "daily_withdraw_limit" ad as_int 3 ;;
   per_withdraw_limit_value <- get_default "per_withdraw_limit_value" ad as_float 500%Q ;;
   let acc := Account.mk number agency owner_cpf balance []
                         daily_withdraw_limit per_withdraw_limit_value in
   txs <- item "transactions" ad as_list ;;
   fold_m (fun acc x => t <- load_transaction x ;;
                        ret (Account.append_transaction t acc)) txs acc)%action.

(** [load]: [file] is the document [json.load] reads from [path], or
    [None] when [os.path.exists(path)] is false. *)
Definition load (file : option json) : action t unit :=
  match file with
  | None => ret tt
  | Some j =>
      (data <- as_dict j ;;
       us <- get_default "users" data as_dict [] ;;
       users <- dict_comprehension_m User.of_kwargs us ;;
       modify (set_users users) ;;
       modify (set_accounts []) ;;
       accs <- get_default "accounts" data as_dict [] ;;
       for_each accs (fun kv =>
         acc <- load_account (snd kv) ;;
         modify (fun self => set_accounts (dict_set (fst kv) acc (accounts self)) self)))%action
  end.

End Bank.

(* ================================================================== *)
(** * Histories of an account *)

(** A call of one of the two mutators, with the clock readings it
    makes. *)
Inductive call :=
| Deposit (ts : datetime) (amount : Q) (note : string)
| Withdraw (today : date) (ts : datetime) (amount : Q) (note : string).

Definition perform (c : call) : action Account.t unit :=
  match c with
  | Deposit ts amount note => Account.deposit ts amount note
  | Withdraw today ts amount note => Account.withdraw today ts amount note
  end.

Definition call_timestamp (c : call) : datetime :=
  match c with
  | Deposit ts _ _ => ts
  | Withdraw _ ts _ _ => ts
  end.

Definition succeeded {S A} (r : outcome A * S) : bool :=
  match fst r with
  | Returned _ => true
  | Raised _ => false
  end.

(** The account after the calls, made one after the other; the caller
    goes on after a call that raised. *)
Fixpoint run (calls : list call) (self : Account.t) : Account.t :=
  match calls with
  | [] => self
  | c :: calls' => run calls' (snd (perform c self))
  end.

(** The account as it is after each call. *)
Fixpoint states_after (calls : list call) (self : Account.t) : list Account.t :=
  match calls with
  | [] => []
  | c :: calls' =>
      let self' := snd (perform c self) in
      self' :: states_after calls' self'
  end.

(** How many of the calls are withdrawals that returned and stamped
    their transaction on the date [d]. *)
Fixpoint successful_withdrawals (d : date) (calls : list call) (self : Account.t) : Z :=
  match calls with
  | [] => 0
  | c :: calls' =>
      (match c with
       | Withdraw _ ts _ _ =>
           if succeeded (perform c self) && date_eqb (dt_date ts) d then 1 else 0
       | Deposit _ _ _ => 0
       end)
      + successful_withdrawals d calls' (snd (perform c self))
  end.

(** The invariant of the ledger: the cached balance is the sum of the
    log. *)
Definition balance_matches_log (self : Account.t) : Prop :=
  (Account.balance self == sum_Q (map Transaction.amount (Account.transactions self)))%Q.

(** The transactions of a statement window. *)
Definition in_window (start end_ : option date) (x : Transaction.t) : bool :=
  let d := dt_date (Transaction.timestamp x) in
  match start with Some s => date_leb s d | None => true end
  && match end_ with Some e => date_leb d e | None => true end.

(** A withdrawal stamped on the date [d]. *)
Definition is_withdrawal_on (d : date) (x : Transaction.t) : bool :=
  (Transaction.kind x =? "SAQUE")%string
  && date_eqb (dt_date (Transaction.timestamp x)) d.

(* ================================================================== *)
(** * States of the repository *)

(** The states a bank goes through: it starts empty, users register,
    accounts are opened, the account object held under a number is
    deposited to or withdrawn from (the clock gives [datetime] values),
    and a bank loads the document another one saved. *)
Inductive reachable : Bank.t -> Prop :=
| reachable_init : reachable Bank.init
| reachable_create_user self cpf name password :
    reachable self ->
    reachable (snd (Bank.create_user cpf name password self))
| reachable_create_account self owner_cpf :
    reachable self ->
    reachable (snd (Bank.create_account owner_cpf self))
| reachable_call self number acc c :
    reachable self ->
    dict_get number (Bank.accounts self) = Some acc ->
    valid_datetime (call_timestamp c) = true ->
    reachable (Bank.set_accounts
                 (dict_set number (snd (perform c acc)) (Bank.accounts self)) self)
| reachable_load self other :
    reachable self ->
    reachable (snd (Bank.load (Some (Bank.save self)) other)).

(** The numbers the generator has given out when [n] accounts exist. *)
Definition allocated (n : nat) : list string :=
  map (fun i => str (100001 + Z.of_nat i)) (seq 0 n).

(** The keys of the account dict are the numbers given out so far, in
    the order they were given out. *)
Definition numbered (self : Bank.t) : Prop :=
  dict_keys (Bank.accounts self) = allocated (List.length (Bank.accounts self)).

(** ** Values a Python object can hold *)

Fixpoint unique (keys : list string) : bool :=
  match keys with
  | [] => true
  | k :: keys' => negb (existsb (String.eqb k) keys') && unique keys'
  end.

Definition valid_account (a : Account.t) : bool :=
  forallb (fun x => valid_datetime (Transaction.timestamp x)) (Account.transactions a).

(** A bank whose dicts have each key once and whose timestamps are
    [datetime] values. *)
Definition valid_bank (self : Bank.t) : bool :=
  unique (dict_keys (Bank.users self))
  && unique (dict_keys (Bank.accounts self))
  && forallb (fun kv => valid_account (snd kv)) (Bank.accounts self).

(* ================================================================== *)
(** * Sample values *)

Definition day1 : date := mkDate 2025 3 14.
Definition day2 : date := mkDate 2025 3 15.
Definition morning : datetime := mkDatetime day1 9 30 0 0.
Definition noon : datetime := mkDatetime day1 12 0 0 250000.
Definition next_morning : datetime := mkDatetime day2 9 30 0 0.

(** A new account after a deposit of 200 and three withdrawals of 50,
    all on [day1]. *)
Definition history : list call :=
  [Deposit morning 200 "salario";
   Withdraw day1 morning 50 "";
   Withdraw day1 noon 50 "";
   Withdraw day1 noon 50 ""].

Definition mari_account : Account.t := run history (Account.new "100001" "11122233344").

(** The bank of the scenario after the registration. *)
Definition registered_bank : Bank.t :=
  snd (Bank.create_user "11122233344" "Mari" "abc123" Bank.init).

(** The bank of the scenario: one user, one account. *)
Definition mari_bank : Bank.t :=
  snd ((Bank.create_user "11122233344" "Mari" "abc123" ;;
        Bank.create_account "11122233344")%action Bank.init).

(** The same bank once the account has gone through [history]. *)
Definition funded_bank : Bank.t :=
  Bank.set_accounts (dict_set "100001" mari_account (Bank.accounts mari_bank)) mari_bank.

(** An account as [load] builds it from an entry whose
    [daily_withdraw_limit] is 0. *)
Definition no_withdrawal_account : Account.t :=
  Account.mk "100001" "0001" "11122233344" 100%Q [] 0 500%Q.

(** The clock is set back: three withdrawals are stamped on [day2],
    and after them three on [day1]. *)
Definition clock_set_back : list call :=
  [Deposit morning 1000 "";
   Withdraw day2 next_morning 50 "";
   Withdraw day2 next_morning 50 "";
   Withdraw day2 next_morning 50 "";
   Withdraw day1 noon 50 "";
   Withdraw day1 noon 50 "";
   Withdraw day1 noon 50 ""].

(* ================================================================== *)
(** * More about histories *)

(** How many of the calls returned. *)
Fixpoint successful_calls (calls : list call) (self : Account.t) : nat :=
  match calls with
  | [] => O
  | c :: calls' =>
      ((if succeeded (perform c self) then 1 else 0)
       + successful_calls calls' (snd (perform c self)))%nat
  end.

(** Each withdrawal reads the same date from the clock for its check
    and for its timestamp. *)
Definition same_day_clock (calls : list call) : bool :=
  forallb (fun c => match c with
                    | Withdraw today ts _ _ => date_eqb (dt_date ts) today
                    | Deposit _ _ _ => true
                    end) calls.

(* ================================================================== *)
(** * Links between users and accounts *)

(** Every user is stored under its CPF and every number in its list is
    the key of an account it owns. *)
Definition users_linked (self : Bank.t) : Prop :=
  forall cpf u,
    dict_get cpf (Bank.users self) = Some u ->
    User.cpf u = cpf
    /\ forall n, In n (User.accounts u) ->
         exists a, dict_get n (Bank.accounts self) = Some a
                   /\ Account.owner_cpf a = cpf.

(** Every account is stored under its number and its owner is a user
    whose list holds the number. *)
Definition accounts_linked (self : Bank.t) : Prop :=
  forall n a,
    dict_get n (Bank.accounts self) = Some a ->
    Account.number a = n
    /\ exists u, dict_get (Account.owner_cpf a) (Bank.users self) = Some u
                 /\ In n (User.accounts u).

(** A bank, not reachable from the empty one, whose only account is
    stored under the number the generator gives next. *)
Definition clashing_bank : Bank.t :=
  Bank.mk (Bank.users registered_bank) [("100002", mari_account)].

(* ================================================================== *)
(** * Documents other than the ones [save] writes *)

(** A dict without the key [k]. *)
Definition dict_remove {V} (k : string) (d : dict V) : dict V :=
  filter (fun kv => negb (fst kv =? k)%string) d.

(** The members of a JSON object. *)
Definition members (j : json) : dict json :=
  match j with
  | JObject d => d
  | _ => []
  end.

(** A document with the two members [save] writes. *)
Definition document (users accounts : dict json) : json :=
  JObject [("users", JObject users); ("accounts", JObject accounts)].

(** An action that gives the same outcome in every state and leaves
    the state as it is. *)
Definition stateless {S A} (m : action S A) : Prop :=
  exists r, forall s, m s = (r, s).

(* ================================================================== *)
(** * Formatting of money *)

(** [s.replace(old, new)] for an [old] and a [new] of one character. *)
Fixpoint replace_char (old new : ascii) (s : string) : string :=
  match s with
  | EmptyString => EmptyString
  | String c s' => String (if Ascii.eqb c old then new else c) (replace_char old new s')
  end.

(** [money]; [formatted] is the text [f"R$ {v:,.2f}"] that Python builds
    for the amount [v]. *)
Definition money (formatted : string) : string :=
  replace_char "X" "." (replace_char "." "," (replace_char "," "X" formatted)).

(** The comma and the point exchanged. *)
Definition swap_separator (c : ascii) : ascii :=
  if Ascii.eqb c "," then "."%char
  else if Ascii.eqb c "." then ","%char
  else c.

Fixpoint string_map (f : ascii -> ascii) (s : string) : string :=
  match s with
  | EmptyString => EmptyString
  | String c s' => String (f c) (string_map f s')
  end.

(** The character [c] does not occur in [s]. *)
Fixpoint free_of (c : ascii) (s : string) : bool :=
  match s with
  | EmptyString => true
  | String c' s' => negb (Ascii.eqb c' c) && free_of c s'
  end.

(* ================================================================== *)
(** * The menu loop of [main]

    The state of [main] is the bank, the two selections and the file
    [DATA_FILE].  [current_user] and [current_account] refer to objects
    that the bank holds; the model keeps the key under which the object
    is held.  That is exact: a user object is never replaced under its
    key, and an account object is replaced under its key only by
    [create_account], after which option 3 selects the new object.

    A command is what one pass of the loop reads from the terminal,
    with the clock readings of the pass.  What the pass prints, the file
    that option 8 writes and the waits for Enter are left out: they do
    not act on the state, and the terminal answers every question.  An
    amount is [None] when [float] rejects the text that was typed, and
    the number it returns otherwise, as an exact amount; [float] also
    returns nan and inf, for the texts nan and inf, and [Binary64] has
    what the two methods do with them.  [on_account] and [user_of] raise
    for a key that the bank does not hold; no pass gets there, since
    the selections always refer to objects of the bank. *)

Module Cli.

Record t := mk {
  bank : Bank.t;
  current_user : option string;
  current_account : option string;
  data_file : option json
}.

Definition set_bank (v : Bank.t) (st : t) : t :=
  mk v (current_user st) (current_account st) (data_file st).
Definition set_current_user (v : option string) (st : t) : t :=
  mk (bank st) v (current_account st) (data_file st).
Definition set_current_account (v : option string) (st : t) : t :=
  mk (bank st) (current_user st) v (data_file st).
Definition set_data_file (v : option json) (st : t) : t :=
  mk (bank st) (current_user st) (current_account st) v.

(** A method of [bank]. *)
Definition on_bank {A} (m : action Bank.t A) : action t A :=
  fun st => let (r, b) := m (bank st) in (r, set_bank b st).

(** A method of the account object that [key] refers to. *)
Definition on_account {A} (key : string) (m : action Account.t A) : action t A :=
  fun st =>
    match dict_get key (Bank.accounts (bank st)) with
    | Some a =>
        let (r, a') := m a in
        (r, set_bank (Bank.set_accounts (dict_set key a' (Bank.accounts (bank st)))
                                        (bank st)) st)
    | None => (Raised (KeyError key), st)
    end.

(** The user object that [key] refers to. *)
Definition user_of (key : string) : action t User.t :=
  (st <- get ;; subscript key (Bank.users (bank st)))%action.

Inductive command :=
| CreateUser (cpf name pwd : string)                                   (* 1 *)
| Login (cpf pwd : string)                                             (* 2 *)
| CreateAccount                                                        (* 3 *)
| SelectAccount (sel : string)                                         (* 4 *)
| MakeDeposit (val : option Q) (note : string) (ts : datetime)         (* 5 *)
| MakeWithdrawal (val : option Q) (note : string) (today : date) (ts : datetime)  (* 6 *)
| ShowStatement                                                        (* 7 *)
| ExportStatement                                                      (* 8 *)
| Save                                                                 (* 9 *)
| Exit                                                                 (* 0 *)
| Other.

(** The body of the [try] for a command. *)
Definition handle (c : command) : action t unit :=
  match c with
  | CreateUser cpf name pwd => on_bank (Bank.create_user cpf name pwd)
  | Login cpf pwd =>
      (u <- on_bank (Bank.auth cpf pwd) ;;
       modify (set_current_user (Some cpf)) ;;
       match User.accounts u with
       | [] => modify (set_current_account None)
       | n :: _ =>
           (_ <- on_bank (Bank.get_account n) ;;
            modify (set_current_account (Some n)))
       end)%action
  | CreateAccount =>
      (st <- get ;;
       match current_user st with
       | None => ret tt
       | Some k =>
           (u <- user_of k ;;
            acc <- on_bank (Bank.create_account (User.cpf u)) ;;
            modify (set_current_account (Some (Account.number acc))))
       end)%action
  | SelectAccount sel =>
      (st <- get ;;
       match current_user st with
       | None => ret tt
       | Some k =>
           (u <- user_of k ;;
            match User.accounts u with
            | [] => ret tt
            | _ =>
                (for_each (User.accounts u)
                          (fun n => _ <- on_bank (Bank.get_account n) ;; ret tt) ;;
                 _ <- on_bank (Bank.get_account sel) ;;
                 modify (set_current_account (Some sel)))
            end)
       end)%action
  | MakeDeposit val note ts =>
      (st <- get ;;
       match current_account st, val with
       | Some key, Some v => on_account key (Account.deposit ts v note)
       | _, _ => ret tt
       end)%action
  | MakeWithdrawal val note today ts =>
      (st <- get ;;
       match current_account st, val with
       | Some key, Some v => on_account key (Account.withdraw today ts v note)
       | _, _ => ret tt
       end)%action
  | ShowStatement => ret tt
  | ExportStatement => ret tt
  | Save => modify (fun st => set_data_file (Some (Bank.save (bank st))) st)
  | Exit => modify (fun st => set_data_file (Some (Bank.save (bank st))) st)
  | Other => ret tt
  end.

(** One pass of the loop: an exception of the body is caught, and the
    loop goes on with the state the body left. *)
Definition pass (c : command) (st : t) : t := snd (handle c st).

(** The passes for a list of commands, up to the first [Exit]. *)
Fixpoint session (cmds : list command) (st : t) : t :=
  match cmds with
  | [] => st
  | Exit :: _ => pass Exit st
  | c :: cmds' => session cmds' (pass c st)
  end.

(** The start of [main]: a new bank loads [DATA_FILE], nobody is logged
    in.  An exception of [load] ends the program. *)
Definition start (file : option json) : outcome unit * t :=
  let (r, b) := Bank.load file Bank.init in
  (r, mk b None None file).

(** The clock gives [datetime] values. *)
Definition valid_command (c : command) : bool :=
  match c with
  | MakeDeposit _ _ ts => valid_datetime ts
  | MakeWithdrawal _ _ _ ts => valid_datetime ts
  | _ => true
  end.

(** The selections refer to objects of the bank. *)
Definition selections_valid (st : t) : Prop :=
  (forall k, current_user st = Some k -> dict_mem k (Bank.users (bank st)) = true)
  /\ (forall k, current_account st = Some k ->
                dict_mem k (Bank.accounts (bank st)) = true).

(** The options that write [DATA_FILE]. *)
Definition saves (c : command) : bool :=
  match c with
  | Save | Exit => true
  | _ => false
  end.

End Cli.

(** [main] where there is no [DATA_FILE] yet. *)
Definition first_run : Cli.t := Cli.mk Bank.init None None None.

(** Mari registers, logs in, opens an account and pays in; then Ana
    registers, logs in and opens an account of her own. *)
Definition two_users : list Cli.command :=
  [Cli.CreateUser "11122233344" "Mari" "abc123";
   Cli.Login "11122233344" "abc123";
   Cli.CreateAccount;
   Cli.MakeDeposit (Some 200%Q) "salario" morning;
   Cli.CreateUser "55566677788" "Ana" "segredo";
   Cli.Login "55566677788" "segredo";
   Cli.CreateAccount].

Definition ana_logged_in : Cli.t := Cli.session two_users first_run.

(* ================================================================== *)
(** * The ledger on the amounts of Python

    A Python [float] is an IEEE 754 binary64 number: [+] and [-] round
    to the nearest number, and every comparison with a NaN is false.
    The definitions above take amounts as exact numbers; that is
    enough for the order of the checks, the log, the limit of the day
    and the repository.  This part has [deposit] and [withdraw] on
    [float], the binary64 numbers of Rocq, for the properties that
    depend on the values: it is the same code, read with the arithmetic
    and the comparisons that Python has. *)

Module Binary64.

Module Transaction.

Record t := mk {
  kind : string;            (* 'DEPOSITO' | 'SAQUE' *)
  amount : float;
  timestamp : datetime;
  note : string
}.

End Transaction.

(** The exceptions of the two methods; the failure of the limit per
    operation carries the limit that its message shows. *)
Inductive failure :=
| InvalidAmount
| InsufficientFunds
| PerOperationLimitExceeded (limit : float)
| DailyLimitExceeded.

(** What a call does: it returns [None], or it raises. *)
Inductive outcome :=
| Returned
| Raised (e : failure).

Module Account.

Record t := mk {
  number : string;
  agency : string;
  owner_cpf : string;
  balance : float;
  transactions : list Transaction.t;
  daily_withdraw_limit : Z;
  per_withdraw_limit_value : float
}.

(** [Account(number=number, owner_cpf=owner_cpf)] *)
Definition new (number owner_cpf : string) : t :=
  mk number "0001" owner_cpf 0%float [] 3 500%float.

(** [self.balance = v] *)
Definition set_balance (v : float) (self : t) : t :=
  mk (number self) (agency self) (owner_cpf self) v (transactions self)
     (daily_withdraw_limit self) (per_withdraw_limit_value self).

(** [self.transactions.append(x)] *)
Definition append_transaction (x : Transaction.t) (self : t) : t :=
  mk (number self) (agency self) (owner_cpf self) (balance self)
     (transactions self ++ [x])
     (daily_withdraw_limit self) (per_withdraw_limit_value self).

(** [deposit]: the outcome and the account the call leaves. *)
Definition deposit (ts : datetime) (amount : float) (note : string) (self : t)
  : outcome * t :=
  if (amount <=? 0)%float then (Raised InvalidAmount, self)
  else
    let self := set_balance (balance self + amount)%float self in
    let self := append_transaction (Transaction.mk "DEPOSITO" amount ts note) self in
    (Returned, self).

(** [withdrawals_today]; [today] is what [date.today()] returns. *)
Definition withdrawals_today (today : date) (self : t) : Z :=
  sum_Z (map (fun _ => 1)
           (filter (fun x => (Transaction.kind x =? "SAQUE")%string
                             && date_eqb (dt_date (Transaction.timestamp x)) today)
                   (transactions self))).

(** [withdraw]; [amount > v] is [v < amount]. *)
Definition withdraw (today : date) (ts : datetime) (amount : float) (note : string)
           (self : t) : outcome * t :=
  if (amount <=? 0)%float then (Raised InvalidAmount, self)
  else if (balance self <? amount)%float then (Raised InsufficientFunds, self)
  else if (per_withdraw_limit_value self <? amount)%float
  then (Raised (PerOperationLimitExceeded (per_withdraw_limit_value self)), self)
  else if withdrawals_today today self >=? daily_withdraw_limit self
  then (Raised DailyLimitExceeded, self)
  else
    let self := set_balance (balance self - amount)%float self in
    let self := append_transaction (Transaction.mk "SAQUE" (- amount)%float ts note) self in
    (Returned, self).

End Account.

(** A call of one of the two methods, with its clock readings. *)
Inductive call :=
| Deposit (ts : datetime) (amount : float) (note : string)
| Withdraw (today : date) (ts : datetime) (amount : float) (note : string).

Definition perform (c : call) (self : Account.t) : outcome * Account.t :=
  match c with
  | Deposit ts amount note => Account.deposit ts amount note self
  | Withdraw today ts amount note => Account.withdraw today ts amount note self
  end.

(** The account as it is after each call; the caller goes on after a
    call that raised. *)
Fixpoint states_after (calls : list call) (self : Account.t) : list Account.t :=
  match calls with
  | [] => []
  | c :: calls' =>
      let self' := snd (perform c self) in
      self' :: states_after calls' self'
  end.

(** The amounts added one by one from [0.0], in the order of the list,
    each addition rounded: what [sum] returns for floats before
    CPython 3.12. *)
Definition running_sum (xs : list float) : float :=
  fold_left PrimFloat.add xs 0%float.

(** [sum] for floats from CPython 3.12 on, which carries the rounding
    errors of the additions along (Neumaier) and adds them at the end.
    Modelled from the documentation and the source of CPython: it is
    not code of this repository. *)
Definition compensated_step (acc : float * float) (x : float) : float * float :=
  let (total, c) := acc in
  let t := (total + x)%float in
  if (abs x <=? abs total)%float
  then (t, (c + ((total - t) + x))%float)
  else (t, (c + ((x - t) + total))%float).

Definition compensated_sum (xs : list float) : float :=
  let (total, c) := fold_left compensated_step xs (0%float, 0%float) in
  if negb (c =? 0)%float && is_finite c then (total + c)%float else total.

(** The balance is the running sum of the log. *)
Definition balance_matches_log (self : Account.t) : Prop :=
  Account.balance self = running_sum (map Transaction.amount (Account.transactions self)).

(** The calls of [history], on floats. *)
Definition history : list call :=
  [Deposit morning 200 "salario";
   Withdraw day1 morning 50 "";
   Withdraw day1 noon 50 "";
   Withdraw day1 noon 50 ""].

(** An account as [load] builds it from an entry with the balance 50.0
    and no transactions. *)
Definition loaded_account : Account.t :=
  Account.mk "100002" "0001" "11122233344" 50%float [] 3 500%float.

(** A new account after [deposit(float('nan'))], which the menu passes
    on when the text typed for the amount is nan. *)
Definition nan_account : Account.t :=
  snd (Account.deposit morning nan "" (Account.new "100001" "11122233344")).

End Binary64.

(* ================================================================== *)
(** * Facts about amounts and dates *)

Lemma Qle_bool_false_iff (x y : Q) : Qle_bool x y = false <-> (y < x)%Q.
Proof.
  split; intro H.
  - apply Qnot_le_lt. intro Hle. apply Qle_bool_iff in Hle. congruence.
  - destruct (Qle_bool x y) eqn:E; [|reflexivity].
    apply Qle_bool_iff in E. exfalso. apply (Qlt_not_le _ _ H E).
Qed.

Lemma Qgt_bool_true_iff (x y : Q) : Qgt_bool x y = true <-> (y < x)%Q.
Proof.
  unfold Qgt_bool. rewrite negb_true_iff. apply Qle_bool_false_iff.
Qed.

Lemma Qgt_bool_false_iff (x y : Q) : Qgt_bool x y = false <-> (x <= y)%Q.
Proof.
  unfold Qgt_bool. rewrite negb_false_iff. apply Qle_bool_iff.
Qed.

Lemma date_compare_eq (a b : date) : date_compare a b = Eq <-> a = b.
Proof.
  destruct a as [ya ma da], b as [yb mb db]. unfold date_compare. simpl.
  split.
  - destruct (ya ?= yb) eqn:Ey; try discriminate.
    destruct (ma ?= mb) eqn:Em; try discriminate.
    intro Ed. apply Z.compare_eq in Ey, Em, Ed. congruence.
  - intro H. inversion H. subst. now rewrite !Z.compare_refl.
Qed.

Lemma date_eqb_eq (a b : date) : date_eqb a b = true <-> a = b.
Proof.
  unfold date_eqb. rewrite <- date_compare_eq.
  destruct (date_compare a b); split; congruence.
Qed.

Lemma date_compare_antisym (a b : date) :
  date_compare b a = CompOpp (date_compare a b).
Proof.
  destruct a as [ya ma da], b as [yb mb db]. unfold date_compare. simpl.
  rewrite (Z.compare_antisym ya yb), (Z.compare_antisym ma mb), (Z.compare_antisym da db).
  destruct (ya ?= yb), (ma ?= mb), (da ?= db); reflexivity.
Qed.

Lemma date_ltb_not_eqb (a b : date) : date_ltb a b = true -> date_eqb a b = false.
Proof.
  unfold date_ltb, date_eqb. destruct (date_compare a b); congruence.
Qed.

(* ================================================================== *)
(** * The ledger *)

(** What a deposit that passes its check leaves behind. *)
Lemma deposit_returned ts amount note self :
  (0 < amount)%Q ->
  Account.deposit ts amount note self =
  (Returned tt,
   Account.mk (Account.number self) (Account.agency self) (Account.owner_cpf self)
              (Account.balance self + amount)%Q
              (Account.transactions self ++ [Transaction.mk "DEPOSITO" amount ts note])
              (Account.daily_withdraw_limit self)
              (Account.per_withdraw_limit_value self)).
Proof.
  intro H. apply Qle_bool_false_iff in H.
  unfold Account.deposit, bind, raise_if. rewrite H. reflexivity.
Qed.

Lemma deposit_raised ts amount note self :
  (amount <= 0)%Q ->
  Account.deposit ts amount note self = (Raised InvalidAmount, self).
Proof.
  intro H. apply Qle_bool_iff in H.
  unfold Account.deposit, bind, raise_if. rewrite H. reflexivity.
Qed.

(** The four checks of [withdraw], in the order they are made. *)
Lemma withdraw_cases today ts amount note self :
  Account.withdraw today ts amount note self =
  if Qle_bool amount 0 then (Raised InvalidAmount, self)
  else if Qgt_bool amount (Account.balance self) then (Raised InsufficientFunds, self)
  else if Qgt_bool amount (Account.per_withdraw_limit_value self)
       then (Raised (PerOperationLimitExceeded (Account.per_withdraw_limit_value self)), self)
  else if Account.withdrawals_today today self >=? Account.daily_withdraw_limit self
       then (Raised DailyLimitExceeded, self)
  else (Returned tt,
        Account.mk (Account.number self) (Account.agency self) (Account.owner_cpf self)
                   (Account.balance self - amount)%Q
                   (Account.transactions self ++ [Transaction.mk "SAQUE" (- amount)%Q ts note])
                   (Account.daily_withdraw_limit self)
                   (Account.per_withdraw_limit_value self)).
Proof.
  unfold Account.withdraw, bind, raise_if, get.
  destruct (Qle_bool amount 0); [reflexivity|]. cbn.
  destruct (Qgt_bool amount (Account.balance self)); [reflexivity|]. cbn.
  destruct (Qgt_bool amount (Account.per_withdraw_limit_value self)); [reflexivity|]. cbn.
  destruct (Account.withdrawals_today today self >=? Account.daily_withdraw_limit self);
    reflexivity.
Qed.

Lemma deposit_cases ts amount note self :
  Account.deposit ts amount note self =
  if Qle_bool amount 0 then (Raised InvalidAmount, self)
  else (Returned tt,
        Account.mk (Account.number self) (Account.agency self) (Account.owner_cpf self)
                   (Account.balance self + amount)%Q
                   (Account.transactions self ++ [Transaction.mk "DEPOSITO" amount ts note])
                   (Account.daily_withdraw_limit self)
                   (Account.per_withdraw_limit_value self)).
Proof.
  unfold Account.deposit, bind, raise_if.
  destruct (Qle_bool amount 0); reflexivity.
Qed.

Lemma withdraw_returned today ts amount note self :
  (0 < amount)%Q ->
  (amount <= Account.balance self)%Q ->
  (amount <= Account.per_withdraw_limit_value self)%Q ->
  Account.withdrawals_today today self < Account.daily_withdraw_limit self ->
  Account.withdraw today ts amount note self =
  (Returned tt,
   Account.mk (Account.number self) (Account.agency self) (Account.owner_cpf self)
              (Account.balance self - amount)%Q
              (Account.transactions self ++ [Transaction.mk "SAQUE" (- amount)%Q ts note])
              (Account.daily_withdraw_limit self)
              (Account.per_withdraw_limit_value self)).
Proof.
  intros H1 H2 H3 H4. rewrite withdraw_cases.
  apply Qle_bool_false_iff in H1. apply Qgt_bool_false_iff in H2, H3.
  rewrite H1, H2, H3.
  replace (_ >=? _) with false; [reflexivity|].
  symmetry. rewrite Z.geb_leb. apply Z.leb_gt. exact H4.
Qed.

Lemma withdraw_raised_unchanged today ts amount note self e self' :
  Account.withdraw today ts amount note self = (Raised e, self') -> self' = self.
Proof.
  rewrite withdraw_cases.
  repeat match goal with |- context [if ?c then _ else _] => destruct c end;
    intro H; inversion H; reflexivity.
Qed.

Lemma perform_raised_unchanged c self e self' :
  perform c self = (Raised e, self') -> self' = self.
Proof.
  destruct c as [ts amount note | today ts amount note]; simpl.
  - rewrite deposit_cases. destruct (Qle_bool amount 0); intro H; inversion H; reflexivity.
  - apply withdraw_raised_unchanged.
Qed.

(** C2. [withdraw] reports the first check that fails, in the order
    amount, balance, per-operation limit, daily count, and a call that
    raises leaves the account (balance and log included) as it was. *)
Theorem withdraw_reports_first_violation today ts amount note (self : Account.t) :
  ((amount <= 0)%Q ->
     Account.withdraw today ts amount note self = (Raised InvalidAmount, self))
  /\ ((0 < amount)%Q -> (Account.balance self < amount)%Q ->
     Account.withdraw today ts amount note self = (Raised InsufficientFunds, self))
  /\ ((0 < amount)%Q -> (amount <= Account.balance self)%Q ->
      (Account.per_withdraw_limit_value self < amount)%Q ->
     Account.withdraw today ts amount note self =
     (Raised (PerOperationLimitExceeded (Account.per_withdraw_limit_value self)), self))
  /\ ((0 < amount)%Q -> (amount <= Account.balance self)%Q ->
      (amount <= Account.per_withdraw_limit_value self)%Q ->
      Account.daily_withdraw_limit self <= Account.withdrawals_today today self ->
     Account.withdraw today ts amount note self = (Raised DailyLimitExceeded, self))
  /\ (forall e self',
     Account.withdraw today ts amount note self = (Raised e, self') ->
     self' = self
     /\ Account.balance self' = Account.balance self
     /\ Account.transactions self' = Account.transactions self).
Proof.
  repeat split.
  - intro H. rewrite withdraw_cases. apply Qle_bool_iff in H. now rewrite H.
  - intros H1 H2. rewrite withdraw_cases.
    apply Qle_bool_false_iff in H1. apply Qgt_bool_true_iff in H2. now rewrite H1, H2.
  - intros H1 H2 H3. rewrite withdraw_cases.
    apply Qle_bool_false_iff in H1. apply Qgt_bool_false_iff in H2.
    apply Qgt_bool_true_iff in H3. now rewrite H1, H2, H3.
  - intros H1 H2 H3 H4. rewrite withdraw_cases.
    apply Qle_bool_false_iff in H1. apply Qgt_bool_false_iff in H2, H3.
    rewrite H1, H2, H3.
    replace (_ >=? _) with true; [reflexivity|].
    symmetry. rewrite Z.geb_leb. now apply Z.leb_le.
  - now apply withdraw_raised_unchanged in H.
  - apply withdraw_raised_unchanged in H. now subst.
  - apply withdraw_raised_unchanged in H. now subst.
Qed.

Lemma withdraw_reports_first_violation_witness :
  Account.withdraw day1 noon (-1) "" mari_account = (Raised InvalidAmount, mari_account)
  /\ Account.withdraw day1 noon 600 "" mari_account = (Raised InsufficientFunds, mari_account)
  /\ Account.withdraw day1 noon 50 "" mari_account = (Raised DailyLimitExceeded, mari_account).
Proof.
  pose proof (withdraw_reports_first_violation day1 noon (-1) "" mari_account) as H1.
  pose proof (withdraw_reports_first_violation day1 noon 600 "" mari_account) as H2.
  pose proof (withdraw_reports_first_violation day1 noon 50 "" mari_account) as H3.
  split; [|split].
  - apply (proj1 H1). vm_compute. discriminate.
  - apply (proj1 (proj2 H2)); vm_compute; reflexivity.
  - apply (proj1 (proj2 (proj2 (proj2 H3)))); vm_compute; try reflexivity; discriminate.
Defined.

(** C3. [deposit] of an amount that is not positive raises
    [InvalidAmount] and leaves the account as it was; of a positive
    amount it adds the amount to the balance and appends one DEPOSITO
    transaction stamped with the clock reading; no other outcome
    exists. *)
Theorem deposit_all_or_nothing ts amount note (self : Account.t) :
  ((amount <= 0)%Q ->
     Account.deposit ts amount note self = (Raised InvalidAmount, self))
  /\ ((0 < amount)%Q ->
     Account.deposit ts amount note self =
     (Returned tt,
      {| Account.number := Account.number self;
         Account.agency := Account.agency self;
         Account.owner_cpf := Account.owner_cpf self;
         Account.balance := (Account.balance self + amount)%Q;
         Account.transactions :=
           Account.transactions self ++
           [{| Transaction.kind := "DEPOSITO"; Transaction.amount := amount;
               Transaction.timestamp := ts; Transaction.note := note |}];
         Account.daily_withdraw_limit := Account.daily_withdraw_limit self;
         Account.per_withdraw_limit_value := Account.per_withdraw_limit_value self |}))
  /\ (forall r self',
     Account.deposit ts amount note self = (r, self') ->
     (r = Raised InvalidAmount
      /\ Account.balance self' = Account.balance self
      /\ Account.transactions self' = Account.transactions self)
     \/ (r = Returned tt
      /\ Account.balance self' = (Account.balance self + amount)%Q
      /\ Account.transactions self' =
         Account.transactions self ++ [Transaction.mk "DEPOSITO" amount ts note])).
Proof.
  split; [|split].
  - apply deposit_raised.
  - apply deposit_returned.
  - intros r self'. rewrite deposit_cases.
    destruct (Qle_bool amount 0); intro H; inversion H; subst; simpl; auto.
Qed.

Lemma deposit_all_or_nothing_witness :
  Account.deposit noon 0 "" mari_account = (Raised InvalidAmount, mari_account)
  /\ Account.balance (snd (Account.deposit noon 10 "" mari_account))
     = (Account.balance mari_account + 10)%Q.
Proof.
  split.
  - apply (proj1 (deposit_all_or_nothing noon 0 "" mari_account)).
    vm_compute. discriminate.
  - rewrite (proj1 (proj2 (deposit_all_or_nothing noon 10 "" mari_account)));
      [reflexivity | vm_compute; reflexivity].
Defined.

(** C9. A call of [deposit] or [withdraw], returning or raising, keeps
    the number, agency, owner and both limits of the account, and its
    log after the call is the log before it followed by the
    transactions the call appended. *)
Theorem mutators_frame (c : call) (self : Account.t) :
  let self' := snd (perform c self) in
  Account.number self' = Account.number self
  /\ Account.agency self' = Account.agency self
  /\ Account.owner_cpf self' = Account.owner_cpf self
  /\ Account.daily_withdraw_limit self' = Account.daily_withdraw_limit self
  /\ Account.per_withdraw_limit_value self' = Account.per_withdraw_limit_value self
  /\ exists appended,
       Account.transactions self' = Account.transactions self ++ appended.
Proof.
  destruct c as [ts amount note | today ts amount note]; simpl.
  - rewrite deposit_cases. destruct (Qle_bool amount 0); simpl;
      repeat split; try reflexivity.
    + exists []. now rewrite app_nil_r.
    + eexists. reflexivity.
  - rewrite withdraw_cases.
    repeat match goal with |- context [if ?c then _ else _] => destruct c end;
      simpl; repeat split; try reflexivity;
      try (exists []; now rewrite app_nil_r); eexists; reflexivity.
Qed.

Lemma date_leb_le (a b : date) : date_leb a b = true <-> date_le a b.
Proof.
  destruct a as [ya ma da], b as [yb mb db].
  unfold date_leb, date_le, date_compare. simpl.
  destruct (ya ?= yb) eqn:Ey; destruct (ma ?= mb) eqn:Em; destruct (da ?= db) eqn:Ed;
    rewrite ?Z.compare_eq_iff, ?Z.compare_lt_iff, ?Z.compare_gt_iff in *;
    split; intro H; try reflexivity; try discriminate; lia.
Qed.

Lemma filter_filter {A} (f g : A -> bool) (l : list A) :
  filter f (filter g l) = filter (fun x => g x && f x) l.
Proof.
  induction l as [|x l IH]; simpl; [reflexivity|].
  destruct (g x); simpl; [destruct (f x)|]; now rewrite IH.
Qed.

Lemma filter_true {A} (l : list A) : filter (fun _ => true) l = l.
Proof. induction l as [|x l IH]; simpl; now rewrite ?IH. Qed.

(** C8. [statement] returns the transactions of the log dated within
    the window, in the order of the log, with the sum of their amounts,
    and leaves the account as it was; a bound that is not given does
    not restrict the window. *)
Theorem statement_is_window (start end_ : option date) (self : Account.t) :
  let window := filter (in_window start end_) (Account.transactions self) in
  Account.statement start end_ self
  = (Returned (window, sum_Q (map Transaction.amount window)), self)
  /\ (forall x,
        In x window <->
        In x (Account.transactions self)
        /\ (forall s, start = Some s -> date_le s (dt_date (Transaction.timestamp x)))
        /\ (forall e, end_ = Some e -> date_le (dt_date (Transaction.timestamp x)) e)).
Proof.
  split.
  - unfold Account.statement, bind, get, ret, in_window, date_geb.
    destruct start as [s|], end_ as [e|]; cbn zeta.
    + now rewrite filter_filter.
    + rewrite (filter_ext
                 (fun x => date_leb s (dt_date (Transaction.timestamp x)) && true)
                 (fun x => date_leb s (dt_date (Transaction.timestamp x))));
        [reflexivity | intro x; apply andb_true_r].
    + reflexivity.
    + now rewrite filter_true.
  - intro x. rewrite filter_In. unfold in_window. rewrite andb_true_iff.
    split.
    + intros (Hin & Hs & He). split; [exact Hin|]. split.
      * intros s ->. now apply date_leb_le.
      * intros e ->. now apply date_leb_le.
    + intros (Hin & Hs & He). split; [exact Hin|]. split.
      * destruct start as [s|]; [|reflexivity]. now apply date_leb_le, Hs.
      * destruct end_ as [e|]; [|reflexivity]. now apply date_leb_le, He.
Qed.

(* ================================================================== *)
(** * The daily limit *)

Lemma fold_ones (A : Type) (l : list A) (acc : Z) :
  fold_left Z.add (map (fun _ => 1) l) acc = acc + Z.of_nat (List.length l).
Proof.
  revert acc. induction l as [|x l IH]; intro acc; simpl List.length; simpl map; simpl fold_left.
  - lia.
  - rewrite IH. lia.
Qed.

Lemma withdrawals_today_count (today : date) (self : Account.t) :
  Account.withdrawals_today today self
  = Z.of_nat (List.length (filter (is_withdrawal_on today) (Account.transactions self))).
Proof.
  unfold Account.withdrawals_today, sum_Z. rewrite fold_ones. reflexivity.
Qed.

Lemma withdrawals_today_nonneg (today : date) (self : Account.t) :
  0 <= Account.withdrawals_today today self.
Proof. rewrite withdrawals_today_count. lia. Qed.

Lemma is_withdrawal_on_iff (d : date) (x : Transaction.t) :
  is_withdrawal_on d x = true
  <-> Transaction.kind x = "SAQUE" /\ dt_date (Transaction.timestamp x) = d.
Proof.
  unfold is_withdrawal_on. now rewrite andb_true_iff, String.eqb_eq, date_eqb_eq.
Qed.

(** What one call adds to the count of a date. *)
Lemma withdrawals_today_perform (d : date) (c : call) (self : Account.t) :
  Account.withdrawals_today d (snd (perform c self))
  = Account.withdrawals_today d self + successful_withdrawals d [c] self.
Proof.
  rewrite !withdrawals_today_count.
  destruct c as [ts amount note | today ts amount note];
    cbn [successful_withdrawals perform]; unfold succeeded.
  - rewrite deposit_cases. destruct (Qle_bool amount 0); cbn [snd Account.transactions].
    + lia.
    + rewrite filter_app, length_app. cbn. lia.
  - rewrite withdraw_cases.
    repeat match goal with |- context [if Qle_bool ?a ?b then _ else _] => destruct (Qle_bool a b)
                      | |- context [if Qgt_bool ?a ?b then _ else _] => destruct (Qgt_bool a b)
                      | |- context [if ?a >=? ?b then _ else _] => destruct (a >=? b) end;
      cbn [snd fst Account.transactions andb]; try lia.
    rewrite filter_app, length_app. cbn [filter].
    change (is_withdrawal_on d (Transaction.mk "SAQUE" (- amount)%Q ts note))
      with (date_eqb (dt_date ts) d).
    destruct (date_eqb (dt_date ts) d); cbn [List.length]; lia.
Qed.

Lemma perform_daily_withdraw_limit (c : call) (self : Account.t) :
  Account.daily_withdraw_limit (snd (perform c self)) = Account.daily_withdraw_limit self.
Proof.
  destruct c as [ts amount note | today ts amount note]; cbn [perform].
  - rewrite deposit_cases. now destruct (Qle_bool amount 0).
  - rewrite withdraw_cases.
    repeat match goal with |- context [if ?c then _ else _] => destruct c end; reflexivity.
Qed.

Lemma withdrawals_today_run (d : date) (calls : list call) (self : Account.t) :
  Account.withdrawals_today d (run calls self)
  = Account.withdrawals_today d self + successful_withdrawals d calls self.
Proof.
  revert self. induction calls as [|c calls IH]; intro self.
  - simpl. lia.
  - cbn [run]. rewrite IH, withdrawals_today_perform.
    cbn [successful_withdrawals]. lia.
Qed.

Lemma run_daily_withdraw_limit (calls : list call) (self : Account.t) :
  Account.daily_withdraw_limit (run calls self) = Account.daily_withdraw_limit self.
Proof.
  revert self. induction calls as [|c calls IH]; intro self; [reflexivity|].
  cbn [run]. rewrite IH. apply perform_daily_withdraw_limit.
Qed.

Lemma perform_transactions (c : call) (self : Account.t) :
  Account.transactions (snd (perform c self)) = Account.transactions self
  \/ exists x, Account.transactions (snd (perform c self)) = Account.transactions self ++ [x]
               /\ Transaction.timestamp x = call_timestamp c.
Proof.
  destruct c as [ts amount note | today ts amount note]; cbn [perform call_timestamp].
  - rewrite deposit_cases. destruct (Qle_bool amount 0); cbn [snd Account.transactions].
    + now left.
    + right. eexists. split; reflexivity.
  - rewrite withdraw_cases.
    repeat match goal with |- context [if ?c then _ else _] => destruct c end;
      cbn [snd Account.transactions]; try (now left).
    right. eexists. split; reflexivity.
Qed.

Lemma withdraw_raised_daily_limit today ts amount note (self : Account.t) :
  (0 < amount)%Q ->
  (amount <= Account.balance self)%Q ->
  (amount <= Account.per_withdraw_limit_value self)%Q ->
  Account.daily_withdraw_limit self <= Account.withdrawals_today today self ->
  Account.withdraw today ts amount note self = (Raised DailyLimitExceeded, self).
Proof.
  intros H1 H2 H3 H4. rewrite withdraw_cases.
  apply Qle_bool_false_iff in H1. apply Qgt_bool_false_iff in H2, H3.
  rewrite H1, H2, H3.
  replace (_ >=? _) with true; [reflexivity|].
  symmetry. rewrite Z.geb_leb. now apply Z.leb_le.
Qed.

(** C4 (amended).  After as many successful withdrawals
    stamped on a date as the daily limit allows, a further withdrawal
    on that date that passes the checks of the amount, the balance and
    the per-operation limit raises [DailyLimitExceeded]; such a
    withdrawal on any date on which the log has fewer withdrawals than
    the daily limit allows returns (the next calendar date is such a
    date when the limit is positive and no withdrawal of the log is
    stamped on it); and [withdrawals_today] is the number of SAQUE
    transactions of the log stamped on the date the clock gives. *)
Theorem daily_limit_per_date (self : Account.t) (calls : list call) (d : date) :
  successful_withdrawals d calls self = Account.daily_withdraw_limit self ->
  let self' := run calls self in
  (forall ts amount note,
     (0 < amount)%Q ->
     (amount <= Account.balance self')%Q ->
     (amount <= Account.per_withdraw_limit_value self')%Q ->
     Account.withdraw d ts amount note self' = (Raised DailyLimitExceeded, self'))
  /\ (forall d' ts amount note,
     Account.withdrawals_today d' self' < Account.daily_withdraw_limit self' ->
     (0 < amount)%Q ->
     (amount <= Account.balance self')%Q ->
     (amount <= Account.per_withdraw_limit_value self')%Q ->
     Account.withdraw d' ts amount note self' =
     (Returned tt,
      {| Account.number := Account.number self';
         Account.agency := Account.agency self';
         Account.owner_cpf := Account.owner_cpf self';
         Account.balance := (Account.balance self' - amount)%Q;
         Account.transactions :=
           Account.transactions self' ++
           [{| Transaction.kind := "SAQUE"; Transaction.amount := (- amount)%Q;
               Transaction.timestamp := ts; Transaction.note := note |}];
         Account.daily_withdraw_limit := Account.daily_withdraw_limit self';
         Account.per_withdraw_limit_value := Account.per_withdraw_limit_value self' |}))
  /\ (forall today (a : Account.t),
     Account.withdrawals_today today a
     = Z.of_nat (List.length (filter (is_withdrawal_on today) (Account.transactions a)))
     /\ forall x,
        In x (filter (is_withdrawal_on today) (Account.transactions a)) <->
        In x (Account.transactions a)
        /\ Transaction.kind x = "SAQUE"
        /\ dt_date (Transaction.timestamp x) = today).
Proof.
  intros Hn self'. split; [|split].
  - intros ts amount note H1 H2 H3.
    apply withdraw_raised_daily_limit; try assumption.
    unfold self'. rewrite run_daily_withdraw_limit, withdrawals_today_run, Hn.
    pose proof (withdrawals_today_nonneg d self). lia.
  - intros d' ts amount note Hday H1 H2 H3.
    now apply withdraw_returned.
  - intros today a. split; [apply withdrawals_today_count|].
    intro x. rewrite filter_In, is_withdrawal_on_iff. reflexivity.
Qed.

Lemma daily_limit_per_date_witness :
  Account.withdraw day1 noon 50 "" mari_account = (Raised DailyLimitExceeded, mari_account)
  /\ fst (Account.withdraw (tomorrow day1) next_morning 50 "" mari_account) = Returned tt.
Proof.
  assert (Hn : successful_withdrawals day1 history (Account.new "100001" "11122233344")
               = Account.daily_withdraw_limit (Account.new "100001" "11122233344"))
    by reflexivity.
  destruct (daily_limit_per_date (Account.new "100001" "11122233344") history day1 Hn)
    as (H1 & H2 & _).
  split.
  - apply H1; vm_compute; discriminate || reflexivity.
  - unfold mari_account. rewrite H2; try reflexivity;
      vm_compute; discriminate || reflexivity.
Defined.

(** C4 as the specification words it fails.  On the date of the three
    withdrawals of [history], a further attempt with an amount that is
    not positive, or above the balance, raises the failure of that
    earlier check.  And an attempt on the next calendar date, with an
    amount that passes the three checks before the daily one, raises
    [DailyLimitExceeded] when the daily limit of the account is 0, and
    when the clock was set back, so that the log already has three
    withdrawals stamped on that date. *)
Lemma daily_limit_as_specified_fails :
  (successful_withdrawals day1 history (Account.new "100001" "11122233344")
   = Account.daily_withdraw_limit (Account.new "100001" "11122233344")
   /\ Account.withdraw day1 noon (-1) "" mari_account = (Raised InvalidAmount, mari_account)
   /\ Account.withdraw day1 noon 60 "" mari_account = (Raised InsufficientFunds, mari_account)
   /\ ~ (forall amount,
           fst (Account.withdraw day1 noon amount "" mari_account)
           = Raised DailyLimitExceeded))
  /\ (successful_withdrawals day1 [] no_withdrawal_account
      = Account.daily_withdraw_limit no_withdrawal_account
      /\ Account.withdraw (tomorrow day1) next_morning 50 "" no_withdrawal_account
         = (Raised DailyLimitExceeded, no_withdrawal_account))
  /\ (successful_withdrawals day1 clock_set_back (Account.new "100001" "11122233344")
      = Account.daily_withdraw_limit (Account.new "100001" "11122233344")
      /\ fst (Account.withdraw (tomorrow day1) next_morning 50 ""
                (run clock_set_back (Account.new "100001" "11122233344")))
         = Raised DailyLimitExceeded).
Proof.
  repeat split; try reflexivity.
  intro H. specialize (H (-1)%Q). vm_compute in H. discriminate.
Qed.

(* ================================================================== *)
(** * Dictionaries *)

Section DictFacts.

Context {V : Type}.
Implicit Types (d : dict V) (k : string) (v : V).

Lemma dict_get_set_same k v d : dict_get k (dict_set k v d) = Some v.
Proof.
  induction d as [|[k' v'] d IH]; cbn [dict_set dict_get].
  - now rewrite String.eqb_refl.
  - destruct (k' =? k)%string eqn:E; cbn [dict_get].
    + now rewrite String.eqb_refl.
    + now rewrite E.
Qed.

Lemma dict_get_set_other k k' v d :
  k <> k' -> dict_get k' (dict_set k v d) = dict_get k' d.
Proof.
  intro Hne. induction d as [|[k0 v0] d IH]; cbn [dict_set dict_get].
  - apply String.eqb_neq in Hne. now rewrite Hne.
  - destruct (k0 =? k)%string eqn:E; cbn [dict_get].
    + apply String.eqb_eq in E. subst k0.
      apply String.eqb_neq in Hne. now rewrite Hne.
    + now rewrite IH.
Qed.

Lemma dict_mem_In k d : dict_mem k d = true <-> In k (dict_keys d).
Proof.
  unfold dict_mem. induction d as [|[k' v'] d IH]; cbn [dict_get dict_keys map fst].
  - split; [discriminate | intros []].
  - destruct (k' =? k)%string eqn:E.
    + apply String.eqb_eq in E. split; [now left | reflexivity].
    + rewrite IH. apply String.eqb_neq in E. split; [now right | intros [H|H]; [contradiction|exact H]].
Qed.

Lemma dict_mem_false_In k d : dict_mem k d = false <-> ~ In k (dict_keys d).
Proof.
  rewrite <- dict_mem_In. destruct (dict_mem k d); split; congruence.
Qed.

(** A new key goes last. *)
Lemma dict_set_new k v d : dict_mem k d = false -> dict_set k v d = d ++ [(k, v)].
Proof.
  unfold dict_mem. induction d as [|[k' v'] d IH]; cbn [dict_set dict_get app]; [reflexivity|].
  destruct (k' =? k)%string; [discriminate|].
  intro H. now rewrite IH.
Qed.

(** An assignment to an existing key keeps the keys and their order. *)
Lemma dict_keys_set_old k v d :
  dict_mem k d = true -> dict_keys (dict_set k v d) = dict_keys d.
Proof.
  unfold dict_mem, dict_keys.
  induction d as [|[k' v'] d IH]; cbn [dict_set dict_get map fst]; [discriminate|].
  destruct (k' =? k)%string eqn:E; cbn [map fst].
  - apply String.eqb_eq in E. now subst.
  - intro H. now rewrite IH.
Qed.

Lemma dict_get_mem k d v : dict_get k d = Some v -> dict_mem k d = true.
Proof. unfold dict_mem. now intros ->. Qed.

End DictFacts.

(* ================================================================== *)
(** * The repository: users *)

Lemma create_user_cases cpf name password (self : Bank.t) :
  Bank.create_user cpf name password self =
  if dict_mem cpf (Bank.users self) then (Raised DuplicateUser, self)
  else (Returned tt,
        Bank.mk (dict_set cpf (User.mk cpf name (hash_password password) [])
                          (Bank.users self))
                (Bank.accounts self)).
Proof.
  unfold Bank.create_user, bind, get, raise_if.
  destruct (dict_mem cpf (Bank.users self)); reflexivity.
Qed.

Lemma auth_cases cpf password (self : Bank.t) :
  Bank.auth cpf password self =
  match dict_get cpf (Bank.users self) with
  | None => (Raised AuthenticationFailed, self)
  | Some u =>
      if (User.password_hash u =? hash_password password)%string
      then (Returned u, self)
      else (Raised AuthenticationFailed, self)
  end.
Proof.
  unfold Bank.auth, bind, get.
  destruct (dict_get cpf (Bank.users self)) as [u|]; [|reflexivity].
  destruct (User.password_hash u =? hash_password password)%string; reflexivity.
Qed.

(** C7. [auth] raises [AuthenticationFailed] when no user has the CPF
    and when the hash of the password differs from the stored one, with
    the same failure and the same state in both cases; otherwise it
    returns the stored user. *)
Theorem auth_failure_is_generic cpf password (self : Bank.t) :
  (dict_get cpf (Bank.users self) = None ->
     Bank.auth cpf password self = (Raised AuthenticationFailed, self))
  /\ (forall u,
     dict_get cpf (Bank.users self) = Some u ->
     User.password_hash u <> hash_password password ->
     Bank.auth cpf password self = (Raised AuthenticationFailed, self))
  /\ (forall u,
     dict_get cpf (Bank.users self) = Some u ->
     User.password_hash u = hash_password password ->
     Bank.auth cpf password self = (Returned u, self))
  /\ (forall cpf' password' e e' s s',
     Bank.auth cpf password self = (Raised e, s) ->
     Bank.auth cpf' password' self = (Raised e', s') ->
     e = e' /\ s = s').
Proof.
  repeat split.
  - intro H. now rewrite auth_cases, H.
  - intros u H Hne. rewrite auth_cases, H.
    apply String.eqb_neq in Hne. now rewrite Hne.
  - intros u H He. rewrite auth_cases, H.
    apply String.eqb_eq in He. now rewrite He.
  - revert H H0. rewrite !auth_cases.
    repeat match goal with
           | |- context [match ?x with Some _ => _ | None => _ end] => destruct x
           | |- context [if ?c then _ else _] => destruct c
           end; intros H H'; inversion H; inversion H'; reflexivity.
  - revert H H0. rewrite !auth_cases.
    repeat match goal with
           | |- context [match ?x with Some _ => _ | None => _ end] => destruct x
           | |- context [if ?c then _ else _] => destruct c
           end; intros H H'; inversion H; inversion H'; congruence.
Qed.

Lemma auth_failure_is_generic_witness :
  Bank.auth "00000000000" "abc123" mari_bank = (Raised AuthenticationFailed, mari_bank)
  /\ Bank.auth "11122233344" "wrong" mari_bank = (Raised AuthenticationFailed, mari_bank)
  /\ fst (Bank.auth "11122233344" "abc123" mari_bank)
     = Returned (User.mk "11122233344" "Mari" (hash_password "abc123") ["100001"]).
Proof.
  split; [|split].
  - apply (proj1 (auth_failure_is_generic "00000000000" "abc123" mari_bank)).
    reflexivity.
  - apply (proj1 (proj2 (auth_failure_is_generic "11122233344" "wrong" mari_bank))
             (User.mk "11122233344" "Mari" (hash_password "abc123") ["100001"])).
    + reflexivity.
    + vm_compute. discriminate.
  - rewrite (proj1 (proj2 (proj2 (auth_failure_is_generic "11122233344" "abc123" mari_bank)))
               (User.mk "11122233344" "Mari" (hash_password "abc123") ["100001"]));
      reflexivity.
Defined.

(** C10. When [create_user] returns, [auth] with the same CPF and
    password returns the user just stored. *)
Theorem login_after_registration cpf name password (self self' : Bank.t) :
  Bank.create_user cpf name password self = (Returned tt, self') ->
  Bank.auth cpf password self'
  = (Returned (User.mk cpf name (hash_password password) []), self').
Proof.
  rewrite create_user_cases.
  destruct (dict_mem cpf (Bank.users self)); intro H; inversion H; subst; clear H.
  rewrite auth_cases. cbn [Bank.users].
  rewrite dict_get_set_same. cbn [User.password_hash].
  now rewrite String.eqb_refl.
Qed.

Lemma login_after_registration_witness :
  Bank.auth "11122233344" "abc123"
            (snd (Bank.create_user "11122233344" "Mari" "abc123" Bank.init))
  = (Returned (User.mk "11122233344" "Mari" (hash_password "abc123") []),
     snd (Bank.create_user "11122233344" "Mari" "abc123" Bank.init)).
Proof.
  apply (login_after_registration "11122233344" "Mari" "abc123" Bank.init).
  reflexivity.
Defined.

(* ================================================================== *)
(** * The text of a timestamp reads back *)

Lemma digit_value_digit (d : Z) : 0 <= d < 10 -> digit_value (digit d) = Some d.
Proof.
  intro H.
  assert (E : d = 0 \/ d = 1 \/ d = 2 \/ d = 3 \/ d = 4 \/ d = 5 \/ d = 6 \/ d = 7
              \/ d = 8 \/ d = 9) by lia.
  repeat (destruct E as [-> | E]; [reflexivity|]). now subst.
Qed.

Lemma take_digits_zfill (w k : nat) (n acc : Z) (rest : string) :
  take_digits (w + k) acc (zfill_onto w n rest)
  = take_digits k (acc * 10 ^ Z.of_nat w + n mod 10 ^ Z.of_nat w) rest.
Proof.
  revert k n rest. induction w as [|w IH]; intros k n rest.
  - cbn [zfill_onto Nat.add Z.of_nat]. rewrite Z.pow_0_r, Z.mod_1_r. f_equal. lia.
  - cbn [zfill_onto]. replace (S w + k)%nat with (w + S k)%nat by lia.
    rewrite IH. cbn [take_digits].
    rewrite digit_value_digit by (apply Z.mod_pos_bound; lia).
    f_equal. rewrite Nat2Z.inj_succ, Z.pow_succ_r by lia.
    rewrite (Z.rem_mul_r n 10 (10 ^ Z.of_nat w)) by lia. lia.
Qed.

Lemma take_digits_zfill_exact (w : nat) (n : Z) (rest : string) :
  0 <= n < 10 ^ Z.of_nat w ->
  take_digits w 0 (zfill_onto w n rest) = Some (n, rest).
Proof.
  intro H. replace w with (w + 0)%nat at 1 by lia.
  rewrite take_digits_zfill. cbn [take_digits].
  now rewrite Z.mod_small by exact H.
Qed.

Lemma valid_datetime_bounds (t : datetime) :
  valid_datetime t = true ->
  0 <= year (dt_date t) < 10 ^ 4 /\ 0 <= month (dt_date t) < 10 ^ 2
  /\ 0 <= day (dt_date t) < 10 ^ 2 /\ 0 <= hour t < 10 ^ 2
  /\ 0 <= minute t < 10 ^ 2 /\ 0 <= second t < 10 ^ 2
  /\ 0 <= microsecond t < 10 ^ 6.
Proof.
  unfold valid_datetime, valid_date, days_in_month.
  rewrite !andb_true_iff, !Z.leb_le, !Z.ltb_lt.
  intro H. repeat match goal with H : _ /\ _ |- _ => destruct H end.
  assert (day (dt_date t) <= 31).
  { destruct (month (dt_date t) =? 2); [destruct (is_leap _)|];
      [| | destruct (_ || _)]; lia. }
  lia.
Qed.

(** [fromisoformat(t.isoformat()) == t] *)
Lemma fromisoformat_isoformat (t : datetime) :
  valid_datetime t = true -> fromisoformat (isoformat t) = Some t.
Proof.
  intro Hv. pose proof (valid_datetime_bounds t Hv) as (Hy & Hmo & Hd & Hh & Hmi & Hs & Hus).
  destruct t as [[y mo d] h mi s us]. cbn [dt_date year month day hour minute second microsecond] in *.
  unfold fromisoformat, isoformat. cbn [dt_date year month day hour minute second microsecond].
  rewrite (take_digits_zfill_exact 4) by exact Hy. cbn [expect]. rewrite Ascii.eqb_refl.
  rewrite (take_digits_zfill_exact 2) by exact Hmo. cbn [expect]. rewrite Ascii.eqb_refl.
  rewrite (take_digits_zfill_exact 2) by exact Hd. cbn [expect]. rewrite Ascii.eqb_refl.
  rewrite (take_digits_zfill_exact 2) by exact Hh. cbn [expect]. rewrite Ascii.eqb_refl.
  rewrite (take_digits_zfill_exact 2) by exact Hmi. cbn [expect]. rewrite Ascii.eqb_refl.
  rewrite (take_digits_zfill_exact 2) by exact Hs.
  destruct (us =? 0) eqn:E.
  - apply Z.eqb_eq in E. subst us. now rewrite Hv.
  - cbn [expect]. rewrite Ascii.eqb_refl.
    rewrite (take_digits_zfill_exact 6) by exact Hus. now rewrite Hv.
Qed.

(* ================================================================== *)
(** * Dicts built key by key *)

Lemma existsb_eqb_In (k : string) (l : list string) :
  existsb (String.eqb k) l = true <-> In k l.
Proof.
  rewrite existsb_exists. split.
  - intros (x & Hx & E). apply String.eqb_eq in E. now subst.
  - intro H. exists k. split; [exact H | apply String.eqb_refl].
Qed.

Lemma unique_app_cons (l r : list string) (k : string) :
  unique (l ++ k :: r) = true -> ~ In k l.
Proof.
  induction l as [|x l IH]; cbn [app unique]; [now intros _ []|].
  rewrite andb_true_iff, negb_true_iff. intros [Hx Hl] [-> | Hin].
  - assert (In k (l ++ k :: r)) as Hk by (apply in_or_app; right; now left).
    apply existsb_eqb_In in Hk. congruence.
  - now apply IH.
Qed.

Section Comprehensions.

Context {A V : Type}.

Lemma keys_app (d1 d2 : dict V) : dict_keys (d1 ++ d2) = dict_keys d1 ++ dict_keys d2.
Proof. apply map_app. Qed.

Lemma dict_set_fresh (acc : dict V) (k : string) (v : V) (rest : list string) :
  unique (dict_keys acc ++ k :: rest) = true -> dict_set k v acc = acc ++ [(k, v)].
Proof.
  intro H. apply dict_set_new, dict_mem_false_In. now apply unique_app_cons in H.
Qed.

Lemma fold_dict_set (f : A -> V) (items : list (string * A)) (acc : dict V) :
  unique (dict_keys acc ++ map fst items) = true ->
  fold_left (fun d kv => dict_set (fst kv) (f (snd kv)) d) items acc
  = acc ++ map (fun kv => (fst kv, f (snd kv))) items.
Proof.
  revert acc. induction items as [|[k a] items IH]; intros acc H; cbn [fold_left map fst snd].
  - now rewrite app_nil_r.
  - cbn [map fst] in H. rewrite (dict_set_fresh acc k (f a) _ H).
    rewrite IH.
    + now rewrite <- app_assoc.
    + rewrite keys_app. cbn [dict_keys map fst]. now rewrite <- app_assoc.
Qed.

(** A comprehension over a dict keeps its keys and their order. *)
Lemma dict_comprehension_map (f : A -> V) (d : dict A) :
  unique (dict_keys d) = true ->
  dict_comprehension f d = map (fun kv => (fst kv, f (snd kv))) d.
Proof.
  intro H. unfold dict_comprehension. now rewrite fold_dict_set.
Qed.

End Comprehensions.

(* ================================================================== *)
(** * Reading back what [save] wrote *)

Section ReadBack.

Context {S : Type}.
Implicit Types (s : S).

Lemma fold_as_str (l acc : list string) s :
  fold_m (fun acc x => (y <- as_str x ;; ret (acc ++ [y]))%action) (map JString l) acc s
  = (Returned (acc ++ l), s).
Proof.
  revert acc. induction l as [|x l IH]; intro acc; cbn [map fold_m].
  - unfold ret. now rewrite app_nil_r.
  - unfold bind at 1. unfold bind at 1. cbn [as_str]. unfold ret at 1 2.
    rewrite IH. now rewrite <- app_assoc.
Qed.

Lemma of_kwargs_serialize_user (u : User.t) s :
  User.of_kwargs (Bank.serialize_user u) s = (Returned u, s).
Proof.
  destruct u as [cpf name password_hash accounts].
  unfold User.of_kwargs, Bank.serialize_user, list_comprehension.
  cbn [User.cpf User.name User.password_hash User.accounts].
  unfold bind at 1. cbn [as_dict]. unfold ret at 1.
  unfold bind at 1.
  replace (forallb _ _) with true by reflexivity.
  cbn [negb raise_if]. unfold ret at 1.
  unfold bind at 1. unfold keyword at 1.
  replace (dict_get "cpf" _) with (Some (JString cpf)) by reflexivity.
  cbn [as_str]. unfold ret at 1.
  unfold bind at 1. unfold keyword at 1.
  replace (dict_get "name" _) with (Some (JString name)) by reflexivity.
  cbn [as_str]. unfold ret at 1.
  unfold bind at 1. unfold keyword at 1.
  replace (dict_get "password_hash" _) with (Some (JString password_hash)) by reflexivity.
  cbn [as_str]. unfold ret at 1.
  unfold bind at 1. unfold get_default at 1.
  replace (dict_get "accounts" _) with (Some (JArray (map JString accounts))) by reflexivity.
  unfold bind at 1. cbn [as_list]. unfold ret at 1.
  rewrite fold_as_str. reflexivity.
Qed.

Lemma load_transaction_serialize (x : Transaction.t) s :
  valid_datetime (Transaction.timestamp x) = true ->
  Bank.load_transaction (Bank.serialize_transaction x) s = (Returned x, s).
Proof.
  intro Hv. destruct x as [kind amount timestamp note].
  cbn [Transaction.timestamp] in Hv.
  unfold Bank.load_transaction, Bank.serialize_transaction.
  cbn [Transaction.kind Transaction.amount Transaction.timestamp Transaction.note].
  unfold bind at 1. cbn [as_dict]. unfold ret at 1.
  unfold bind at 1. unfold item at 1. unfold bind at 1. unfold subscript at 1.
  replace (dict_get "kind" _) with (Some (JString kind)) by reflexivity.
  unfold ret at 1. cbn [as_str]. unfold ret at 1.
  unfold bind at 1. unfold item at 1. unfold bind at 1. unfold subscript at 1.
  replace (dict_get "amount" _) with (Some (JFloat amount)) by reflexivity.
  unfold ret at 1. cbn [as_float]. unfold ret at 1.
  unfold bind at 1. unfold item at 1. unfold bind at 1. unfold subscript at 1.
  replace (dict_get "timestamp" _) with (Some (JString (isoformat timestamp))) by reflexivity.
  unfold ret at 1. cbn [as_str]. unfold ret at 1.
  rewrite (fromisoformat_isoformat timestamp Hv).
  unfold bind at 1. unfold ret at 1.
  unfold bind at 1. unfold get_default at 1.
  replace (dict_get "note" _) with (Some (JString note)) by reflexivity.
  cbn [as_str]. unfold ret at 1. reflexivity.
Qed.

Lemma fold_load_transaction (txs : list Transaction.t) (acc : Account.t) s :
  forallb (fun x => valid_datetime (Transaction.timestamp x)) txs = true ->
  fold_m (fun acc x => (t <- Bank.load_transaction x ;;
                        ret (Account.append_transaction t acc))%action)
         (map Bank.serialize_transaction txs) acc s
  = (Returned (Account.mk (Account.number acc) (Account.agency acc) (Account.owner_cpf acc)
                          (Account.balance acc) (Account.transactions acc ++ txs)
                          (Account.daily_withdraw_limit acc)
                          (Account.per_withdraw_limit_value acc)), s).
Proof.
  revert acc. induction txs as [|x txs IH]; intros acc Hv; cbn [map fold_m].
  - unfold ret. rewrite app_nil_r. now destruct acc.
  - cbn [forallb] in Hv. apply andb_true_iff in Hv as [Hx Hv].
    unfold bind at 1. unfold bind at 1.
    rewrite (load_transaction_serialize x s Hx). unfold ret at 1.
    rewrite (IH _ Hv). unfold Account.append_transaction.
    cbn [Account.number Account.agency Account.owner_cpf Account.balance
         Account.transactions Account.daily_withdraw_limit Account.per_withdraw_limit_value].
    now rewrite <- app_assoc.
Qed.

Lemma load_account_serialize (a : Account.t) s :
  valid_account a = true ->
  Bank.load_account (Bank.serialize_account a) s = (Returned a, s).
Proof.
  intro Hv. destruct a as [number agency owner_cpf balance txs daily per].
  unfold valid_account in Hv. cbn [Account.transactions] in Hv.
  unfold Bank.load_account, Bank.serialize_account.
  cbn [Account.number Account.agency Account.owner_cpf Account.balance
       Account.transactions Account.daily_withdraw_limit Account.per_withdraw_limit_value].
  unfold bind at 1. cbn [as_dict]. unfold ret at 1.
  unfold bind at 1. unfold item at 1. unfold bind at 1. unfold subscript at 1.
  replace (dict_get "number" _) with (Some (JString number)) by reflexivity.
  unfold ret at 1. cbn [as_str]. unfold ret at 1.
  unfold bind at 1. unfold item at 1. unfold bind at 1. unfold subscript at 1.
  replace (dict_get "agency" _) with (Some (JString agency)) by reflexivity.
  unfold ret at 1. cbn [as_str]. unfold ret at 1.
  unfold bind at 1. unfold item at 1. unfold bind at 1. unfold subscript at 1.
  replace (dict_get "owner_cpf" _) with (Some (JString owner_cpf)) by reflexivity.
  unfold ret at 1. cbn [as_str]. unfold ret at 1.
  unfold bind at 1. unfold item at 1. unfold bind at 1. unfold subscript at 1.
  replace (dict_get "balance" _) with (Some (JFloat balance)) by reflexivity.
  unfold ret at 1. cbn [as_float]. unfold ret at 1.
  unfold bind at 1. unfold get_default at 1.
  replace (dict_get "daily_withdraw_limit" _) with (Some (JInt daily)) by reflexivity.
  cbn [as_int]. unfold ret at 1.
  unfold bind at 1. unfold get_default at 1.
  replace (dict_get "per_withdraw_limit_value" _) with (Some (JFloat per)) by reflexivity.
  cbn [as_float]. unfold ret at 1.
  unfold bind at 1. unfold item at 1. unfold bind at 1. unfold subscript at 1.
  replace (dict_get "transactions" _)
    with (Some (JArray (map Bank.serialize_transaction txs))) by reflexivity.
  unfold ret at 1. cbn [as_list]. unfold ret at 1.
  rewrite (fold_load_transaction txs _ s Hv). reflexivity.
Qed.

Lemma fold_of_kwargs (items acc : dict User.t) s :
  unique (dict_keys acc ++ map fst items) = true ->
  fold_m (fun d kv => (v <- User.of_kwargs (snd kv) ;; ret (dict_set (fst kv) v d))%action)
         (map (fun kv => (fst kv, Bank.serialize_user (snd kv))) items) acc s
  = (Returned (acc ++ items), s).
Proof.
  revert acc. induction items as [|[k u] items IH]; intros acc H; cbn [map fold_m fst snd].
  - unfold ret. now rewrite app_nil_r.
  - cbn [map fst] in H.
    unfold bind at 1. unfold bind at 1. rewrite of_kwargs_serialize_user. unfold ret at 1.
    rewrite (dict_set_fresh acc k u _ H). rewrite IH.
    + now rewrite <- app_assoc.
    + rewrite keys_app. cbn [dict_keys map fst]. now rewrite <- app_assoc.
Qed.

End ReadBack.

Lemma for_each_load_account (items : dict Account.t) (self : Bank.t) :
  unique (dict_keys (Bank.accounts self) ++ map fst items) = true ->
  forallb (fun kv => valid_account (snd kv)) items = true ->
  for_each (map (fun kv => (fst kv, Bank.serialize_account (snd kv))) items)
    (fun kv =>
       (acc <- Bank.load_account (snd kv) ;;
        modify (fun self =>
          Bank.set_accounts (dict_set (fst kv) acc (Bank.accounts self)) self))%action)
    self
  = (Returned tt, Bank.mk (Bank.users self) (Bank.accounts self ++ items)).
Proof.
  unfold for_each. revert self.
  induction items as [|[k a] items IH]; intros self Hu Hv; cbn [map fold_m fst snd].
  - unfold ret. rewrite app_nil_r. now destruct self.
  - cbn [map fst] in Hu. cbn [forallb snd] in Hv. apply andb_true_iff in Hv as [Ha Hv].
    unfold bind at 1. unfold bind at 1.
    rewrite (load_account_serialize a self Ha). unfold modify at 1.
    rewrite (dict_set_fresh (Bank.accounts self) k a _ Hu).
    rewrite IH.
    + cbn [Bank.set_accounts Bank.users Bank.accounts]. now rewrite <- app_assoc.
    + cbn [Bank.set_accounts Bank.accounts]. rewrite keys_app.
      cbn [dict_keys map fst]. now rewrite <- app_assoc.
    + exact Hv.
Qed.

Lemma load_of_save (users : dict User.t) (accounts : dict Account.t) (other : Bank.t) :
  unique (dict_keys users) = true ->
  unique (dict_keys accounts) = true ->
  forallb (fun kv => valid_account (snd kv)) accounts = true ->
  Bank.load (Some (Bank.save (Bank.mk users accounts))) other
  = (Returned tt, Bank.mk users accounts).
Proof.
  intros Hu Ha Hv.
  unfold Bank.load, Bank.save. cbn [Bank.users Bank.accounts].
  rewrite !dict_comprehension_map by assumption.
  unfold bind at 1. cbn [as_dict]. unfold ret at 1.
  unfold bind at 1. unfold get_default at 1.
  match goal with |- context [dict_get "users" ?d] =>
    replace (dict_get "users" d)
      with (Some (JObject (map (fun kv => (fst kv, Bank.serialize_user (snd kv))) users)))
      by reflexivity end.
  cbn [as_dict]. unfold ret at 1.
  unfold bind at 1. unfold dict_comprehension_m.
  rewrite (fold_of_kwargs users [] other) by exact Hu.
  unfold bind at 1. unfold modify at 1.
  unfold bind at 1. unfold modify at 1.
  unfold bind at 1. unfold get_default at 1.
  match goal with |- context [dict_get "accounts" ?d] =>
    replace (dict_get "accounts" d)
      with (Some (JObject (map (fun kv => (fst kv, Bank.serialize_account (snd kv))) accounts)))
      by reflexivity end.
  cbn [as_dict]. unfold ret at 1.
  rewrite for_each_load_account; [reflexivity | exact Ha | exact Hv].
Qed.

(** C5. Loading the document that [save] wrote for a bank, into a bank
    in any state, returns and leaves exactly the saved bank: the same
    users and accounts under the same keys in the same order, every
    field and every transaction with its timestamp included. *)
Theorem load_save_round_trip (self other : Bank.t) :
  valid_bank self = true ->
  Bank.load (Some (Bank.save self)) other = (Returned tt, self).
Proof.
  unfold valid_bank. rewrite !andb_true_iff. intros [[Hu Ha] Hv].
  destruct self as [users accounts]. cbn [Bank.users Bank.accounts] in Hu, Ha, Hv.
  now apply load_of_save.
Qed.

Lemma load_save_round_trip_witness :
  Bank.load (Some (Bank.save funded_bank)) Bank.init = (Returned tt, funded_bank).
Proof.
  apply (load_save_round_trip funded_bank Bank.init).
  vm_compute. reflexivity.
Defined.

(* ================================================================== *)
(** * The repository: account numbers *)

Lemma to_int_not_nil (z : Z) : Z.to_int z <> Decimal.Pos Decimal.Nil /\ Z.to_int z <> Decimal.Neg Decimal.Nil.
Proof.
  split; intro H;
    pose proof (f_equal Z.of_int H) as E; rewrite DecimalZ.of_to in E;
    cbn in E; subst z; discriminate H.
Qed.

Lemma str_inj (a b : Z) : str a = str b -> a = b.
Proof.
  unfold str. intro H.
  apply (f_equal NilZero.int_of_string) in H.
  destruct (to_int_not_nil a) as [Ha1 Ha2], (to_int_not_nil b) as [Hb1 Hb2].
  rewrite !NilZero.isi in H by assumption.
  injection H as H. now apply DecimalZ.to_int_inj.
Qed.

Lemma create_account_cases owner_cpf (self : Bank.t) :
  Bank.create_account owner_cpf self =
  let number := str (100000 + len (Bank.accounts self) + 1) in
  let acc := Account.new number owner_cpf in
  match dict_get owner_cpf (Bank.users self) with
  | None => (Raised UnknownUser, self)
  | Some u =>
      (Returned acc,
       Bank.mk (dict_set owner_cpf (User.append_account number u) (Bank.users self))
               (dict_set number acc (Bank.accounts self)))
  end.
Proof.
  unfold Bank.create_account, bind, get, raise_if, dict_mem, subscript, modify, ret, raise.
  destruct (dict_get owner_cpf (Bank.users self)) as [u|] eqn:E;
    cbn [negb Bank.users Bank.accounts Bank.set_accounts Bank.set_users].
  - rewrite E. reflexivity.
  - reflexivity.
Qed.

Lemma allocated_succ (n : nat) :
  allocated (S n) = allocated n ++ [str (100001 + Z.of_nat n)].
Proof. unfold allocated. now rewrite seq_S, map_app. Qed.

Lemma allocated_below (n : nat) (k : string) :
  In k (allocated n) ->
  exists i, k = str i /\ 100000 < i < 100001 + Z.of_nat n.
Proof.
  unfold allocated. rewrite in_map_iff. intros (i & <- & Hi).
  apply in_seq in Hi. exists (100001 + Z.of_nat i). split; [reflexivity | lia].
Qed.

Lemma next_not_allocated (n : nat) : ~ In (str (100001 + Z.of_nat n)) (allocated n).
Proof.
  intro H. apply allocated_below in H as (i & E & Hi).
  apply str_inj in E. lia.
Qed.

Lemma numbered_next_is_new (self : Bank.t) :
  numbered self ->
  dict_mem (str (100000 + len (Bank.accounts self) + 1)) (Bank.accounts self) = false.
Proof.
  intro H. apply dict_mem_false_In. rewrite H. unfold len.
  replace (100000 + Z.of_nat (List.length (Bank.accounts self)) + 1)
    with (100001 + Z.of_nat (List.length (Bank.accounts self))) by lia.
  apply next_not_allocated.
Qed.

Lemma unique_snoc (l : list string) (k : string) :
  unique l = true -> ~ In k l -> unique (l ++ [k]) = true.
Proof.
  induction l as [|x l IH]; cbn [app unique]; [reflexivity|].
  rewrite !andb_true_iff, !negb_true_iff. intros [Hx Hl] Hk. split.
  - destruct (existsb (String.eqb x) (l ++ [k])) eqn:E; [|reflexivity].
    apply existsb_eqb_In, in_app_or in E. destruct E as [E | [E | []]].
    + apply existsb_eqb_In in E. congruence.
    + subst. exfalso. apply Hk. now left.
  - apply IH; [exact Hl | intro H; apply Hk; now right].
Qed.

Lemma forallb_dict_set {V} (p : string * V -> bool) (k : string) (v : V) (d : dict V) :
  (forall k', p (k', v) = true) ->
  forallb p d = true -> forallb p (dict_set k v d) = true.
Proof.
  intro Hv. induction d as [|[k' v'] d IH]; cbn [dict_set forallb].
  - intros _. now rewrite Hv.
  - rewrite andb_true_iff. intros [H1 H2].
    destruct (k' =? k)%string; cbn [forallb]; rewrite ?Hv, ?H1, ?H2, ?IH; auto.
Qed.

Lemma dict_get_In {V} (k : string) (v : V) (d : dict V) :
  dict_get k d = Some v -> In (k, v) d.
Proof.
  induction d as [|[k' v'] d IH]; cbn [dict_get]; [discriminate|].
  destruct (k' =? k)%string eqn:E.
  - apply String.eqb_eq in E. intros [= ->]. subst. now left.
  - intro H. right. now apply IH.
Qed.

Lemma perform_valid_account (c : call) (acc : Account.t) :
  valid_datetime (call_timestamp c) = true ->
  valid_account acc = true ->
  valid_account (snd (perform c acc)) = true.
Proof.
  unfold valid_account. intros Hc Hacc.
  destruct (perform_transactions c acc) as [E | (x & E & Hx)]; rewrite E.
  - exact Hacc.
  - rewrite forallb_app, Hacc. cbn [forallb]. now rewrite Hx, Hc.
Qed.

(** What holds in every state the repository can reach. *)
Lemma reachable_invariant (self : Bank.t) :
  reachable self -> valid_bank self = true /\ numbered self.
Proof.
  induction 1 as [| self cpf name password _ [IHv IHn] | self owner_cpf _ [IHv IHn]
                  | self number acc c _ [IHv IHn] Hget Hts | self other _ [IHv IHn]].
  - split; reflexivity.
  - rewrite create_user_cases.
    destruct (dict_mem cpf (Bank.users self)) eqn:E; [now split|].
    split; [|exact IHn]. cbn [snd]. revert IHv. unfold valid_bank.
    rewrite !andb_true_iff. cbn [Bank.users Bank.accounts]. intros [[Hu Ha] Hv].
    repeat split; try assumption.
    rewrite dict_set_new by exact E. rewrite keys_app. cbn [dict_keys map fst].
    apply unique_snoc; [exact Hu | now apply dict_mem_false_In].
  - rewrite create_account_cases. cbn zeta.
    destruct (dict_get owner_cpf (Bank.users self)) as [u|] eqn:Eu; [|now split].
    pose proof (numbered_next_is_new self IHn) as Hnew.
    cbn [snd]. split.
    + revert IHv. unfold valid_bank.
      rewrite !andb_true_iff. cbn [Bank.users Bank.accounts]. intros [[Hu Ha] Hv].
      rewrite (dict_set_new _ _ (Bank.accounts self) Hnew).
      repeat split.
      * now rewrite (dict_keys_set_old owner_cpf _ (Bank.users self) (dict_get_mem _ _ _ Eu)).
      * rewrite keys_app. cbn [dict_keys map fst].
        apply unique_snoc; [exact Ha | now apply dict_mem_false_In].
      * rewrite forallb_app, Hv. reflexivity.
    + unfold numbered in *. cbn [Bank.accounts].
      rewrite (dict_set_new _ _ (Bank.accounts self) Hnew).
      unfold dict_keys in *. rewrite map_app, length_app, IHn. cbn [map fst List.length].
      rewrite Nat.add_1_r, allocated_succ. unfold len. do 3 f_equal. lia.
  - pose proof (dict_keys_set_old number (snd (perform c acc)) (Bank.accounts self)
                  (dict_get_mem _ _ _ Hget)) as Hk.
    split.
    + revert IHv. unfold valid_bank.
      rewrite !andb_true_iff. cbn [Bank.set_accounts Bank.users Bank.accounts].
      intros [[Hu Ha] Hv]. repeat split; [exact Hu | now rewrite Hk |].
      apply forallb_dict_set; [|exact Hv].
      intros k'. cbn [snd]. apply perform_valid_account; [exact Hts|].
      rewrite forallb_forall in Hv. apply (Hv (number, acc)). now apply dict_get_In.
    + unfold numbered in *. cbn [Bank.set_accounts Bank.accounts].
      rewrite Hk, IHn. f_equal.
      apply (f_equal (@List.length string)) in Hk. unfold dict_keys in Hk.
      now rewrite !length_map in Hk.
  - revert IHv IHn. destruct self as [users accounts]. unfold valid_bank.
    rewrite !andb_true_iff. cbn [Bank.users Bank.accounts]. intros [[Hu Ha] Hv] IHn.
    rewrite load_of_save by assumption. cbn [snd]. split; [|exact IHn].
    unfold valid_bank. cbn [Bank.users Bank.accounts]. now rewrite Hu, Ha, Hv.
Qed.

Lemma reachable_numbered (self : Bank.t) : reachable self -> numbered self.
Proof. intro H. now apply reachable_invariant. Qed.

(** C6 (amended).  In a state the repository can reach, [create_account] raises
    [UnknownUser] for a CPF that is not registered; otherwise it returns
    a new account whose number is the decimal text of 100000 plus the
    number of accounts plus one, stores it last under that number, and
    appends the number to the list of the owner.  The number is not the
    key of an existing account, every existing key is the text of a
    smaller integer, and with no account yet the number is "100001". *)
Theorem create_account_allocates (self : Bank.t) (owner_cpf : string) :
  reachable self ->
  let number := str (100000 + len (Bank.accounts self) + 1) in
  let acc := Account.new number owner_cpf in
  (dict_mem owner_cpf (Bank.users self) = false ->
     Bank.create_account owner_cpf self = (Raised UnknownUser, self))
  /\ (forall u,
     dict_get owner_cpf (Bank.users self) = Some u ->
     Bank.create_account owner_cpf self =
     (Returned acc,
      {| Bank.users :=
           dict_set owner_cpf
             {| User.cpf := User.cpf u; User.name := User.name u;
                User.password_hash := User.password_hash u;
                User.accounts := User.accounts u ++ [number] |}
             (Bank.users self);
         Bank.accounts := Bank.accounts self ++ [(number, acc)] |})
     /\ dict_get number (Bank.accounts (snd (Bank.create_account owner_cpf self)))
        = Some acc)
  /\ ~ In number (dict_keys (Bank.accounts self))
  /\ (forall k,
     In k (dict_keys (Bank.accounts self)) ->
     exists i, k = str i /\ i < 100000 + len (Bank.accounts self) + 1)
  /\ (Bank.accounts self = [] -> number = "100001").
Proof.
  intros Hreach number acc.
  pose proof (reachable_numbered self Hreach) as Hnum.
  pose proof (numbered_next_is_new self Hnum) as Hnew. fold number in Hnew.
  split; [|split; [|split; [|split]]].
  - unfold dict_mem. intro H. rewrite create_account_cases.
    destruct (dict_get owner_cpf (Bank.users self)); [discriminate | reflexivity].
  - intros u Hu. rewrite create_account_cases, Hu. cbn zeta. fold number. fold acc.
    cbn [snd Bank.accounts]. rewrite dict_get_set_same.
    rewrite (dict_set_new number acc (Bank.accounts self) Hnew). split; reflexivity.
  - now apply dict_mem_false_In.
  - intros k Hk. rewrite Hnum in Hk. apply allocated_below in Hk as (i & E & Hi).
    exists i. split; [exact E | unfold len; lia].
  - intro E. unfold number. now rewrite E.
Qed.

Lemma registered_bank_reachable : reachable registered_bank.
Proof.
  exact (reachable_create_user _ "11122233344" "Mari" "abc123" reachable_init).
Qed.

Lemma mari_bank_reachable : reachable mari_bank.
Proof.
  replace mari_bank with (snd (Bank.create_account "11122233344" registered_bank))
    by (vm_compute; reflexivity).
  apply reachable_create_account, registered_bank_reachable.
Qed.

Lemma create_account_allocates_witness :
  fst (Bank.create_account "11122233344" registered_bank)
  = Returned (Account.new "100001" "11122233344")
  /\ fst (Bank.create_account "11122233344" mari_bank)
     = Returned (Account.new "100002" "11122233344")
  /\ Bank.create_account "00000000000" mari_bank = (Raised UnknownUser, mari_bank).
Proof.
  split; [|split].
  - destruct (create_account_allocates registered_bank "11122233344"
                registered_bank_reachable) as (_ & H & _).
    assert (Hu : dict_get "11122233344" (Bank.users registered_bank)
                 = Some (User.mk "11122233344" "Mari" (hash_password "abc123") []))
      by (vm_compute; reflexivity).
    destruct (H _ Hu) as [E _]. rewrite E. vm_compute. reflexivity.
  - destruct (create_account_allocates mari_bank "11122233344"
                mari_bank_reachable) as (_ & H & _).
    assert (Hu : dict_get "11122233344" (Bank.users mari_bank)
                 = Some (User.mk "11122233344" "Mari" (hash_password "abc123") ["100001"]))
      by (vm_compute; reflexivity).
    destruct (H _ Hu) as [E _]. rewrite E. vm_compute. reflexivity.
  - destruct (create_account_allocates mari_bank "00000000000"
                mari_bank_reachable) as (H & _).
    apply H. vm_compute. reflexivity.
Defined.

(** C6 as the specification words it fails.  [load] takes the keys of
    the accounts from the file: after loading a document whose only
    account is stored under "100002", the number that [create_account]
    derives from the count is "100002" again, the key of an existing
    account, and the account that was stored there, with its balance
    of 50 and its log, is replaced by the new one. *)
Lemma create_account_reuses_number :
  Bank.load (Some (Bank.save clashing_bank)) Bank.init = (Returned tt, clashing_bank)
  /\ dict_keys (Bank.accounts clashing_bank) = ["100002"]
  /\ dict_get "100002" (Bank.accounts clashing_bank) = Some mari_account
  /\ Account.balance mari_account = 50%Q
  /\ fst (Bank.create_account "11122233344" clashing_bank)
     = Returned (Account.new "100002" "11122233344")
  /\ In "100002" (dict_keys (Bank.accounts clashing_bank))
  /\ Bank.accounts (snd (Bank.create_account "11122233344" clashing_bank))
     = [("100002", Account.new "100002" "11122233344")].
Proof.
  repeat split; try (vm_compute; reflexivity).
  left. reflexivity.
Qed.

(* ================================================================== *)
(** * Worked examples *)

(** The digest on the test vectors of FIPS 180-4. *)
Example sha256_abc :
  SHA256.hexdigest (encode_utf8 "abc")
  = "ba7816bf8f01cfea414140de5dae2223b00361a396177a9cb410ff61f20015ad".
Proof. vm_compute. reflexivity. Qed.

Example sha256_empty :
  SHA256.hexdigest (encode_utf8 "")
  = "e3b0c44298fc1c149afbf4c8996fb92427ae41e4649b934ca495991b7852b855".
Proof. vm_compute. reflexivity. Qed.

Example sha256_two_blocks :
  SHA256.hexdigest
    (encode_utf8 "abcdbcdecdefdefgefghfghighijhijkijkljklmklmnlmnomnopnopq")
  = "248d6a61d20638b8e5c026930c3e6039a33ce45964ff2167f6ecedd419db06c1".
Proof. vm_compute. reflexivity. Qed.

(** The text of a timestamp, with and without microseconds. *)
Example isoformat_morning : isoformat morning = "2025-03-14T09:30:00".
Proof. vm_compute. reflexivity. Qed.

Example isoformat_noon : isoformat noon = "2025-03-14T12:00:00.250000".
Proof. vm_compute. reflexivity. Qed.

(** The account of the scenario: 200 deposited, 150 withdrawn. *)
Example mari_account_balance : (Account.balance mari_account == 50)%Q.
Proof. vm_compute. reflexivity. Qed.

(** With a balance of 200, a withdrawal of 500.01 fails the balance
    check, which comes before the per-operation limit. *)
Example withdraw_above_balance_and_limit :
  fst (Account.withdraw day1 morning (50001 # 100) ""
         (snd (Account.deposit morning 200 "" (Account.new "100001" "11122233344"))))
  = Raised InsufficientFunds.
Proof. vm_compute. reflexivity. Qed.

(** The sum of a statement is the net of its window: the window of
    [day2] on the account of the scenario is empty. *)
Example statement_of_empty_window :
  fst (Account.statement (Some day2) None mari_account) = Returned ([], 0%Q).
Proof. vm_compute. reflexivity. Qed.

(* ================================================================== *)
(** * More about the ledger *)

Lemma perform_cases (c : call) (self : Account.t) :
((exists e, fst (perform c self) = Raised e) /\ snd (perform c self) = self)
  \/ exists x,
       fst (perform c self) = Returned tt
       /\ snd (perform c self)
          = Account.mk (Account.number self) (Account.agency self) (Account.owner_cpf self)
                       (Account.balance self + Transaction.amount x)%Q
                       (Account.transactions self ++ [x])
                       (Account.daily_withdraw_limit self)
                       (Account.per_withdraw_limit_value self)
       /\ Transaction.timestamp x = call_timestamp c
       /\ match c with
          | Deposit _ amount _ =>
              Transaction.kind x = "DEPOSITO" /\ Transaction.amount x = amount
              /\ (0 < amount)%Q
          | Withdraw today _ amount _ =>
              Transaction.kind x = "SAQUE" /\ Transaction.amount x = (- amount)%Q
              /\ (0 < amount)%Q
              /\ (amount <= Account.balance self)%Q
              /\ (amount <= Account.per_withdraw_limit_value self)%Q
              /\ Account.withdrawals_today today self < Account.daily_withdraw_limit self
          end.
Proof.
  destruct c as [ts amount note | today ts amount note]; cbn [perform call_timestamp].
  - rewrite deposit_cases. destruct (Qle_bool amount 0) eqn:E; cbn [fst snd];
      [left; split; [eexists|]; reflexivity|].
    right. exists (Transaction.mk "DEPOSITO" amount ts note).
    apply Qle_bool_false_iff in E. repeat split; assumption.
  - rewrite withdraw_cases.
    destruct (Qle_bool amount 0) eqn:E1;
      [left; split; [eexists|]; reflexivity|].
    destruct (Qgt_bool amount (Account.balance self)) eqn:E2;
      [left; split; [eexists|]; reflexivity|].
    destruct (Qgt_bool amount (Account.per_withdraw_limit_value self)) eqn:E3;
      [left; split; [eexists|]; reflexivity|].
    destruct (Account.withdrawals_today today self
              >=? Account.daily_withdraw_limit self) eqn:E4;
      [left; split; [eexists|]; reflexivity|].
    right. cbn [fst snd].
    exists (Transaction.mk "SAQUE" (- amount)%Q ts note).
    apply Qle_bool_false_iff in E1. apply Qgt_bool_false_iff in E2, E3.
    rewrite Z.geb_leb in E4. apply Z.leb_gt in E4.
    repeat split; assumption.
Qed.

(** X4. When every withdrawal reads one date from the clock, a date
    that has no more SAQUE entries than the daily limit never gets more:
    this holds after every call of any sequence of calls. *)
Theorem daily_limit_never_exceeded (self : Account.t) (calls : list call) (d : date) :
  same_day_clock calls = true ->
  Account.withdrawals_today d self <= Account.daily_withdraw_limit self ->
  Forall (fun a => Account.withdrawals_today d a <= Account.daily_withdraw_limit self)
         (states_after calls self).
Proof.
  revert self. induction calls as [|c calls IH]; intros self Hclock H;
    cbn [states_after]; [constructor|].
  cbn [same_day_clock forallb] in Hclock. apply andb_true_iff in Hclock as [Hc Hclock].
  assert (Hstep : Account.withdrawals_today d (snd (perform c self))
                  <= Account.daily_withdraw_limit self).
  { rewrite withdrawals_today_perform. cbn [successful_withdrawals]. unfold succeeded.
    destruct c as [ts amount note | today ts amount note]; [lia|].
    destruct (perform_cases (Withdraw today ts amount note) self)
      as [[[e He] _] | (x & Hr & _ & _ & _ & _ & _ & _ & _ & Hlt)].
    - rewrite He. cbn [andb]. lia.
    - rewrite Hr. cbn [andb].
      destruct (date_eqb (dt_date ts) d) eqn:Ed; [|lia].
      apply date_eqb_eq in Hc, Ed. rewrite <- Hc, Ed in Hlt. lia. }
  constructor; [exact Hstep|].
  rewrite <- (perform_daily_withdraw_limit c self). apply IH; [exact Hclock|].
  now rewrite perform_daily_withdraw_limit.
Qed.

Lemma daily_limit_never_exceeded_witness :
  Forall (fun a => Account.withdrawals_today day1 a <= 3)
         (states_after (history ++ [Withdraw day1 noon 10 ""])
                       (Account.new "100001" "11122233344")).
Proof.
  apply (daily_limit_never_exceeded (Account.new "100001" "11122233344")
           (history ++ [Withdraw day1 noon 10 ""]) day1).
  - vm_compute. reflexivity.
  - vm_compute. discriminate.
Defined.

(** X5. The log after a sequence of calls is the log before it followed
    by one transaction for each call that returned: calls that raised
    add nothing and nothing is removed or reordered. *)
Theorem log_grows_by_successful_calls (calls : list call) (self : Account.t) :
  exists appended,
    Account.transactions (run calls self) = Account.transactions self ++ appended
    /\ List.length appended = successful_calls calls self.
Proof.
  revert self. induction calls as [|c calls IH]; intro self; cbn [run successful_calls].
  - exists []. now rewrite app_nil_r.
  - destruct (IH (snd (perform c self))) as (l & El & Hl). unfold succeeded.
    destruct (perform_cases c self) as [[[e He] Es] | (x & Hr & Es & _)].
    + rewrite He. exists l. rewrite El, Hl, Es. now split.
    + rewrite Hr. exists (x :: l). cbn [List.length]. rewrite El, Hl, Es.
      cbn [Account.transactions]. rewrite <- app_assoc. now split.
Qed.



Lemma date_le_trans (a b c : date) : date_le a b -> date_le b c -> date_le a c.
Proof. unfold date_le. lia. Qed.

Lemma date_ltb_not_le (a b : date) : date_ltb a b = true -> ~ date_le b a.
Proof.
  destruct a as [ya ma da], b as [yb mb db].
  unfold date_ltb, date_le, date_compare. cbn [year month day].
  destruct (ya ?= yb) eqn:Ey; destruct (ma ?= mb) eqn:Em; destruct (da ?= db) eqn:Ed;
    rewrite ?Z.compare_eq_iff, ?Z.compare_lt_iff, ?Z.compare_gt_iff in *;
    intro H; try discriminate; lia.
Qed.

(** X7. [statement] with an end date before the start date returns no
    transaction and the total 0, and leaves the account as it was. *)
Theorem statement_of_empty_range (s e : date) (self : Account.t) :
  date_ltb e s = true ->
  Account.statement (Some s) (Some e) self = (Returned ([], 0%Q), self).
Proof.
  intro H. unfold Account.statement, bind, get, ret. cbn zeta.
  rewrite filter_filter.
  replace (filter _ (Account.transactions self)) with (@nil Transaction.t); [reflexivity|].
  symmetry. induction (Account.transactions self) as [|x l IH]; [reflexivity|].
  cbn [filter]. rewrite IH.
  destruct (date_geb (dt_date (Transaction.timestamp x)) s
            && date_leb (dt_date (Transaction.timestamp x)) e) eqn:E; [|reflexivity].
  exfalso. apply andb_true_iff in E as [E1 E2]. unfold date_geb in E1.
  apply date_leb_le in E1, E2.
  exact (date_ltb_not_le e s H (date_le_trans _ _ _ E1 E2)).
Qed.

Lemma statement_of_empty_range_witness :
  Account.statement (Some day2) (Some day1) mari_account = (Returned ([], 0%Q), mari_account).
Proof.
  apply (statement_of_empty_range day2 day1 mari_account). vm_compute. reflexivity.
Defined.

(* ================================================================== *)
(** * More about the repository *)

(** X9. [create_user] for a CPF that is already a key raises
    [DuplicateUser] and leaves the bank as it was; for a new CPF it
    stores, after the existing users, a user with the hash of the
    password and no account; the users under other keys are not
    touched. *)
Theorem create_user_registers cpf name password (self : Bank.t) :
  (dict_mem cpf (Bank.users self) = true ->
     Bank.create_user cpf name password self = (Raised DuplicateUser, self))
  /\ (dict_mem cpf (Bank.users self) = false ->
     Bank.create_user cpf name password self =
     (Returned tt,
      {| Bank.users :=
           Bank.users self ++ [(cpf, User.mk cpf name (hash_password password) [])];
         Bank.accounts := Bank.accounts self |}))
  /\ (forall k,
     k <> cpf ->
     dict_get k (Bank.users (snd (Bank.create_user cpf name password self)))
     = dict_get k (Bank.users self)).
Proof.
  rewrite create_user_cases. split; [|split].
  - now intros ->.
  - intro H. rewrite H. now rewrite dict_set_new by exact H.
  - intros k Hk. destruct (dict_mem cpf (Bank.users self)); cbn [snd Bank.users];
      [reflexivity|]. apply dict_get_set_other. congruence.
Qed.

Lemma create_user_registers_witness :
  Bank.create_user "11122233344" "Outra" "x" mari_bank = (Raised DuplicateUser, mari_bank)
  /\ dict_keys (Bank.users (snd (Bank.create_user "55566677788" "Ana" "pw" mari_bank)))
     = ["11122233344"; "55566677788"].
Proof.
  split.
  - apply (proj1 (create_user_registers "11122233344" "Outra" "x" mari_bank)).
    vm_compute. reflexivity.
  - rewrite (proj1 (proj2 (create_user_registers "55566677788" "Ana" "pw" mari_bank)));
      vm_compute; reflexivity.
Defined.

Lemma get_account_cases number (self : Bank.t) :
  Bank.get_account number self =
  match dict_get number (Bank.accounts self) with
  | Some a => (Returned a, self)
  | None => (Raised AccountNotFound, self)
  end.
Proof.
  unfold Bank.get_account, bind, get, raise_if, dict_mem, subscript, ret, raise.
  destruct (dict_get number (Bank.accounts self)) as [a|] eqn:E; cbn [negb].
  - now rewrite E.
  - reflexivity.
Qed.

(** X10. [get_account] raises [AccountNotFound] for a number that is
    not a key and returns the account stored under a number that is; it
    raises nothing else and never changes the bank. *)
Theorem get_account_finds number (self : Bank.t) :
  (dict_get number (Bank.accounts self) = None ->
     Bank.get_account number self = (Raised AccountNotFound, self))
  /\ (forall a,
     dict_get number (Bank.accounts self) = Some a ->
     Bank.get_account number self = (Returned a, self))
  /\ (forall r self',
     Bank.get_account number self = (r, self') ->
     self' = self /\ (r = Raised AccountNotFound \/ exists a, r = Returned a)).
Proof.
  rewrite get_account_cases. split; [|split].
  - now intros ->.
  - now intros a ->.
  - intros r self'. destruct (dict_get number (Bank.accounts self)) as [a|];
      intros [= <- <-]; split; eauto.
Qed.

Lemma get_account_finds_witness :
  Bank.get_account "999999" mari_bank = (Raised AccountNotFound, mari_bank)
  /\ Bank.get_account "100001" mari_bank
     = (Returned (Account.new "100001" "11122233344"), mari_bank).
Proof.
  split.
  - apply (proj1 (get_account_finds "999999" mari_bank)). vm_compute. reflexivity.
  - apply (proj1 (proj2 (get_account_finds "100001" mari_bank))).
    vm_compute. reflexivity.
Defined.

(** X11. In any bank, the account that [create_account] returns is the
    one [get_account] finds under its number right after. *)
Theorem get_account_after_create owner_cpf (self self' : Bank.t) (acc : Account.t) :
  Bank.create_account owner_cpf self = (Returned acc, self') ->
  Bank.get_account (Account.number acc) self' = (Returned acc, self').
Proof.
  rewrite create_account_cases. cbn zeta.
  generalize (str (100000 + len (Bank.accounts self) + 1)). intro number.
  destruct (dict_get owner_cpf (Bank.users self)) as [u|]; [|discriminate].
  intro H. injection H as <- <-. rewrite get_account_cases.
  cbn [Account.number Account.new Bank.accounts].
  now rewrite dict_get_set_same.
Qed.

Lemma get_account_after_create_witness :
  Bank.get_account "100001" mari_bank
  = (Returned (Account.new "100001" "11122233344"), mari_bank).
Proof.
  apply (get_account_after_create "11122233344" registered_bank mari_bank
           (Account.new "100001" "11122233344")).
  vm_compute. reflexivity.
Defined.

(** X12. In any bank, [create_account] returns exactly when the owner
    is a registered CPF; when it raises, the failure is [UnknownUser]
    and the bank is left as it was. *)
Theorem create_account_fails_cleanly owner_cpf (self : Bank.t) :
  ((exists acc, fst (Bank.create_account owner_cpf self) = Returned acc)
   <-> dict_mem owner_cpf (Bank.users self) = true)
  /\ (forall e self',
      Bank.create_account owner_cpf self = (Raised e, self') ->
      e = UnknownUser /\ self' = self).
Proof.
  rewrite create_account_cases. cbn zeta. unfold dict_mem.
  destruct (dict_get owner_cpf (Bank.users self)) as [u|]; cbn [fst]; split.
  - split; [reflexivity | intros _; eexists; reflexivity].
  - discriminate.
  - split; [intros [acc H]; discriminate | discriminate].
  - intros e self'. intros [= <- <-]. now split.
Qed.

(** X13. In a bank where the number derived from the count of accounts
    is already a key, [create_account] for a registered owner stores
    the new, empty account under that key in place of the account that
    was there; the keys of the accounts stay the same. *)
Theorem create_account_replaces_on_clash owner_cpf (self : Bank.t) (u : User.t)
        (old : Account.t) :
  dict_get owner_cpf (Bank.users self) = Some u ->
  dict_get (str (100000 + len (Bank.accounts self) + 1)) (Bank.accounts self) = Some old ->
  let number := str (100000 + len (Bank.accounts self) + 1) in
  exists self',
    Bank.create_account owner_cpf self = (Returned (Account.new number owner_cpf), self')
    /\ dict_keys (Bank.accounts self') = dict_keys (Bank.accounts self)
    /\ dict_get number (Bank.accounts self') = Some (Account.new number owner_cpf).
Proof.
  intros Hu Hold number. rewrite create_account_cases, Hu. cbn zeta. fold number.
  eexists. split; [reflexivity|]. cbn [Bank.accounts]. split.
  - apply dict_keys_set_old. now apply (dict_get_mem _ _ old).
  - apply dict_get_set_same.
Qed.

Lemma create_account_replaces_on_clash_witness :
  exists self',
    Bank.create_account "11122233344" clashing_bank
    = (Returned (Account.new "100002" "11122233344"), self')
    /\ dict_keys (Bank.accounts self') = dict_keys (Bank.accounts clashing_bank)
    /\ dict_get "100002" (Bank.accounts self') = Some (Account.new "100002" "11122233344").
Proof.
  apply (create_account_replaces_on_clash "11122233344" clashing_bank
           (User.mk "11122233344" "Mari" (hash_password "abc123") []) mari_account);
    vm_compute; reflexivity.
Defined.

(** X14. After [create_user] returned, [create_account] for the same
    CPF returns an account owned by it, and [auth] with the same
    password then returns the user with that one account number in its
    list. *)
Theorem register_open_login cpf name password (self s1 : Bank.t) :
  Bank.create_user cpf name password self = (Returned tt, s1) ->
  exists acc s2,
    Bank.create_account cpf s1 = (Returned acc, s2)
    /\ Account.owner_cpf acc = cpf
    /\ Bank.auth cpf password s2
       = (Returned (User.mk cpf name (hash_password password) [Account.number acc]), s2).
Proof.
  rewrite create_user_cases.
  destruct (dict_mem cpf (Bank.users self)); [discriminate|]. intros [= <-].
  rewrite create_account_cases. cbn zeta. cbn [Bank.users Bank.accounts].
  rewrite dict_get_set_same.
  eexists. eexists. split; [reflexivity|]. split; [reflexivity|].
  rewrite auth_cases. cbn [Bank.users]. rewrite dict_get_set_same.
  cbn [User.append_account User.password_hash User.cpf User.name User.accounts app
       Account.number Account.new].
  now rewrite String.eqb_refl.
Qed.

Lemma register_open_login_witness :
  exists acc s2,
    Bank.create_account "11122233344" registered_bank = (Returned acc, s2)
    /\ Account.owner_cpf acc = "11122233344"
    /\ Bank.auth "11122233344" "abc123" s2
       = (Returned (User.mk "11122233344" "Mari" (hash_password "abc123")
                            [Account.number acc]), s2).
Proof.
  apply (register_open_login "11122233344" "Mari" "abc123" Bank.init registered_bank).
  vm_compute. reflexivity.
Defined.

Lemma load_saved_state (self other : Bank.t) :
  valid_bank self = true -> snd (Bank.load (Some (Bank.save self)) other) = self.
Proof.
  unfold valid_bank. rewrite !andb_true_iff. intros [[Hu Ha] Hv].
  destruct self as [users accounts]. cbn [Bank.users Bank.accounts] in Hu, Ha, Hv.
  now rewrite load_of_save.
Qed.

Lemma perform_number_owner (c : call) (acc : Account.t) :
  Account.number (snd (perform c acc)) = Account.number acc
  /\ Account.owner_cpf (snd (perform c acc)) = Account.owner_cpf acc.
Proof.
  destruct (perform_cases c acc) as [[_ ->] | (x & _ & -> & _)]; now split.
Qed.

Lemma dict_get_set (V : Type) (k k' : string) (v : V) (d : dict V) :
  dict_get k' (dict_set k v d) = if (k =? k')%string then Some v else dict_get k' d.
Proof.
  destruct (k =? k')%string eqn:E.
  - apply String.eqb_eq in E. subst. apply dict_get_set_same.
  - apply String.eqb_neq in E. now apply dict_get_set_other.
Qed.

(** The links between users and accounts hold in every state the
    repository can reach. *)
Lemma reachable_linked (self : Bank.t) :
  reachable self -> users_linked self /\ accounts_linked self.
Proof.
  intro Hr. induction Hr as [| self cpf name password Hr [UL AL]
                             | self owner_cpf Hr [UL AL]
                             | self number acc c Hr [UL AL] Hget Hts
                             | self other Hr [UL AL]].
  - split; intros k v; discriminate.
  - rewrite create_user_cases.
    destruct (dict_mem cpf (Bank.users self)) eqn:Hmem; [now split|].
    cbn [snd]. split.
    + intros k u. cbn [Bank.users Bank.accounts]. rewrite dict_get_set.
      destruct (cpf =? k)%string eqn:E.
      * apply String.eqb_eq in E. subst k. intros [= <-]. cbn [User.cpf User.accounts].
        split; [reflexivity | intros n []].
      * apply UL.
    + intros n a Ha. cbn [Bank.accounts] in Ha. cbn [Bank.users].
      destruct (AL n a Ha) as (Hn & u & Hu & Hin). split; [exact Hn|].
      exists u. split; [|exact Hin]. rewrite dict_get_set.
      destruct (cpf =? Account.owner_cpf a)%string eqn:E; [|exact Hu].
      apply String.eqb_eq in E. subst cpf.
      unfold dict_mem in Hmem. now rewrite Hu in Hmem.
  - rewrite create_account_cases. cbn zeta.
    destruct (dict_get owner_cpf (Bank.users self)) as [u0|] eqn:Hu0; [|now split].
    pose proof (numbered_next_is_new self (proj2 (reachable_invariant self Hr))) as Hnew.
    set (number := str (100000 + len (Bank.accounts self) + 1)) in *.
    unfold dict_mem in Hnew.
    cbn [snd]. split.
    + intros k u. cbn [Bank.users Bank.accounts]. rewrite dict_get_set.
      destruct (owner_cpf =? k)%string eqn:E.
      * apply String.eqb_eq in E. subst k. intros [= <-].
        destruct (UL owner_cpf u0 Hu0) as [Hc Hacc].
        cbn [User.append_account User.cpf User.accounts]. split; [exact Hc|].
        intros n Hn. rewrite dict_get_set. apply in_app_or in Hn as [Hn | [<- | []]].
        -- destruct (Hacc n Hn) as (a & Ha & Ho).
           destruct (number =? n)%string eqn:En.
           ++ apply String.eqb_eq in En. subst n. now rewrite Ha in Hnew.
           ++ now exists a.
        -- rewrite String.eqb_refl. eexists. split; reflexivity.
      * intro Hu. destruct (UL k u Hu) as [Hc Hacc]. split; [exact Hc|].
        intros n Hn. destruct (Hacc n Hn) as (a & Ha & Ho). rewrite dict_get_set.
        destruct (number =? n)%string eqn:En.
        -- apply String.eqb_eq in En. subst n. now rewrite Ha in Hnew.
        -- now exists a.
    + intros n a. cbn [Bank.users Bank.accounts]. rewrite dict_get_set.
      destruct (number =? n)%string eqn:En.
      * apply String.eqb_eq in En. subst n. intros [= <-].
        cbn [Account.new Account.number Account.owner_cpf]. split; [reflexivity|].
        rewrite dict_get_set_same. eexists. split; [reflexivity|].
        cbn [User.append_account User.accounts]. apply in_or_app. right. now left.
      * intro Ha. destruct (AL n a Ha) as (Hn & u & Hu & Hin). split; [exact Hn|].
        rewrite dict_get_set.
        destruct (owner_cpf =? Account.owner_cpf a)%string eqn:E.
        -- apply String.eqb_eq in E. rewrite <- E, Hu0 in Hu. injection Hu as <-.
           eexists. split; [reflexivity|].
           cbn [User.append_account User.accounts]. apply in_or_app. now left.
        -- now exists u.
  - destruct (perform_number_owner c acc) as [Hnum Hown].
    destruct (AL number acc Hget) as (Hn & u0 & Hu0 & Hin0).
    split.
    + intros k u Hu. cbn [Bank.set_accounts Bank.users] in Hu.
      destruct (UL k u Hu) as [Hc Hacc]. split; [exact Hc|].
      intros n Hin. destruct (Hacc n Hin) as (a & Ha & Ho).
      cbn [Bank.set_accounts Bank.accounts]. rewrite dict_get_set.
      destruct (number =? n)%string eqn:En.
      * apply String.eqb_eq in En. subst n. rewrite Hget in Ha. injection Ha as <-.
        eexists. split; [reflexivity|]. now rewrite Hown.
      * now exists a.
    + intros n a. cbn [Bank.set_accounts Bank.users Bank.accounts]. rewrite dict_get_set.
      destruct (number =? n)%string eqn:En.
      * apply String.eqb_eq in En. subst n. intros [= <-].
        rewrite Hnum, Hown. split; [exact Hn|]. now exists u0.
      * apply AL.
  - rewrite load_saved_state by exact (proj1 (reachable_invariant self Hr)). now split.
Qed.

(** X15. In every state the repository can reach, a user is stored
    under its own CPF, and every number in the list of a user is the key
    of an account whose owner is that user: [get_account] finds it. *)
Theorem user_accounts_exist (self : Bank.t) (cpf : string) (u : User.t) :
  reachable self ->
  dict_get cpf (Bank.users self) = Some u ->
  User.cpf u = cpf
  /\ forall n, In n (User.accounts u) ->
       exists a, Bank.get_account n self = (Returned a, self)
                 /\ Account.owner_cpf a = cpf.
Proof.
  intros Hr Hu. destruct (reachable_linked self Hr) as [UL _].
  destruct (UL cpf u Hu) as [Hc Hacc]. split; [exact Hc|].
  intros n Hn. destruct (Hacc n Hn) as (a & Ha & Ho).
  exists a. split; [|exact Ho]. now rewrite get_account_cases, Ha.
Qed.

Lemma user_accounts_exist_witness :
  User.cpf (User.mk "11122233344" "Mari" (hash_password "abc123") ["100001"])
  = "11122233344"
  /\ forall n, In n ["100001"] ->
       exists a, Bank.get_account n mari_bank = (Returned a, mari_bank)
                 /\ Account.owner_cpf a = "11122233344".
Proof.
  apply (user_accounts_exist mari_bank "11122233344"
           (User.mk "11122233344" "Mari" (hash_password "abc123") ["100001"])
           mari_bank_reachable).
  vm_compute. reflexivity.
Defined.

(** X16. In every state the repository can reach, an account is stored
    under its own number, and its owner is a registered user whose list
    holds the number. *)
Theorem account_owner_exists (self : Bank.t) (n : string) (a : Account.t) :
  reachable self ->
  dict_get n (Bank.accounts self) = Some a ->
  Account.number a = n
  /\ exists u, dict_get (Account.owner_cpf a) (Bank.users self) = Some u
               /\ User.cpf u = Account.owner_cpf a
               /\ In n (User.accounts u).
Proof.
  intros Hr Ha. destruct (reachable_linked self Hr) as [UL AL].
  destruct (AL n a Ha) as (Hn & u & Hu & Hin). split; [exact Hn|].
  exists u. repeat split; try assumption. now apply (UL _ _ Hu).
Qed.

Lemma account_owner_exists_witness :
  Account.number (Account.new "100001" "11122233344") = "100001"
  /\ exists u, dict_get (Account.owner_cpf (Account.new "100001" "11122233344"))
                        (Bank.users mari_bank) = Some u
               /\ User.cpf u = Account.owner_cpf (Account.new "100001" "11122233344")
               /\ In "100001" (User.accounts u).
Proof.
  apply (account_owner_exists mari_bank "100001" (Account.new "100001" "11122233344")
           mari_bank_reachable).
  vm_compute. reflexivity.
Defined.

(* ================================================================== *)
(** * More about the persistence *)

Section OlderDocuments.

Context {S : Type}.
Implicit Types (s : S).

Lemma load_account_without_limits (a : Account.t) s :
  valid_account a = true ->
  Bank.load_account
    (JObject (dict_remove "daily_withdraw_limit"
                (dict_remove "per_withdraw_limit_value"
                   (members (Bank.serialize_account a))))) s
  = (Returned (Account.mk (Account.number a) (Account.agency a) (Account.owner_cpf a)
                          (Account.balance a) (Account.transactions a) 3 500%Q), s).
Proof.
  intro Hv. destruct a as [number agency owner_cpf balance txs daily per].
  unfold valid_account in Hv. cbn [Account.transactions] in Hv.
  cbn [Account.number Account.agency Account.owner_cpf Account.balance
       Account.transactions].
  match goal with |- Bank.load_account (JObject ?d) _ = _ =>
    replace d with [("number", JString number); ("agency", JString agency);
                    ("owner_cpf", JString owner_cpf); ("balance", JFloat balance);
                    ("transactions", JArray (map Bank.serialize_transaction txs))]
      by reflexivity end.
  unfold Bank.load_account.
  unfold bind at 1. cbn [as_dict]. unfold ret at 1.
  unfold bind at 1. unfold item at 1. unfold bind at 1. unfold subscript at 1.
  replace (dict_get "number" _) with (Some (JString number)) by reflexivity.
  unfold ret at 1. cbn [as_str]. unfold ret at 1.
  unfold bind at 1. unfold item at 1. unfold bind at 1. unfold subscript at 1.
  replace (dict_get "agency" _) with (Some (JString agency)) by reflexivity.
  unfold ret at 1. cbn [as_str]. unfold ret at 1.
  unfold bind at 1. unfold item at 1. unfold bind at 1. unfold subscript at 1.
  replace (dict_get "owner_cpf" _) with (Some (JString owner_cpf)) by reflexivity.
  unfold ret at 1. cbn [as_str]. unfold ret at 1.
  unfold bind at 1. unfold item at 1. unfold bind at 1. unfold subscript at 1.
  replace (dict_get "balance" _) with (Some (JFloat balance)) by reflexivity.
  unfold ret at 1. cbn [as_float]. unfold ret at 1.
  unfold bind at 1. unfold get_default at 1.
  replace (dict_get "daily_withdraw_limit" _) with (@None json) by reflexivity.
  unfold ret at 1.
  unfold bind at 1. unfold get_default at 1.
  replace (dict_get "per_withdraw_limit_value" _) with (@None json) by reflexivity.
  unfold ret at 1.
  unfold bind at 1. unfold item at 1. unfold bind at 1. unfold subscript at 1.
  replace (dict_get "transactions" _)
    with (Some (JArray (map Bank.serialize_transaction txs))) by reflexivity.
  unfold ret at 1. cbn [as_list]. unfold ret at 1.
  rewrite (fold_load_transaction txs _ s Hv). reflexivity.
Qed.

Lemma load_transaction_without_note (x : Transaction.t) s :
  valid_datetime (Transaction.timestamp x) = true ->
  Bank.load_transaction
    (JObject (dict_remove "note" (members (Bank.serialize_transaction x)))) s
  = (Returned (Transaction.mk (Transaction.kind x) (Transaction.amount x)
                              (Transaction.timestamp x) ""), s).
Proof.
  intro Hv. destruct x as [kind amount timestamp note].
  cbn [Transaction.timestamp Transaction.kind Transaction.amount] in *.
  match goal with |- Bank.load_transaction (JObject ?d) _ = _ =>
    replace d with [("kind", JString kind); ("amount", JFloat amount);
                    ("timestamp", JString (isoformat timestamp))]
      by reflexivity end.
  unfold Bank.load_transaction.
  unfold bind at 1. cbn [as_dict]. unfold ret at 1.
  unfold bind at 1. unfold item at 1. unfold bind at 1. unfold subscript at 1.
  replace (dict_get "kind" _) with (Some (JString kind)) by reflexivity.
  unfold ret at 1. cbn [as_str]. unfold ret at 1.
  unfold bind at 1. unfold item at 1. unfold bind at 1. unfold subscript at 1.
  replace (dict_get "amount" _) with (Some (JFloat amount)) by reflexivity.
  unfold ret at 1. cbn [as_float]. unfold ret at 1.
  unfold bind at 1. unfold item at 1. unfold bind at 1. unfold subscript at 1.
  replace (dict_get "timestamp" _) with (Some (JString (isoformat timestamp))) by reflexivity.
  unfold ret at 1. cbn [as_str]. unfold ret at 1.
  rewrite (fromisoformat_isoformat timestamp Hv).
  unfold bind at 1. unfold ret at 1.
  unfold bind at 1. unfold get_default at 1.
  replace (dict_get "note" _) with (@None json) by reflexivity.
  unfold ret at 1. reflexivity.
Qed.

Lemma of_kwargs_without_accounts (u : User.t) s :
  User.of_kwargs (JObject (dict_remove "accounts" (members (Bank.serialize_user u)))) s
  = (Returned (User.mk (User.cpf u) (User.name u) (User.password_hash u) []), s).
Proof.
  destruct u as [cpf name password_hash accounts].
  cbn [User.cpf User.name User.password_hash].
  match goal with |- User.of_kwargs (JObject ?d) _ = _ =>
    replace d with [("cpf", JString cpf); ("name", JString name);
                    ("password_hash", JString password_hash)]
      by reflexivity end.
  unfold User.of_kwargs.
  unfold bind at 1. cbn [as_dict]. unfold ret at 1.
  unfold bind at 1.
  replace (forallb _ _) with true by reflexivity.
  cbn [negb raise_if]. unfold ret at 1.
  unfold bind at 1. unfold keyword at 1.
  replace (dict_get "cpf" _) with (Some (JString cpf)) by reflexivity.
  cbn [as_str]. unfold ret at 1.
  unfold bind at 1. unfold keyword at 1.
  replace (dict_get "name" _) with (Some (JString name)) by reflexivity.
  cbn [as_str]. unfold ret at 1.
  unfold bind at 1. unfold keyword at 1.
  replace (dict_get "password_hash" _) with (Some (JString password_hash)) by reflexivity.
  cbn [as_str]. unfold ret at 1.
  unfold bind at 1. unfold get_default at 1.
  replace (dict_get "accounts" _) with (@None json) by reflexivity.
  unfold ret at 1. reflexivity.
Qed.

End OlderDocuments.

(** X17. Members that a document may leave out take their defaults: an
    account entry as [save] writes it but without the two limits loads
    with the daily limit 3 and the limit per operation 500, a
    transaction entry without its note loads with the empty note, and a
    user entry without its accounts loads with the empty list. *)
Theorem load_defaults_of_missing_members :
  (forall (a : Account.t) (s : Bank.t),
     valid_account a = true ->
     Bank.load_account
       (JObject (dict_remove "daily_withdraw_limit"
                   (dict_remove "per_withdraw_limit_value"
                      (members (Bank.serialize_account a))))) s
     = (Returned {| Account.number := Account.number a;
                    Account.agency := Account.agency a;
                    Account.owner_cpf := Account.owner_cpf a;
                    Account.balance := Account.balance a;
                    Account.transactions := Account.transactions a;
                    Account.daily_withdraw_limit := 3;
                    Account.per_withdraw_limit_value := 500%Q |}, s))
  /\ (forall (x : Transaction.t) (s : Bank.t),
     valid_datetime (Transaction.timestamp x) = true ->
     Bank.load_transaction
       (JObject (dict_remove "note" (members (Bank.serialize_transaction x)))) s
     = (Returned {| Transaction.kind := Transaction.kind x;
                    Transaction.amount := Transaction.amount x;
                    Transaction.timestamp := Transaction.timestamp x;
                    Transaction.note := "" |}, s))
  /\ (forall (u : User.t) (s : Bank.t),
     User.of_kwargs (JObject (dict_remove "accounts" (members (Bank.serialize_user u)))) s
     = (Returned {| User.cpf := User.cpf u; User.name := User.name u;
                    User.password_hash := User.password_hash u;
                    User.accounts := [] |}, s)).
Proof.
  split; [|split].
  - intros a s Hv. now apply load_account_without_limits.
  - intros x s Hv. now apply load_transaction_without_note.
  - intros u s. apply of_kwargs_without_accounts.
Qed.

Lemma load_defaults_of_missing_members_witness :
  Bank.load_account
    (JObject (dict_remove "daily_withdraw_limit"
                (dict_remove "per_withdraw_limit_value"
                   (members (Bank.serialize_account mari_account))))) Bank.init
  = (Returned mari_account, Bank.init).
Proof.
  rewrite (proj1 load_defaults_of_missing_members mari_account Bank.init);
    vm_compute; reflexivity.
Defined.

Lemma fold_m_app {S A B} (f : B -> A -> action S B) (l1 l2 : list A) (b : B) (s : S) :
  fold_m f (l1 ++ l2) b s
  = match fold_m f l1 b s with
    | (Returned b', s') => fold_m f l2 b' s'
    | (Raised e, s') => (Raised e, s')
    end.
Proof.
  revert b s. induction l1 as [|x l1 IH]; intros b s; cbn [app fold_m]; [reflexivity|].
  unfold bind. destruct (f b x s) as [[b'|e] s']; [apply IH | reflexivity].
Qed.

(** X18. [load] is not all or nothing: when an account entry of the
    document lacks one of the members that [load] subscripts, [load]
    raises the [KeyError] of that member, and the bank is left with the
    users of the document and with the accounts that come before that
    entry, whatever it held before. *)
Theorem load_stops_at_bad_account
        (users : dict User.t) (good : dict Account.t) (k missing : string) (a : Account.t)
        (rest : dict json) (other : Bank.t) :
  unique (dict_keys users) = true ->
  unique (dict_keys good) = true ->
  forallb (fun kv => valid_account (snd kv)) good = true ->
  In missing ["number"; "agency"; "owner_cpf"; "balance"; "transactions"] ->
  Bank.load
    (Some (document (map (fun kv => (fst kv, Bank.serialize_user (snd kv))) users)
                    (map (fun kv => (fst kv, Bank.serialize_account (snd kv))) good
                     ++ (k, JObject (dict_remove missing
                                       (members (Bank.serialize_account a))))
                        :: rest)))
    other
  = (Raised (KeyError missing), Bank.mk users good).
Proof.
  intros Hu Hg Hv Hin.
  assert (Hbad : forall s : Bank.t,
            Bank.load_account
              (JObject (dict_remove missing (members (Bank.serialize_account a)))) s
            = (Raised (KeyError missing), s)).
  { intro s. destruct a as [number agency owner_cpf balance txs daily per].
    destruct Hin as [<- | [<- | [<- | [<- | [<- | []]]]]]; reflexivity. }
  unfold Bank.load, document.
  unfold bind at 1. cbn [as_dict]. unfold ret at 1.
  unfold bind at 1. unfold get_default at 1.
  match goal with |- context [dict_get "users" ?d] =>
    replace (dict_get "users" d)
      with (Some (JObject (map (fun kv => (fst kv, Bank.serialize_user (snd kv))) users)))
      by reflexivity end.
  cbn [as_dict]. unfold ret at 1.
  unfold bind at 1. unfold dict_comprehension_m.
  rewrite (fold_of_kwargs users [] other) by exact Hu.
  unfold bind at 1. unfold modify at 1.
  unfold bind at 1. unfold modify at 1.
  unfold bind at 1. unfold get_default at 1.
  match goal with |- context [dict_get "accounts" ?d] =>
    replace (dict_get "accounts" d)
      with (Some (JObject (map (fun kv => (fst kv, Bank.serialize_account (snd kv))) good
                           ++ (k, JObject (dict_remove missing
                                             (members (Bank.serialize_account a))))
                              :: rest)))
      by reflexivity end.
  cbn [as_dict]. unfold ret at 1.
  unfold for_each. rewrite fold_m_app.
  pose proof (for_each_load_account good (Bank.set_accounts [] (Bank.set_users ([] ++ users) other)))
    as Hgood.
  unfold for_each in Hgood. rewrite Hgood; [|exact Hg|exact Hv].
  cbn [fold_m snd]. unfold bind at 1. unfold bind at 1. now rewrite Hbad.
Qed.

Lemma load_stops_at_bad_account_witness :
  Bank.load
    (Some (document
             (map (fun kv => (fst kv, Bank.serialize_user (snd kv))) (Bank.users funded_bank))
             (map (fun kv => (fst kv, Bank.serialize_account (snd kv)))
                  (Bank.accounts funded_bank)
              ++ [("100002",
                   JObject (dict_remove "balance"
                              (members (Bank.serialize_account mari_account))))])))
    Bank.init
  = (Raised (KeyError "balance"), funded_bank).
Proof.
  apply (load_stops_at_bad_account (Bank.users funded_bank) (Bank.accounts funded_bank)
           "100002" "balance" mari_account [] Bank.init);
    try (vm_compute; reflexivity).
  cbn. tauto.
Defined.

Lemma bind_returned {S A B} (m : action S A) (k : A -> action S B) (s : S) (a : A) (s' : S) :
  m s = (Returned a, s') -> bind m k s = k a s'.
Proof. intro H. unfold bind. now rewrite H. Qed.

Lemma bind_raised {S A B} (m : action S A) (k : A -> action S B) (s : S) (e : error)
      (s' : S) :
  m s = (Raised e, s') -> bind m k s = (Raised e, s').
Proof. intro H. unfold bind. now rewrite H. Qed.

Section Stateless.

Context {S : Type}.

Lemma stateless_ret {A} (a : A) : stateless (@ret S A a).
Proof. exists (Returned a). reflexivity. Qed.

Lemma stateless_raise {A} (e : error) : stateless (@raise S A e).
Proof. exists (Raised e). reflexivity. Qed.

Lemma stateless_bind {A B} (m : action S A) (k : A -> action S B) :
  stateless m -> (forall a, stateless (k a)) -> stateless (bind m k).
Proof.
  intros [[a|e] Hm] Hk.
  - destruct (Hk a) as [r Hr]. exists r. intro s. unfold bind. now rewrite Hm.
  - exists (Raised e). intro s. unfold bind. now rewrite Hm.
Qed.

Lemma stateless_raise_if (c : bool) (e : error) : stateless (@raise_if S c e).
Proof. destruct c; [apply stateless_raise | apply stateless_ret]. Qed.

Lemma stateless_fold_m {A B} (f : B -> A -> action S B) (l : list A) (b : B) :
  (forall b x, stateless (f b x)) -> stateless (fold_m f l b).
Proof.
  intro Hf. revert b. induction l as [|x l IH]; intro b; cbn [fold_m].
  - apply stateless_ret.
  - apply stateless_bind; [apply Hf | exact IH].
Qed.

Lemma stateless_as_str (j : json) : stateless (@as_str S j).
Proof. destruct j; first [apply stateless_ret | apply stateless_raise]. Qed.

Lemma stateless_as_list (j : json) : stateless (@as_list S j).
Proof. destruct j; first [apply stateless_ret | apply stateless_raise]. Qed.

Lemma stateless_as_dict (j : json) : stateless (@as_dict S j).
Proof. destruct j; first [apply stateless_ret | apply stateless_raise]. Qed.

Lemma stateless_keyword {A} (k : string) (d : dict json) (read : json -> action S A) :
  (forall j, stateless (read j)) -> stateless (keyword k d read).
Proof.
  intro H. unfold keyword. destruct (dict_get k d); [apply H | apply stateless_raise].
Qed.

Lemma stateless_get_default {A} (k : string) (d : dict json) (read : json -> action S A)
      (default : A) :
  (forall j, stateless (read j)) -> stateless (get_default k d read default).
Proof.
  intro H. unfold get_default. destruct (dict_get k d); [apply H | apply stateless_ret].
Qed.

Lemma stateless_of_kwargs (ud : json) : stateless (@User.of_kwargs S ud).
Proof.
  unfold User.of_kwargs.
  apply stateless_bind; [apply stateless_as_dict | intro kw].
  apply stateless_bind; [apply stateless_raise_if | intros _].
  apply stateless_bind; [apply stateless_keyword, stateless_as_str | intro cpf].
  apply stateless_bind; [apply stateless_keyword, stateless_as_str | intro name].
  apply stateless_bind; [apply stateless_keyword, stateless_as_str | intro hash].
  apply stateless_bind; [|intro accounts; apply stateless_ret].
  apply stateless_get_default. intro j.
  apply stateless_bind; [apply stateless_as_list | intro l].
  apply stateless_fold_m. intros acc x.
  apply stateless_bind; [apply stateless_as_str | intro y; apply stateless_ret].
Qed.

Lemma stateless_users_comprehension (us : dict json) :
  stateless (@dict_comprehension_m S json User.t User.of_kwargs us).
Proof.
  apply stateless_fold_m. intros d kv.
  apply stateless_bind; [apply stateless_of_kwargs | intro v; apply stateless_ret].
Qed.

End Stateless.

(** X19. [load] replaces what the bank held: when loading a document
    returns, the bank it leaves is the same whatever the state of the
    bank before. *)
Theorem load_replaces_previous_state (file : json) (o1 o2 s : Bank.t) :
  Bank.load (Some file) o1 = (Returned tt, s) ->
  Bank.load (Some file) o2 = (Returned tt, s).
Proof.
  unfold Bank.load.
  destruct (stateless_as_dict (S := Bank.t) file) as [[data|e] H1];
    [|rewrite (bind_raised _ _ _ _ _ (H1 o1)); discriminate].
  rewrite (bind_returned _ _ _ _ _ (H1 o1)), (bind_returned _ _ _ _ _ (H1 o2)).
  destruct (stateless_get_default (S := Bank.t) "users" data as_dict []
              stateless_as_dict) as [[us|e] H2];
    [|rewrite (bind_raised _ _ _ _ _ (H2 o1)); discriminate].
  rewrite (bind_returned _ _ _ _ _ (H2 o1)), (bind_returned _ _ _ _ _ (H2 o2)).
  destruct (stateless_users_comprehension (S := Bank.t) us) as [[users|e] H3];
    [|rewrite (bind_raised _ _ _ _ _ (H3 o1)); discriminate].
  rewrite (bind_returned _ _ _ _ _ (H3 o1)), (bind_returned _ _ _ _ _ (H3 o2)).
  rewrite (bind_returned (modify (Bank.set_users users)) _ o1 tt _ eq_refl).
  rewrite (bind_returned (modify (Bank.set_users users)) _ o2 tt _ eq_refl).
  rewrite (bind_returned (modify (Bank.set_accounts [])) _ _ tt _ eq_refl).
  rewrite (bind_returned (modify (Bank.set_accounts [])) _ (Bank.set_users users o2) tt _
             eq_refl).
  intro H. exact H.
Qed.

Lemma load_replaces_previous_state_witness :
  Bank.load (Some (Bank.save funded_bank)) mari_bank = (Returned tt, funded_bank).
Proof.
  apply (load_replaces_previous_state (Bank.save funded_bank) Bank.init mari_bank).
  vm_compute. reflexivity.
Defined.

(** X20. [save] writes different documents for different banks. *)
Theorem save_is_injective (b1 b2 : Bank.t) :
  valid_bank b1 = true -> valid_bank b2 = true ->
  b1 <> b2 -> Bank.save b1 <> Bank.save b2.
Proof.
  intros H1 H2 Hne E. apply Hne.
  rewrite <- (load_saved_state b1 Bank.init H1), <- (load_saved_state b2 Bank.init H2).
  now rewrite E.
Qed.

Lemma save_is_injective_witness : Bank.save mari_bank <> Bank.save funded_bank.
Proof.
  apply (save_is_injective mari_bank funded_bank); try (vm_compute; reflexivity).
  intro H. vm_compute in H. discriminate H.
Defined.

(** X21. An account entry as [save] writes it, but without one of the
    members number, agency, owner_cpf, balance or transactions, makes
    [load_account] raise [KeyError] with that key. *)
Theorem load_account_requires_members (a : Account.t) (k : string) (s : Bank.t) :
  In k ["number"; "agency"; "owner_cpf"; "balance"; "transactions"] ->
  Bank.load_account (JObject (dict_remove k (members (Bank.serialize_account a)))) s
  = (Raised (KeyError k), s).
Proof.
  destruct a as [number agency owner_cpf balance txs daily per].
  intros [<- | [<- | [<- | [<- | [<- | []]]]]]; reflexivity.
Qed.

Lemma load_account_requires_members_witness :
  Bank.load_account
    (JObject (dict_remove "balance" (members (Bank.serialize_account mari_account))))
    Bank.init
  = (Raised (KeyError "balance"), Bank.init).
Proof.
  apply (load_account_requires_members mari_account "balance" Bank.init).
  cbn. tauto.
Defined.

Lemma forallb_false_of {A} (p : A -> bool) (l : list A) (x : A) :
  In x l -> p x = false -> forallb p l = false.
Proof.
  intros Hin Hx. destruct (forallb p l) eqn:E; [|reflexivity].
  rewrite forallb_forall in E. now rewrite (E x Hin) in Hx.
Qed.

(** X22. A user entry with a member that is not a field of [User]
    makes the constructor raise [TypeError], and so does an entry
    without cpf, name or password_hash. *)
Theorem user_entry_must_fit_fields (kw : dict json) (s : Bank.t) :
  ((exists k, In k (dict_keys kw) /\ ~ In k User.fields)
   \/ dict_get "cpf" kw = None
   \/ dict_get "name" kw = None
   \/ dict_get "password_hash" kw = None) ->
  User.of_kwargs (JObject kw) s = (Raised TypeError, s).
Proof.
  intro H. unfold User.of_kwargs.
  rewrite (bind_returned (as_dict (JObject kw)) _ s kw s eq_refl).
  destruct (forallb (fun k => existsb (String.eqb k) User.fields) (dict_keys kw)) eqn:Ef;
    cbn [negb raise_if]; [|reflexivity].
  rewrite (bind_returned (ret tt) _ s tt s eq_refl).
  unfold keyword.
  destruct H as [(k & Hin & Hk) | [H | [H | H]]].
  - exfalso. rewrite forallb_forall in Ef. specialize (Ef k Hin).
    apply existsb_eqb_In in Ef. contradiction.
  - rewrite H. reflexivity.
  - rewrite H. destruct (dict_get "cpf" kw) as [[]|]; reflexivity.
  - rewrite H. destruct (dict_get "cpf" kw) as [[]|]; try reflexivity.
    destruct (dict_get "name" kw) as [[]|]; reflexivity.
Qed.

Lemma user_entry_must_fit_fields_witness :
  User.of_kwargs
    (JObject [("cpf", JString "1"); ("name", JString "A"); ("password_hash", JString "h");
              ("email", JString "a@b")]) Bank.init
  = (Raised TypeError, Bank.init).
Proof.
  apply (user_entry_must_fit_fields
           [("cpf", JString "1"); ("name", JString "A"); ("password_hash", JString "h");
            ("email", JString "a@b")] Bank.init).
  left. exists "email". split.
  - cbn. tauto.
  - cbn. intros [H | [H | [H | [H | []]]]]; discriminate H.
Defined.

(** X23. Loading a document that has neither users nor accounts leaves
    the bank empty, whatever it held before. *)
Theorem load_of_empty_document (d : dict json) (other : Bank.t) :
  dict_get "users" d = None ->
  dict_get "accounts" d = None ->
  Bank.load (Some (JObject d)) other = (Returned tt, Bank.init).
Proof.
  intros Hu Ha. unfold Bank.load.
  rewrite (bind_returned _ _ other d other eq_refl).
  unfold get_default. rewrite Hu, Ha.
  reflexivity.
Qed.

Lemma load_of_empty_document_witness :
  Bank.load (Some (JObject [])) funded_bank = (Returned tt, Bank.init).
Proof.
  apply (load_of_empty_document [] funded_bank); reflexivity.
Defined.

(* ================================================================== *)
(** * Utilities *)

Lemma round_length (s : list Z) (kw : Z * Z) :
  List.length (SHA256.round s kw) = List.length s.
Proof.
  unfold SHA256.round.
  destruct s as [|a [|b [|c [|d [|e [|f [|g [|h [|i s]]]]]]]]]; reflexivity.
Qed.

Lemma fold_round_length (l : list (Z * Z)) (s : list Z) :
  List.length (fold_left SHA256.round l s) = List.length s.
Proof.
  revert s. induction l as [|kw l IH]; intro s; cbn [fold_left]; [reflexivity|].
  now rewrite IH, round_length.
Qed.

Lemma compress_length (h block : list Z) :
  List.length (SHA256.compress h block) = List.length h.
Proof.
  unfold SHA256.compress. rewrite length_map, length_combine, fold_round_length.
  apply Nat.min_id.
Qed.

Lemma blocks_length (fuel : nat) (h ws : list Z) :
  List.length (SHA256.blocks fuel h ws) = List.length h.
Proof.
  revert h ws. induction fuel as [|fuel IH]; intros h ws; cbn [SHA256.blocks];
    [reflexivity|].
  destruct ws; [reflexivity|]. now rewrite IH, compress_length.
Qed.

Lemma digest_length (msg : list Z) : List.length (SHA256.digest msg) = 8%nat.
Proof. unfold SHA256.digest. now rewrite blocks_length. Qed.

Lemma hexdigit_in (d : Z) :
  In (SHA256.hexdigit d) (list_ascii_of_string "0123456789abcdef").
Proof.
  unfold SHA256.hexdigit.
  destruct (nth_in_or_default (Z.to_nat d) (list_ascii_of_string "0123456789abcdef")
              "0"%char) as [H | ->]; [exact H | now left].
Qed.

Lemma concat_hexword_length (ws : list Z) :
  List.length (List.concat (map SHA256.hexword ws)) = (8 * List.length ws)%nat.
Proof.
  induction ws as [|w ws IH]; [reflexivity|].
  cbn [map List.concat]. rewrite length_app, IH.
  unfold SHA256.hexword. rewrite length_map. cbn [List.length]. lia.
Qed.

Lemma string_of_list_ascii_length (l : list ascii) :
  String.length (string_of_list_ascii l) = List.length l.
Proof. induction l as [|c l IH]; cbn; now rewrite ?IH. Qed.

(** X24. [hash_password] returns, for every password, a text of 64
    characters, each of them one of the digits 0 to 9 or the letters a
    to f. *)
Theorem hash_password_is_64_hex_digits (pwd : string) :
  String.length (hash_password pwd) = 64%nat
  /\ Forall (fun c => In c (list_ascii_of_string "0123456789abcdef"))
            (list_ascii_of_string (hash_password pwd)).
Proof.
  unfold hash_password, SHA256.hexdigest. split.
  - now rewrite string_of_list_ascii_length, concat_hexword_length, digest_length.
  - rewrite list_ascii_of_string_of_list_ascii. apply Forall_concat.
    apply Forall_map. apply Forall_forall. intros w _.
    unfold SHA256.hexword. apply Forall_map. apply Forall_forall. intros i _.
    apply hexdigit_in.
Qed.

Lemma ascii_eqb_neq (a b : ascii) : Ascii.eqb a b = false <-> a <> b.
Proof.
  split.
  - intros H E. subst. now rewrite Ascii.eqb_refl in H.
  - intro H. destruct (Ascii.eqb a b) eqn:E; [|reflexivity].
    apply Ascii.eqb_eq in E. contradiction.
Qed.

(** X25. On a text without the letter X, as the text of a formatted
    number is, the three replacements of [money] exchange every comma
    with a point and every point with a comma and keep every other
    character. *)
Theorem money_swaps_separators (formatted : string) :
  free_of "X" formatted = true ->
  money formatted = string_map swap_separator formatted.
Proof.
  unfold money. induction formatted as [|c s IH]; [reflexivity|].
  cbn [free_of replace_char string_map]. rewrite andb_true_iff, negb_true_iff.
  intros [Hc Hs]. rewrite (IH Hs). f_equal. unfold swap_separator.
  destruct (Ascii.eqb c ",") eqn:E1.
  - reflexivity.
  - destruct (Ascii.eqb c ".") eqn:E2.
    + reflexivity.
    + now rewrite Hc.
Qed.

Lemma money_swaps_separators_witness :
  money "R$ 1,234.50" = "R$ 1.234,50".
Proof.
  rewrite (money_swaps_separators "R$ 1,234.50"); reflexivity.
Defined.

(* ================================================================== *)
(** * The menu loop *)

Lemma set_bank_same (st : Cli.t) : Cli.set_bank (Cli.bank st) st = st.
Proof. now destruct st. Qed.

Lemma on_bank_auth cpf pwd (st : Cli.t) :
  Cli.on_bank (Bank.auth cpf pwd) st = (fst (Bank.auth cpf pwd (Cli.bank st)), st).
Proof.
  unfold Cli.on_bank. rewrite auth_cases.
  destruct (dict_get cpf (Bank.users (Cli.bank st))) as [u|];
    [destruct (User.password_hash u =? hash_password pwd)%string|];
    cbn [fst]; now rewrite set_bank_same.
Qed.

Lemma on_bank_get_account n (st : Cli.t) :
  Cli.on_bank (Bank.get_account n) st = (fst (Bank.get_account n (Cli.bank st)), st).
Proof.
  unfold Cli.on_bank. rewrite get_account_cases.
  destruct (dict_get n (Bank.accounts (Cli.bank st))); cbn [fst]; now rewrite set_bank_same.
Qed.

Lemma pass_create_user cpf name pwd (st : Cli.t) :
  Cli.pass (Cli.CreateUser cpf name pwd) st
  = Cli.set_bank (snd (Bank.create_user cpf name pwd (Cli.bank st))) st.
Proof.
  unfold Cli.pass, Cli.handle, Cli.on_bank.
  now destruct (Bank.create_user cpf name pwd (Cli.bank st)).
Qed.

Lemma pass_login cpf pwd (st : Cli.t) :
  Cli.pass (Cli.Login cpf pwd) st
  = match Bank.auth cpf pwd (Cli.bank st) with
    | (Raised _, _) => st
    | (Returned u, _) =>
        match User.accounts u with
        | [] => Cli.mk (Cli.bank st) (Some cpf) None (Cli.data_file st)
        | n :: _ =>
            match dict_get n (Bank.accounts (Cli.bank st)) with
            | Some _ => Cli.mk (Cli.bank st) (Some cpf) (Some n) (Cli.data_file st)
            | None => Cli.mk (Cli.bank st) (Some cpf) (Cli.current_account st)
                             (Cli.data_file st)
            end
        end
    end.
Proof.
  unfold Cli.pass, Cli.handle. unfold bind at 1. rewrite on_bank_auth.
  destruct (Bank.auth cpf pwd (Cli.bank st)) as [[u|e] b]; cbn [fst snd]; [|reflexivity].
  unfold bind at 1. unfold modify at 1.
  destruct (User.accounts u) as [|n l]; [reflexivity|].
  unfold bind at 1. rewrite on_bank_get_account, get_account_cases.
  cbn [Cli.set_current_user Cli.bank].
  destruct (dict_get n (Bank.accounts (Cli.bank st))); reflexivity.
Qed.

Lemma pass_create_account (st : Cli.t) :
  Cli.pass Cli.CreateAccount st
  = match Cli.current_user st with
    | None => st
    | Some k =>
        match dict_get k (Bank.users (Cli.bank st)) with
        | None => st
        | Some u =>
            match Bank.create_account (User.cpf u) (Cli.bank st) with
            | (Returned acc, b) =>
                Cli.mk b (Some k) (Some (Account.number acc)) (Cli.data_file st)
            | (Raised _, b) => Cli.set_bank b st
            end
        end
    end.
Proof.
  unfold Cli.pass, Cli.handle. unfold bind at 1. unfold get at 1.
  destruct (Cli.current_user st) as [k|] eqn:Ek; [|reflexivity].
  unfold bind at 1. unfold Cli.user_of at 1. unfold bind at 1. unfold get at 1.
  unfold subscript.
  destruct (dict_get k (Bank.users (Cli.bank st))) as [u|]; [|reflexivity].
  unfold ret at 1. unfold bind at 1. unfold Cli.on_bank at 1.
  destruct (Bank.create_account (User.cpf u) (Cli.bank st)) as [[acc|e] b]; [|reflexivity].
  unfold modify, Cli.set_current_account, Cli.set_bank.
  cbn [snd Cli.bank Cli.current_user Cli.data_file]. now rewrite Ek.
Qed.

Lemma for_each_get_account (l : list string) (st : Cli.t) :
  for_each l (fun n => (_ <- Cli.on_bank (Bank.get_account n) ;; ret tt)%action) st
  = (if forallb (fun n => dict_mem n (Bank.accounts (Cli.bank st))) l
     then Returned tt else Raised AccountNotFound, st).
Proof.
  unfold for_each. induction l as [|n l IH]; cbn [fold_m forallb]; [reflexivity|].
  unfold bind at 1. unfold bind at 1. rewrite on_bank_get_account, get_account_cases.
  unfold dict_mem at 1.
  destruct (dict_get n (Bank.accounts (Cli.bank st))); cbn [fst andb]; [|reflexivity].
  unfold ret at 1. exact IH.
Qed.

Lemma pass_select_account sel (st : Cli.t) :
  Cli.pass (Cli.SelectAccount sel) st
  = match Cli.current_user st with
    | None => st
    | Some k =>
        match dict_get k (Bank.users (Cli.bank st)) with
        | None => st
        | Some u =>
            match User.accounts u with
            | [] => st
            | _ =>
                if forallb (fun n => dict_mem n (Bank.accounts (Cli.bank st)))
                           (User.accounts u)
                   && dict_mem sel (Bank.accounts (Cli.bank st))
                then Cli.set_current_account (Some sel) st
                else st
            end
        end
    end.
Proof.
  unfold Cli.pass, Cli.handle. unfold bind at 1. unfold get at 1.
  destruct (Cli.current_user st) as [k|]; [|reflexivity].
  unfold bind at 1. unfold Cli.user_of at 1. unfold bind at 1. unfold get at 1.
  unfold subscript.
  destruct (dict_get k (Bank.users (Cli.bank st))) as [u|]; [|reflexivity].
  unfold ret at 1.
  destruct (User.accounts u) as [|n l] eqn:El; [reflexivity|]. rewrite <- El.
  unfold bind at 1. rewrite for_each_get_account.
  destruct (forallb _ (User.accounts u)); cbn [andb]; [|reflexivity].
  unfold bind at 1. rewrite on_bank_get_account, get_account_cases. unfold dict_mem.
  destruct (dict_get sel (Bank.accounts (Cli.bank st))); reflexivity.
Qed.

Lemma pass_call_on_account (key : string) (c : call) (st : Cli.t) :
  snd (Cli.on_account key (perform c) st)
  = match dict_get key (Bank.accounts (Cli.bank st)) with
    | Some a =>
        Cli.set_bank
          (Bank.set_accounts (dict_set key (snd (perform c a)) (Bank.accounts (Cli.bank st)))
                             (Cli.bank st)) st
    | None => st
    end.
Proof.
  unfold Cli.on_account.
  destruct (dict_get key (Bank.accounts (Cli.bank st))) as [a|]; [|reflexivity].
  now destruct (perform c a).
Qed.

Lemma pass_make_deposit val note ts (st : Cli.t) :
  Cli.pass (Cli.MakeDeposit val note ts) st
  = match Cli.current_account st, val with
    | Some key, Some v => snd (Cli.on_account key (perform (Deposit ts v note)) st)
    | _, _ => st
    end.
Proof.
  unfold Cli.pass, Cli.handle. unfold bind, get.
  destruct (Cli.current_account st) as [key|]; [|reflexivity].
  destruct val as [v|]; reflexivity.
Qed.

Lemma pass_make_withdrawal val note today ts (st : Cli.t) :
  Cli.pass (Cli.MakeWithdrawal val note today ts) st
  = match Cli.current_account st, val with
    | Some key, Some v => snd (Cli.on_account key (perform (Withdraw today ts v note)) st)
    | _, _ => st
    end.
Proof.
  unfold Cli.pass, Cli.handle. unfold bind, get.
  destruct (Cli.current_account st) as [key|]; [|reflexivity].
  destruct val as [v|]; reflexivity.
Qed.

Lemma pass_save (st : Cli.t) :
  Cli.pass Cli.Save st = Cli.set_data_file (Some (Bank.save (Cli.bank st))) st.
Proof. reflexivity. Qed.

Lemma pass_exit (st : Cli.t) :
  Cli.pass Cli.Exit st = Cli.set_data_file (Some (Bank.save (Cli.bank st))) st.
Proof. reflexivity. Qed.

Lemma dict_mem_set (V : Type) (k k' : string) (v : V) (d : dict V) :
  dict_mem k' (dict_set k v d) = ((k =? k')%string || dict_mem k' d)%bool.
Proof.
  unfold dict_mem. rewrite dict_get_set. now destruct (k =? k')%string.
Qed.

Lemma dict_mem_set_old (V : Type) (k k' : string) (v : V) (d : dict V) :
  dict_mem k' d = true -> dict_mem k' (dict_set k v d) = true.
Proof. intro H. rewrite dict_mem_set, H. apply Bool.orb_true_r. Qed.

(** ** What a pass keeps *)

Lemma pass_reachable (c : Cli.command) (st : Cli.t) :
  reachable (Cli.bank st) -> Cli.valid_command c = true ->
  reachable (Cli.bank (Cli.pass c st)).
Proof.
  intros Hr Hv. destruct c as [cpf name pwd|cpf pwd| |sel|val note ts|val note today ts| | | | |].
  - rewrite pass_create_user. cbn [Cli.set_bank Cli.bank]. now apply reachable_create_user.
  - rewrite pass_login. destruct (Bank.auth cpf pwd (Cli.bank st)) as [[u|e] b]; [|exact Hr].
    destruct (User.accounts u) as [|n l]; [exact Hr|].
    destruct (dict_get n (Bank.accounts (Cli.bank st))); exact Hr.
  - rewrite pass_create_account. destruct (Cli.current_user st) as [k|]; [|exact Hr].
    destruct (dict_get k (Bank.users (Cli.bank st))) as [u|]; [|exact Hr].
    pose proof (reachable_create_account _ (User.cpf u) Hr) as H.
    destruct (Bank.create_account (User.cpf u) (Cli.bank st)) as [[acc|e] b]; exact H.
  - rewrite pass_select_account. destruct (Cli.current_user st) as [k|]; [|exact Hr].
    destruct (dict_get k (Bank.users (Cli.bank st))) as [u|]; [|exact Hr].
    destruct (User.accounts u) as [|n l]; [exact Hr|].
    destruct (_ && _)%bool; exact Hr.
  - rewrite pass_make_deposit. destruct (Cli.current_account st) as [key|]; [|exact Hr].
    destruct val as [v|]; [|exact Hr]. rewrite pass_call_on_account.
    destruct (dict_get key (Bank.accounts (Cli.bank st))) as [a|] eqn:Ea; [|exact Hr].
    cbn [Cli.set_bank Cli.bank]. now apply reachable_call with (acc := a).
  - rewrite pass_make_withdrawal. destruct (Cli.current_account st) as [key|]; [|exact Hr].
    destruct val as [v|]; [|exact Hr]. rewrite pass_call_on_account.
    destruct (dict_get key (Bank.accounts (Cli.bank st))) as [a|] eqn:Ea; [|exact Hr].
    cbn [Cli.set_bank Cli.bank]. now apply reachable_call with (acc := a).
  - exact Hr.
  - exact Hr.
  - exact Hr.
  - exact Hr.
  - exact Hr.
Qed.

Lemma pass_selections_valid (c : Cli.command) (st : Cli.t) :
  Cli.selections_valid st -> Cli.selections_valid (Cli.pass c st).
Proof.
  intros Hs. pose proof Hs as [HU HA].
  destruct c as [cpf name pwd|cpf pwd| |sel|val note ts|val note today ts| | | | |].
  - rewrite pass_create_user, create_user_cases.
    destruct (dict_mem cpf (Bank.users (Cli.bank st))); cbn [snd].
    + rewrite set_bank_same. exact Hs.
    + split; cbn [Cli.set_bank Cli.bank Cli.current_user Cli.current_account
                  Bank.users Bank.accounts].
      * intros k Hk. apply dict_mem_set_old, HU, Hk.
      * exact HA.
  - rewrite pass_login, auth_cases.
    destruct (dict_get cpf (Bank.users (Cli.bank st))) as [u|] eqn:Eu; [|exact Hs].
    destruct (User.password_hash u =? hash_password pwd)%string; [|exact Hs].
    assert (Hcpf : forall k, Some cpf = Some k -> dict_mem k (Bank.users (Cli.bank st)) = true).
    { intros k [= <-]. exact (dict_get_mem _ _ _ Eu). }
    destruct (User.accounts u) as [|n l].
    + split; cbn [Cli.bank Cli.current_user Cli.current_account]; [exact Hcpf|discriminate].
    + destruct (dict_get n (Bank.accounts (Cli.bank st))) as [a|] eqn:Ea;
        (split; cbn [Cli.bank Cli.current_user Cli.current_account]; [exact Hcpf|]).
      * intros k [= <-]. exact (dict_get_mem _ _ _ Ea).
      * exact HA.
  - rewrite pass_create_account. destruct (Cli.current_user st) as [k|] eqn:Ek; [|exact Hs].
    destruct (dict_get k (Bank.users (Cli.bank st))) as [u|]; [|exact Hs].
    rewrite create_account_cases.
    generalize (str (100000 + len (Bank.accounts (Cli.bank st)) + 1)). intro number.
    cbv zeta.
    destruct (dict_get (User.cpf u) (Bank.users (Cli.bank st))) as [o|].
    + split; cbn [Cli.bank Cli.current_user Cli.current_account Bank.users Bank.accounts].
      * intros k' [= <-]. now apply dict_mem_set_old, HU.
      * intros k' [= <-]. unfold Account.new. cbn [Account.number].
        rewrite dict_mem_set, String.eqb_refl. reflexivity.
    + rewrite set_bank_same. exact Hs.
  - rewrite pass_select_account. destruct (Cli.current_user st) as [k|] eqn:Ek; [|exact Hs].
    destruct (dict_get k (Bank.users (Cli.bank st))) as [u|]; [|exact Hs].
    destruct (User.accounts u) as [|n l]; [exact Hs|].
    destruct (forallb _ _); cbn [andb]; [|exact Hs].
    destruct (dict_mem sel (Bank.accounts (Cli.bank st))) eqn:Es; [|exact Hs].
    split; cbn [Cli.set_current_account Cli.bank Cli.current_user Cli.current_account].
    + intros k' Hk'. rewrite Ek in Hk'. exact (HU _ Hk').
    + now intros k' [= <-].
  - rewrite pass_make_deposit. destruct (Cli.current_account st) as [key|] eqn:Ek; [|exact Hs].
    destruct val as [v|]; [|exact Hs]. rewrite pass_call_on_account.
    destruct (dict_get key (Bank.accounts (Cli.bank st))) as [a|]; [|exact Hs].
    split; cbn [Cli.set_bank Cli.bank Cli.current_user Cli.current_account
                Bank.set_accounts Bank.users Bank.accounts].
    + exact HU.
    + intros k' Hk'. rewrite Ek in Hk'. apply dict_mem_set_old, HA, Hk'.
  - rewrite pass_make_withdrawal. destruct (Cli.current_account st) as [key|] eqn:Ek; [|exact Hs].
    destruct val as [v|]; [|exact Hs]. rewrite pass_call_on_account.
    destruct (dict_get key (Bank.accounts (Cli.bank st))) as [a|]; [|exact Hs].
    split; cbn [Cli.set_bank Cli.bank Cli.current_user Cli.current_account
                Bank.set_accounts Bank.users Bank.accounts].
    + exact HU.
    + intros k' Hk'. rewrite Ek in Hk'. apply dict_mem_set_old, HA, Hk'.
  - exact Hs.
  - exact Hs.
  - exact Hs.
  - exact Hs.
  - exact Hs.
Qed.

Lemma pass_data_file (c : Cli.command) (st : Cli.t) :
  Cli.saves c = false -> Cli.data_file (Cli.pass c st) = Cli.data_file st.
Proof.
  intro Hs.
  destruct c as [cpf name pwd|cpf pwd| |sel|val note ts|val note today ts| | | | |];
    try discriminate Hs.
  - now rewrite pass_create_user.
  - rewrite pass_login. destruct (Bank.auth cpf pwd (Cli.bank st)) as [[u|e] b]; [|reflexivity].
    destruct (User.accounts u) as [|n l]; [reflexivity|].
    now destruct (dict_get n (Bank.accounts (Cli.bank st))).
  - rewrite pass_create_account. destruct (Cli.current_user st) as [k|]; [|reflexivity].
    destruct (dict_get k (Bank.users (Cli.bank st))) as [u|]; [|reflexivity].
    now destruct (Bank.create_account (User.cpf u) (Cli.bank st)) as [[acc|e] b].
  - rewrite pass_select_account. destruct (Cli.current_user st) as [k|]; [|reflexivity].
    destruct (dict_get k (Bank.users (Cli.bank st))) as [u|]; [|reflexivity].
    destruct (User.accounts u) as [|n l]; [reflexivity|].
    now destruct (_ && _)%bool.
  - rewrite pass_make_deposit. destruct (Cli.current_account st) as [key|]; [|reflexivity].
    destruct val as [v|]; [|reflexivity]. rewrite pass_call_on_account.
    now destruct (dict_get key (Bank.accounts (Cli.bank st))).
  - rewrite pass_make_withdrawal. destruct (Cli.current_account st) as [key|]; [|reflexivity].
    destruct val as [v|]; [|reflexivity]. rewrite pass_call_on_account.
    now destruct (dict_get key (Bank.accounts (Cli.bank st))).
  - reflexivity.
  - reflexivity.
  - reflexivity.
Qed.

(** ** Sessions *)

Lemma session_cons (c : Cli.command) (cmds : list Cli.command) (st : Cli.t) :
  Cli.session (c :: cmds) st
  = match c with
    | Cli.Exit => Cli.pass Cli.Exit st
    | _ => Cli.session cmds (Cli.pass c st)
    end.
Proof. now destruct c. Qed.

Lemma session_reachable (cmds : list Cli.command) (st : Cli.t) :
  reachable (Cli.bank st) -> forallb Cli.valid_command cmds = true ->
  reachable (Cli.bank (Cli.session cmds st)).
Proof.
  revert st. induction cmds as [|c cmds IH]; intros st Hr Hv; [exact Hr|].
  cbn [forallb] in Hv. apply andb_prop in Hv as [Hc Hv].
  rewrite session_cons.
  assert (H : reachable (Cli.bank (Cli.session cmds (Cli.pass c st))))
    by (apply IH; [now apply pass_reachable|exact Hv]).
  destruct c; try exact H. exact Hr.
Qed.

Lemma session_selections_valid (cmds : list Cli.command) (st : Cli.t) :
  Cli.selections_valid st -> Cli.selections_valid (Cli.session cmds st).
Proof.
  revert st. induction cmds as [|c cmds IH]; intros st Hs; [exact Hs|].
  rewrite session_cons.
  assert (H : Cli.selections_valid (Cli.session cmds (Cli.pass c st)))
    by (apply IH; now apply pass_selections_valid).
  destruct c; try exact H. exact (pass_selections_valid Cli.Exit st Hs).
Qed.

Lemma session_ends_with_exit (cmds : list Cli.command) (st : Cli.t) :
  reachable (Cli.bank st) -> forallb Cli.valid_command cmds = true ->
  exists st0, reachable (Cli.bank st0)
              /\ Cli.session (cmds ++ [Cli.Exit]) st = Cli.pass Cli.Exit st0.
Proof.
  revert st. induction cmds as [|c cmds IH]; intros st Hr Hv.
  - exists st. now split.
  - cbn [forallb] in Hv. apply andb_prop in Hv as [Hc Hv].
    rewrite <- app_comm_cons, session_cons.
    destruct (IH (Cli.pass c st) (pass_reachable c st Hr Hc) Hv) as (st0 & H0 & E0).
    destruct c; try (exists st0; split; [exact H0|exact E0]).
    exists st. now split.
Qed.

Lemma start_of_saved (self : Bank.t) :
  reachable self ->
  Cli.start (Some (Bank.save self))
  = (Returned tt, Cli.mk self None None (Some (Bank.save self))).
Proof.
  intro Hr. destruct (reachable_invariant self Hr) as [Hv _].
  unfold Cli.start. destruct self as [users accounts].
  unfold valid_bank in Hv. cbn [Bank.users Bank.accounts] in Hv.
  apply andb_prop in Hv as [Hv Ha]. apply andb_prop in Hv as [Hu Hk].
  now rewrite (load_of_save users accounts Bank.init Hu Hk Ha).
Qed.

Lemma ana_logged_in_reachable : reachable (Cli.bank ana_logged_in).
Proof.
  apply session_reachable; [exact reachable_init|vm_compute; reflexivity].
Qed.

(** X26. Whatever is typed at the menu, the bank of [main] stays a
    state the repository can reach through its methods, and the user
    and the account that are selected stay objects of that bank. *)
Theorem session_keeps_bank_reachable (cmds : list Cli.command) (st : Cli.t) :
  reachable (Cli.bank st) ->
  Cli.selections_valid st ->
  forallb Cli.valid_command cmds = true ->
  reachable (Cli.bank (Cli.session cmds st))
  /\ Cli.selections_valid (Cli.session cmds st).
Proof.
  intros Hr Hs Hv. split.
  - now apply session_reachable.
  - now apply session_selections_valid.
Qed.

Lemma session_keeps_bank_reachable_witness :
  reachable (Cli.bank (Cli.session two_users first_run))
  /\ Cli.selections_valid (Cli.session two_users first_run).
Proof.
  apply (session_keeps_bank_reachable two_users first_run).
  - exact reachable_init.
  - split; intros k H; discriminate H.
  - vm_compute. reflexivity.
Defined.

(** X27. Option 2 on a bank the repository can reach: when [auth]
    returns a user, that user is logged in and the first account of its
    list is selected, or no account when the list is empty; when [auth]
    raises, the pass changes nothing, so an earlier login stays. *)
Theorem login_selects_first_account (cpf pwd : string) (st : Cli.t) :
  reachable (Cli.bank st) ->
  Cli.pass (Cli.Login cpf pwd) st
  = match fst (Bank.auth cpf pwd (Cli.bank st)) with
    | Returned u =>
        Cli.mk (Cli.bank st) (Some cpf) (hd_error (User.accounts u)) (Cli.data_file st)
    | Raised _ => st
    end.
Proof.
  intro Hr. rewrite pass_login, auth_cases.
  destruct (dict_get cpf (Bank.users (Cli.bank st))) as [u|] eqn:Eu; [|reflexivity].
  destruct (User.password_hash u =? hash_password pwd)%string; [|reflexivity].
  cbn [fst]. destruct (User.accounts u) as [|n l] eqn:El; [reflexivity|].
  destruct (reachable_linked _ Hr) as [UL _]. destruct (UL cpf u Eu) as [_ Hacc].
  destruct (Hacc n) as (a & Ha & _); [rewrite El; now left|].
  now rewrite Ha.
Qed.

Lemma login_selects_first_account_witness :
  Cli.pass (Cli.Login "11122233344" "abc123") (Cli.mk mari_bank None None None)
  = match fst (Bank.auth "11122233344" "abc123"
                         (Cli.bank (Cli.mk mari_bank None None None))) with
    | Returned u =>
        Cli.mk (Cli.bank (Cli.mk mari_bank None None None)) (Some "11122233344")
               (hd_error (User.accounts u))
               (Cli.data_file (Cli.mk mari_bank None None None))
    | Raised _ => Cli.mk mari_bank None None None
    end.
Proof.
  apply (login_selects_first_account "11122233344" "abc123"
           (Cli.mk mari_bank None None None)).
  exact mari_bank_reachable.
Defined.

(** X28. Option 4, for a logged-in user who has an account: the number
    that is typed is selected when the bank holds an account under it,
    whoever owns that account, and the pass changes nothing when it
    holds none. *)
Theorem select_account_ignores_owner (k sel : string) (u : User.t) (st : Cli.t) :
  reachable (Cli.bank st) ->
  Cli.current_user st = Some k ->
  dict_get k (Bank.users (Cli.bank st)) = Some u ->
  User.accounts u <> [] ->
  Cli.pass (Cli.SelectAccount sel) st
  = if dict_mem sel (Bank.accounts (Cli.bank st))
    then Cli.set_current_account (Some sel) st
    else st.
Proof.
  intros Hr Ek Eu Hne. rewrite pass_select_account, Ek, Eu.
  destruct (User.accounts u) as [|n l] eqn:El; [now elim Hne|].
  destruct (reachable_linked _ Hr) as [UL _]. destruct (UL k u Eu) as [_ Hacc].
  replace (forallb (fun n0 => dict_mem n0 (Bank.accounts (Cli.bank st))) (n :: l))
    with true; [reflexivity|].
  symmetry. apply forallb_forall. intros m Hm.
  destruct (Hacc m) as (a & Ha & _); [now rewrite El|].
  exact (dict_get_mem _ _ _ Ha).
Qed.

Lemma select_account_ignores_owner_witness :
  Cli.pass (Cli.SelectAccount "100001") ana_logged_in
  = if dict_mem "100001" (Bank.accounts (Cli.bank ana_logged_in))
    then Cli.set_current_account (Some "100001") ana_logged_in
    else ana_logged_in.
Proof.
  apply (select_account_ignores_owner "55566677788" "100001"
           (User.mk "55566677788" "Ana" (hash_password "segredo") ["100002"])
           ana_logged_in ana_logged_in_reachable).
  - vm_compute. reflexivity.
  - vm_compute. reflexivity.
  - discriminate.
Defined.

(** X29. [DATA_FILE] is written by options 9 and 0 only: a session
    without them leaves the file as it was, so what it did to the bank
    is not there at the next start. *)
Theorem file_written_only_on_save (cmds : list Cli.command) (st : Cli.t) :
  forallb (fun c => negb (Cli.saves c)) cmds = true ->
  Cli.data_file (Cli.session cmds st) = Cli.data_file st.
Proof.
  revert st. induction cmds as [|c cmds IH]; intros st Hv; [reflexivity|].
  cbn [forallb] in Hv. apply andb_prop in Hv as [Hc Hv].
  apply Bool.negb_true_iff in Hc.
  rewrite session_cons.
  assert (H : Cli.data_file (Cli.session cmds (Cli.pass c st)) = Cli.data_file st)
    by (rewrite IH by exact Hv; now apply pass_data_file).
  destruct c; try exact H. discriminate Hc.
Qed.

Lemma file_written_only_on_save_witness :
  Cli.data_file (Cli.session two_users first_run) = Cli.data_file first_run.
Proof.
  apply (file_written_only_on_save two_users first_run).
  vm_compute. reflexivity.
Defined.

(** X30. A session that ends with option 0, started on a bank the
    repository can reach: the next start of [main] loads without an
    exception and has the bank of the end of the session, with nobody
    logged in and no account selected. *)
Theorem exit_then_start_restores (cmds : list Cli.command) (st : Cli.t) :
  reachable (Cli.bank st) ->
  forallb Cli.valid_command cmds = true ->
  Cli.start (Cli.data_file (Cli.session (cmds ++ [Cli.Exit]) st))
  = (Returned tt,
     Cli.mk (Cli.bank (Cli.session (cmds ++ [Cli.Exit]) st)) None None
            (Cli.data_file (Cli.session (cmds ++ [Cli.Exit]) st))).
Proof.
  intros Hr Hv. destruct (session_ends_with_exit cmds st Hr Hv) as (st0 & H0 & E0).
  rewrite E0, pass_exit. cbn [Cli.set_data_file Cli.data_file Cli.bank].
  now apply start_of_saved.
Qed.

Lemma exit_then_start_restores_witness :
  Cli.start (Cli.data_file (Cli.session (two_users ++ [Cli.Exit]) first_run))
  = (Returned tt,
     Cli.mk (Cli.bank (Cli.session (two_users ++ [Cli.Exit]) first_run)) None None
            (Cli.data_file (Cli.session (two_users ++ [Cli.Exit]) first_run))).
Proof.
  apply (exit_then_start_restores two_users first_run).
  - exact reachable_init.
  - vm_compute. reflexivity.
Defined.

(** ** Worked examples of the menu *)

Example start_without_file : Cli.start None = (Returned tt, first_run).
Proof. reflexivity. Qed.

Example ana_is_logged_in :
  Cli.current_user ana_logged_in = Some "55566677788"
  /\ Cli.current_account ana_logged_in = Some "100002"
  /\ Cli.data_file ana_logged_in = None.
Proof. vm_compute. repeat split. Qed.

(** Ana selects the account of Mari and withdraws from it. *)
Example withdrawal_from_the_account_of_another_user :
  map (fun kv => (fst kv, Account.owner_cpf (snd kv), Account.balance (snd kv)))
      (Bank.accounts
         (Cli.bank (Cli.session [Cli.SelectAccount "100001";
                                 Cli.MakeWithdrawal (Some 50%Q) "" day1 noon]
                                ana_logged_in)))
  = [("100001", "11122233344", 150%Q); ("100002", "55566677788", 0%Q)].
Proof. vm_compute. reflexivity. Qed.

(* ================================================================== *)
(** * The ledger on the amounts of Python *)

(** ** Binary64 arithmetic *)

Lemma SFsub_add_opp (prec emax : Z) (x y : spec_float) :
  SFsub prec emax x y = SFadd prec emax x (SFopp y).
Proof.
  destruct x as [sx|sx| |sx mx ex], y as [sy|sy| |sy my ey]; cbn [SFsub SFadd SFopp];
    try reflexivity; destruct sx, sy; reflexivity.
Qed.

(** [x - y] is [x + (-y)], to the bit. *)
Lemma float_sub_add_opp (x y : float) : (x - y)%float = (x + - y)%float.
Proof.
  apply Prim2SF_inj. rewrite sub_spec, add_spec, opp_spec.
  unfold SF64sub, SF64add. apply SFsub_add_opp.
Qed.

(** A NaN is the one number that is not [==] to itself. *)
Lemma is_nan_false_eqb (x : float) : is_nan x = false -> (x =? x)%float = true.
Proof. unfold is_nan. now destruct (x =? x)%float. Qed.

Lemma is_nan_Prim2SF (x : float) : is_nan x = true -> Prim2SF x = S754_nan.
Proof.
  unfold is_nan. rewrite eqb_spec. unfold SFeqb.
  destruct (Prim2SF x) as [s|s| |s m e]; cbn [SFcompare]; try discriminate; [|reflexivity|].
  - now destruct s.
  - rewrite Z.compare_refl, Pos.compare_cont_refl. now destruct s.
Qed.

Lemma Prim2SF_is_nan (x : float) : Prim2SF x = S754_nan -> is_nan x = true.
Proof. intro H. unfold is_nan. rewrite eqb_spec, H. reflexivity. Qed.

Lemma nan_add (x y : float) : is_nan x = true -> is_nan (x + y)%float = true.
Proof.
  intro H. apply Prim2SF_is_nan. rewrite add_spec, (is_nan_Prim2SF x H). reflexivity.
Qed.

Lemma add_nan (x y : float) : is_nan y = true -> is_nan (x + y)%float = true.
Proof.
  intro H. apply Prim2SF_is_nan. rewrite add_spec, (is_nan_Prim2SF y H).
  now destruct (Prim2SF x) as [[]|[]| |].
Qed.

Lemma nan_sub (x y : float) : is_nan x = true -> is_nan (x - y)%float = true.
Proof.
  intro H. apply Prim2SF_is_nan. rewrite sub_spec, (is_nan_Prim2SF x H). reflexivity.
Qed.

Lemma nan_ltb (x y : float) : is_nan x = true -> (x <? y)%float = false.
Proof. intro H. rewrite ltb_spec, (is_nan_Prim2SF x H). reflexivity. Qed.

Lemma nan_leb (x y : float) : is_nan x = true -> (x <=? y)%float = false.
Proof. intro H. rewrite leb_spec, (is_nan_Prim2SF x H). reflexivity. Qed.

Lemma ltb_nan (x y : float) : is_nan y = true -> (x <? y)%float = false.
Proof.
  intro H. rewrite ltb_spec, (is_nan_Prim2SF y H). unfold SFltb.
  now destruct (Prim2SF x).
Qed.

(** ** The two methods *)

Lemma running_sum_snoc (xs : list float) (x : float) :
  Binary64.running_sum (xs ++ [x]) = (Binary64.running_sum xs + x)%float.
Proof. unfold Binary64.running_sum. now rewrite fold_left_app. Qed.

Lemma float_perform_keeps_running_sum (c : Binary64.call) (self : Binary64.Account.t) :
  Binary64.balance_matches_log self ->
  Binary64.balance_matches_log (snd (Binary64.perform c self)).
Proof.
  unfold Binary64.balance_matches_log. intro H.
  destruct c as [ts amount note | today ts amount note]; cbn [Binary64.perform].
  - unfold Binary64.Account.deposit.
    destruct (amount <=? 0)%float; cbn [snd]; [exact H|].
    cbn [Binary64.Account.set_balance Binary64.Account.append_transaction
         Binary64.Account.balance Binary64.Account.transactions].
    rewrite map_app. cbn [map Binary64.Transaction.amount].
    rewrite running_sum_snoc, <- H. reflexivity.
  - unfold Binary64.Account.withdraw.
    destruct (amount <=? 0)%float; cbn [snd]; [exact H|].
    destruct (Binary64.Account.balance self <? amount)%float; cbn [snd]; [exact H|].
    destruct (Binary64.Account.per_withdraw_limit_value self <? amount)%float;
      cbn [snd]; [exact H|].
    destruct (Binary64.Account.withdrawals_today today self
              >=? Binary64.Account.daily_withdraw_limit self); cbn [snd]; [exact H|].
    cbn [Binary64.Account.set_balance Binary64.Account.append_transaction
         Binary64.Account.balance Binary64.Account.transactions].
    rewrite map_app. cbn [map Binary64.Transaction.amount].
    rewrite running_sum_snoc, <- H. apply float_sub_add_opp.
Qed.

(** C1 (amended).  An account whose balance is the running sum of its
    log, the amounts added one by one from 0.0 in the order of the log
    with the rounding of each addition, has that again after each call
    of any sequence of [deposit] and [withdraw] calls, and [==] between
    the balance and that sum is true unless the balance is a NaN. *)
Theorem balance_is_running_sum (self : Binary64.Account.t) (calls : list Binary64.call) :
  Binary64.balance_matches_log self ->
  Forall (fun a =>
            Binary64.balance_matches_log a
            /\ (is_nan (Binary64.Account.balance a) = false ->
                (Binary64.Account.balance a
                 =? Binary64.running_sum
                      (map Binary64.Transaction.amount (Binary64.Account.transactions a)))%float
                = true))
         (Binary64.states_after calls self).
Proof.
  revert self. induction calls as [|c calls IH]; intros self H;
    cbn [Binary64.states_after]; constructor.
  - pose proof (float_perform_keeps_running_sum c self H) as H'. split; [exact H'|].
    intro Hn. rewrite <- H'. now apply is_nan_false_eqb.
  - apply IH. now apply float_perform_keeps_running_sum.
Qed.

Lemma balance_is_running_sum_witness :
  Forall (fun a =>
            Binary64.balance_matches_log a
            /\ (is_nan (Binary64.Account.balance a) = false ->
                (Binary64.Account.balance a
                 =? Binary64.running_sum
                      (map Binary64.Transaction.amount (Binary64.Account.transactions a)))%float
                = true))
         (Binary64.states_after Binary64.history
            (Binary64.Account.new "100001" "11122233344")).
Proof.
  apply (balance_is_running_sum (Binary64.Account.new "100001" "11122233344")
           Binary64.history).
  reflexivity.
Defined.

(** C1 as the specification words it fails.  An account can hold a
    balance that is not the sum of its log ([load] takes both from the
    file), and a deposit that returns does not mend it; and [deposit]
    takes a NaN, which is not [<= 0], after which the balance is not
    [==] to anything. *)
Lemma balance_differs_from_sum :
  (fst (Binary64.Account.deposit morning 10 "" Binary64.loaded_account) = Binary64.Returned
   /\ let a := snd (Binary64.Account.deposit morning 10 "" Binary64.loaded_account) in
      Binary64.Account.balance a = 60%float
      /\ Binary64.running_sum (map Binary64.Transaction.amount (Binary64.Account.transactions a))
         = 10%float
      /\ (Binary64.Account.balance a
          =? Binary64.running_sum
               (map Binary64.Transaction.amount (Binary64.Account.transactions a)))%float
         = false)
  /\ (fst (Binary64.Account.deposit morning nan ""
             (Binary64.Account.new "100001" "11122233344")) = Binary64.Returned
      /\ let a := snd (Binary64.Account.deposit morning nan ""
                         (Binary64.Account.new "100001" "11122233344")) in
         (Binary64.Account.balance a
          =? Binary64.running_sum
               (map Binary64.Transaction.amount (Binary64.Account.transactions a)))%float
         = false).
Proof. vm_compute. repeat split. Qed.

(** Ten deposits of 0.1 into a new account: the balance is
    0.9999999999999999, which is the running sum of the log, and the
    sum that carries the rounding errors along is 1.0. *)
Example ten_deposits_of_a_tenth :
  let calls := repeat (Binary64.Deposit morning 0x1.999999999999ap-4 "") 10 in
  let a := last (Binary64.states_after calls (Binary64.Account.new "100001" "11122233344"))
                (Binary64.Account.new "100001" "11122233344") in
  Binary64.Account.balance a = 0x1.fffffffffffffp-1%float
  /\ Binary64.running_sum (map Binary64.Transaction.amount (Binary64.Account.transactions a))
     = 0x1.fffffffffffffp-1%float
  /\ Binary64.compensated_sum
       (map Binary64.Transaction.amount (Binary64.Account.transactions a))
     = 1%float.
Proof. vm_compute. repeat split. Qed.

(** X1. [withdraw], on floats, returns exactly when none of its four
    checks holds: the amount is not [<= 0], not [>] the balance and not
    [>] the limit per operation, and the withdrawals of the day are
    below the daily limit.  It then subtracts the amount from the
    balance and appends one SAQUE transaction holding the negated
    amount.  A check on amounts does not hold when a NaN is compared,
    so a NaN amount passes the first three. *)
Theorem withdraw_returns_iff today ts amount note (self : Binary64.Account.t) :
  (fst (Binary64.Account.withdraw today ts amount note self) = Binary64.Returned
   <-> (amount <=? 0)%float = false
       /\ (Binary64.Account.balance self <? amount)%float = false
       /\ (Binary64.Account.per_withdraw_limit_value self <? amount)%float = false
       /\ Binary64.Account.withdrawals_today today self
          < Binary64.Account.daily_withdraw_limit self)
  /\ (fst (Binary64.Account.withdraw today ts amount note self) = Binary64.Returned ->
      snd (Binary64.Account.withdraw today ts amount note self)
      = {| Binary64.Account.number := Binary64.Account.number self;
           Binary64.Account.agency := Binary64.Account.agency self;
           Binary64.Account.owner_cpf := Binary64.Account.owner_cpf self;
           Binary64.Account.balance := (Binary64.Account.balance self - amount)%float;
           Binary64.Account.transactions :=
             Binary64.Account.transactions self ++
             [{| Binary64.Transaction.kind := "SAQUE";
                 Binary64.Transaction.amount := (- amount)%float;
                 Binary64.Transaction.timestamp := ts;
                 Binary64.Transaction.note := note |}];
           Binary64.Account.daily_withdraw_limit := Binary64.Account.daily_withdraw_limit self;
           Binary64.Account.per_withdraw_limit_value :=
             Binary64.Account.per_withdraw_limit_value self |})
  /\ (is_nan amount = true ->
      (amount <=? 0)%float = false
      /\ (Binary64.Account.balance self <? amount)%float = false
      /\ (Binary64.Account.per_withdraw_limit_value self <? amount)%float = false).
Proof.
  split; [|split].
  - unfold Binary64.Account.withdraw.
    destruct (amount <=? 0)%float;
      [|destruct (Binary64.Account.balance self <? amount)%float;
        [|destruct (Binary64.Account.per_withdraw_limit_value self <? amount)%float;
          [|destruct (Binary64.Account.withdrawals_today today self
                      >=? Binary64.Account.daily_withdraw_limit self) eqn:E4]]];
      cbn [fst]; split; try discriminate; try (intros (H1 & H2 & H3 & H4); congruence).
    + intros (_ & _ & _ & H). rewrite Z.geb_leb in E4. apply Z.leb_le in E4. lia.
    + intros _. rewrite Z.geb_leb in E4. apply Z.leb_gt in E4. auto.
  - unfold Binary64.Account.withdraw.
    destruct (amount <=? 0)%float; [discriminate|].
    destruct (Binary64.Account.balance self <? amount)%float; [discriminate|].
    destruct (Binary64.Account.per_withdraw_limit_value self <? amount)%float;
      [discriminate|].
    destruct (Binary64.Account.withdrawals_today today self
              >=? Binary64.Account.daily_withdraw_limit self); [discriminate|].
    reflexivity.
  - intro Hn. rewrite (nan_leb amount 0 Hn), !(ltb_nan _ amount Hn). auto.
Qed.

(** X31. [deposit] takes a NaN, which is not [<= 0], and the balance is
    a NaN from then on: it stays one through every sequence of
    [deposit] and [withdraw] calls, and no withdrawal raises
    [InsufficientFunds] again, since no amount is [>] a NaN. *)
Theorem nan_balance_stays (self : Binary64.Account.t) (calls : list Binary64.call) :
  (forall ts amount note,
     is_nan amount = true ->
     fst (Binary64.Account.deposit ts amount note self) = Binary64.Returned
     /\ is_nan (Binary64.Account.balance
                  (snd (Binary64.Account.deposit ts amount note self))) = true)
  /\ (is_nan (Binary64.Account.balance self) = true ->
      Forall (fun a =>
                is_nan (Binary64.Account.balance a) = true
                /\ forall today ts amount note,
                     fst (Binary64.Account.withdraw today ts amount note a)
                     <> Binary64.Raised Binary64.InsufficientFunds)
             (self :: Binary64.states_after calls self)).
Proof.
  split.
  - intros ts amount note Hn. unfold Binary64.Account.deposit.
    rewrite (nan_leb amount 0 Hn). cbn [fst snd]. split; [reflexivity|].
    cbn [Binary64.Account.set_balance Binary64.Account.append_transaction
         Binary64.Account.balance].
    now apply add_nan.
  - intro Hn.
    assert (Hstep : forall c a, is_nan (Binary64.Account.balance a) = true ->
                      is_nan (Binary64.Account.balance (snd (Binary64.perform c a))) = true).
    { intros c a Ha. destruct c as [ts amount note | today ts amount note];
        cbn [Binary64.perform].
      - unfold Binary64.Account.deposit. destruct (amount <=? 0)%float; cbn [snd]; [exact Ha|].
        cbn [Binary64.Account.set_balance Binary64.Account.append_transaction
             Binary64.Account.balance].
        now apply nan_add.
      - unfold Binary64.Account.withdraw.
        destruct (amount <=? 0)%float; cbn [snd]; [exact Ha|].
        destruct (Binary64.Account.balance a <? amount)%float; cbn [snd]; [exact Ha|].
        destruct (Binary64.Account.per_withdraw_limit_value a <? amount)%float;
          cbn [snd]; [exact Ha|].
        destruct (Binary64.Account.withdrawals_today today a
                  >=? Binary64.Account.daily_withdraw_limit a); cbn [snd]; [exact Ha|].
        cbn [Binary64.Account.set_balance Binary64.Account.append_transaction
             Binary64.Account.balance].
        now apply nan_sub. }
    assert (Hnever : forall a, is_nan (Binary64.Account.balance a) = true ->
                       forall today ts amount note,
                         fst (Binary64.Account.withdraw today ts amount note a)
                         <> Binary64.Raised Binary64.InsufficientFunds).
    { intros a Ha today ts amount note. unfold Binary64.Account.withdraw.
      rewrite (nan_ltb _ amount Ha).
      destruct (amount <=? 0)%float; [discriminate|].
      destruct (Binary64.Account.per_withdraw_limit_value a <? amount)%float;
        [discriminate|].
      destruct (Binary64.Account.withdrawals_today today a
                >=? Binary64.Account.daily_withdraw_limit a); discriminate. }
    constructor; [split; [exact Hn | now apply Hnever]|].
    revert self Hn. induction calls as [|c calls IH]; intros self Hn;
      cbn [Binary64.states_after]; constructor.
    + split; [now apply Hstep | apply Hnever; now apply Hstep].
    + apply IH. now apply Hstep.
Qed.

Lemma nan_balance_stays_witness :
  is_nan (Binary64.Account.balance Binary64.nan_account) = true
  /\ Forall (fun a =>
               is_nan (Binary64.Account.balance a) = true
               /\ forall today ts amount note,
                    fst (Binary64.Account.withdraw today ts amount note a)
                    <> Binary64.Raised Binary64.InsufficientFunds)
            (Binary64.nan_account
             :: Binary64.states_after Binary64.history Binary64.nan_account).
Proof.
  split; [reflexivity|].
  apply (nan_balance_stays Binary64.nan_account Binary64.history). reflexivity.
Defined.

(** With the balance a NaN, the three withdrawals of 500 that the
    limits allow on a day return, though nothing but a NaN was ever
    deposited. *)
Example withdrawals_from_a_nan_balance :
  let w := Binary64.Withdraw day1 noon 500 "" in
  let a1 := snd (Binary64.perform w Binary64.nan_account) in
  let a2 := snd (Binary64.perform w a1) in
  fst (Binary64.perform w Binary64.nan_account) = Binary64.Returned
  /\ fst (Binary64.perform w a1) = Binary64.Returned
  /\ fst (Binary64.perform w a2) = Binary64.Returned.
Proof. vm_compute. repeat split. Qed.
